(** * E-commerce cleaning and feature-engineering pipeline

    A shallow embedding of [src/data_cleaning.py] and of the scoring,
    segmentation and country aggregation of [src/feature_engineering.py].

    Tables are pandas DataFrames.  They are Python objects passed by
    reference, so the embedding keeps them in a heap and every function of
    the source is a computation in a state-and-exception monad whose state
    holds that heap and the log written through [loguru].

    Numbers: Python [int] is [Z]; Python and numpy floats are exact
    rationals [Q] (rounding error of binary floating point is not modelled). *)

From Stdlib Require Import ZArith QArith Qround Qabs Lia Lqa String Ascii List DecimalString.
From stdpp Require Import base list strings.

Local Open Scope string_scope.
Local Open Scope list_scope.
Local Open Scope Z_scope.

(** ** Cells, rows and tables *)

(** One cell of a table.  [Null] stands for NaN, None and NaT. *)
Inductive cell : Type :=
| Null
| Str (s : string)
| Int (z : Z)
| Float (q : Q)
| Timestamp (t : Z).

(** A row keeps its index label and one cell per column, in column order. *)
Record Row : Type := mkRow { label : Z; cells : list cell }.

Record DataFrame : Type := mkDF { columns : list string; rows : list Row }.

(** Every row has one cell per column. *)
Definition well_formed (d : DataFrame) : Prop :=
  Forall (fun r => length (cells r) = length (columns d)) (rows d).

(** ** Exceptions, log and interpreter state *)

Inductive exn : Type :=
| KeyError (k : string)
| ZeroDivisionError
| TypeError
| ValueError
| ReferenceError.

Inductive outcome (A : Type) : Type :=
| Ok (a : A)
| Raise (e : exn).
Arguments Ok {A} a.
Arguments Raise {A} e.

Inductive level : Type := INFO | WARNING | ERROR.

(** A numpy float: numpy division by zero gives nan or inf with a warning. *)
Inductive npfloat : Type := Fnan | Finf | Fval (q : Q).

Inductive logarg : Type := AInt (z : Z) | AFloat (f : npfloat) | AStr (s : string).

(** One call of [logger.info], [logger.warning] or [logger.error]: the text
    of the message and the values formatted into it. *)
Record log_entry : Type := mkLog { lvl : level; text : string; args : list logarg }.

(** A reference to a table is its position in the heap. *)
Abbreviation ref := nat (only parsing).

Record state : Type := mkState { heap : list DataFrame; log : list log_entry }.

(** ** The monad of Python computations *)

Definition M (A : Type) : Type := state -> outcome A * state.

Definition ret {A} (a : A) : M A := fun s => (Ok a, s).

Definition raise {A} (e : exn) : M A := fun s => (Raise e, s).

Definition bind {A B} (m : M A) (k : A -> M B) : M B :=
  fun s => match m s with
           | (Ok a, s') => k a s'
           | (Raise e, s') => (Raise e, s')
           end.

Notation "x <- m ;; k" := (bind m (fun x => k))
  (at level 100, m at next level, right associativity).
Notation "m ;;; k" := (bind m (fun _ => k))
  (at level 100, right associativity).

(** [try: m except Exception as e: h e]. *)
Definition try_except {A} (m : M A) (h : exn -> M A) : M A :=
  fun s => match m s with
           | (Ok a, s') => (Ok a, s')
           | (Raise e, s') => h e s'
           end.

Definition lift {A} (o : outcome A) : M A := fun s => (o, s).

Definition deref (r : ref) : M DataFrame :=
  fun s => match heap s !! r with
           | Some d => (Ok d, s)
           | None => (Raise ReferenceError, s)
           end.

(** A new table object. *)
Definition alloc (d : DataFrame) : M ref :=
  fun s => (Ok (length (heap s)), mkState (heap s ++ [d]) (log s)).

(** In-place update of the table object [r]. *)
Definition assign (r : ref) (d : DataFrame) : M unit :=
  fun s => (Ok tt, mkState (<[r := d]> (heap s)) (log s)).

Definition logger (l : level) (t : string) (a : list logarg) : M unit :=
  fun s => (Ok tt, mkState (heap s) (log s ++ [mkLog l t a])).

Fixpoint for_each {A} (l : list A) (body : A -> M unit) : M unit :=
  match l with
  | [] => ret tt
  | x :: l' => body x ;;; for_each l' body
  end.

(** ** Python and numpy arithmetic used in the log messages *)

(** [a / b] on Python ints: raises on a zero divisor. *)
Definition py_truediv (a b : Z) : M Q :=
  if b =? 0 then raise ZeroDivisionError else ret (inject_Z a / inject_Z b)%Q.

(** [a / b] where [a] is a numpy integer (the result of [Series.sum]): no
    exception, nan or inf on a zero divisor. *)
Definition np_truediv (a b : Z) : npfloat :=
  if b =? 0 then (if a =? 0 then Fnan else Finf)
  else Fval (inject_Z a / inject_Z b)%Q.

Definition np_mul (f : npfloat) (k : Q) : npfloat :=
  match f with
  | Fval q => Fval (q * k)%Q
  | other => other
  end.

(** ** The pandas operations the source calls

    Functions of pandas whose result depends on string parsing or on the
    textual form of a number are parameters of the development: every
    theorem holds for each choice of them. *)

Class Pandas : Type := {
  (** [pd.to_datetime] on a column: the converted column, or [None] when
      pandas raises. *)
  to_datetime : list cell -> option (list cell);
  (** [Series.astype(dtype)] for the other dtypes. *)
  astype : string -> list cell -> option (list cell);
  (** [str(x)] of a float and of a timestamp. *)
  repr_float : Q -> string;
  repr_timestamp : Z -> string
}.

(** Position of a column name among the columns. *)
Fixpoint col_pos (c : string) (cols : list string) : option nat :=
  match cols with
  | [] => None
  | c' :: cs => if String.eqb c c' then Some 0%nat else option_map S (col_pos c cs)
  end.

Definition cell_at (i : nat) (r : Row) : cell := nth i (cells r) Null.

(** [df[c]]: the cells of a column, or a KeyError naming it. *)
Definition df_getitem (d : DataFrame) (c : string) : outcome (list cell) :=
  match col_pos c (columns d) with
  | Some i => Ok (map (cell_at i) (rows d))
  | None => Raise (KeyError c)
  end.

(** Boolean indexing: the elements whose mask entry is [True]. *)
Fixpoint select {A} (mask : list bool) (l : list A) : list A :=
  match mask, l with
  | b :: m, x :: l' => if b then x :: select m l' else select m l'
  | _, _ => []
  end.

(** [df[mask]]: a new table with the selected rows, labels kept. *)
Definition df_mask (d : DataFrame) (mask : list bool) : DataFrame :=
  mkDF (columns d) (select mask (rows d)).

Definition row_set (i : nat) (r : Row) (v : cell) : Row :=
  mkRow (label r) (<[i := v]> (cells r)).

Definition row_app (r : Row) (v : cell) : Row :=
  mkRow (label r) (cells r ++ [v]).

(** [df[c] = vals]: replaces the column [c], or appends it when new. *)
Definition df_setitem (d : DataFrame) (c : string) (vals : list cell) : outcome DataFrame :=
  if negb (Nat.eqb (length vals) (length (rows d))) then Raise ValueError
  else match col_pos c (columns d) with
       | Some i => Ok (mkDF (columns d) (zip_with (row_set i) (rows d) vals))
       | None => Ok (mkDF (columns d ++ [c]) (zip_with row_app (rows d) vals))
       end.

Definition isna (c : cell) : bool :=
  match c with Null => true | _ => false end.

(** Positions of the named columns; KeyError on the first missing one. *)
Fixpoint positions (names cols : list string) : outcome (list nat) :=
  match names with
  | [] => Ok []
  | c :: cs => match col_pos c cols with
               | None => Raise (KeyError c)
               | Some i => match positions cs cols with
                           | Ok l => Ok (i :: l)
                           | Raise e => Raise e
                           end
               end
  end.

(** [df.dropna(subset=subset, how=how)]. *)
Definition df_dropna (d : DataFrame) (subset : list string) (how : string) : outcome DataFrame :=
  match positions subset (columns d) with
  | Raise e => Raise e
  | Ok idx =>
      if String.eqb how "any" then
        Ok (df_mask d (map (fun r => forallb (fun i => negb (isna (cell_at i r))) idx) (rows d)))
      else if String.eqb how "all" then
        Ok (df_mask d (map (fun r => existsb (fun i => negb (isna (cell_at i r))) idx) (rows d)))
      else Raise ValueError
  end.

(** Equality of cells as [duplicated] sees it: nulls are equal to nulls. *)
Definition cell_eqb (a b : cell) : bool :=
  match a, b with
  | Null, Null => true
  | Str s, Str t => String.eqb s t
  | Int x, Int y => x =? y
  | Float p, Float q => Qeq_bool p q
  | Timestamp s, Timestamp t => s =? t
  | _, _ => false
  end.

Fixpoint key_eqb (k1 k2 : list cell) : bool :=
  match k1, k2 with
  | [], [] => true
  | a :: k1', b :: k2' => cell_eqb a b && key_eqb k1' k2'
  | _, _ => false
  end.

Definition key_of (idx : list nat) (r : Row) : list cell :=
  map (fun i => cell_at i r) idx.

(** A row is a duplicate when an earlier row has the same key. *)
Fixpoint duplicated_from (seen keys : list (list cell)) : list bool :=
  match keys with
  | [] => []
  | k :: ks => existsb (key_eqb k) seen :: duplicated_from (k :: seen) ks
  end.

Definition subset_positions (d : DataFrame) (subset : option (list string)) : outcome (list nat) :=
  match subset with
  | None => Ok (seq 0 (length (columns d)))
  | Some names => positions names (columns d)
  end.

(** [df.duplicated(subset=subset)], keep='first'. *)
Definition df_duplicated (d : DataFrame) (subset : option (list string)) : outcome (list bool) :=
  match subset_positions d subset with
  | Raise e => Raise e
  | Ok idx => Ok (duplicated_from [] (map (key_of idx) (rows d)))
  end.

(** [df.drop_duplicates(subset=subset)]. *)
Definition df_drop_duplicates (d : DataFrame) (subset : option (list string)) : outcome DataFrame :=
  match df_duplicated d subset with
  | Raise e => Raise e
  | Ok m => Ok (df_mask d (map negb m))
  end.

(** [mask.sum()]. *)
Definition mask_sum (m : list bool) : Z := Z.of_nat (length (List.filter id m)).

(** Comparison of a cell with a number: a null compares false, a string
    or a timestamp raises TypeError. *)
Definition cmp_cell (op : Q -> Q -> bool) (k : Q) (c : cell) : outcome bool :=
  match c with
  | Null => Ok false
  | Int z => Ok (op (inject_Z z) k)
  | Float q => Ok (op q k)
  | Str _ | Timestamp _ => Raise TypeError
  end.

(** Comparison of a column with a number, cell by cell. *)
Fixpoint series_cmp (op : Q -> Q -> bool) (col : list cell) (k : Q) : outcome (list bool) :=
  match col with
  | [] => Ok []
  | c :: cs =>
      match cmp_cell op k c, series_cmp op cs k with
      | Ok b, Ok bs => Ok (b :: bs)
      | Raise e, _ => Raise e
      | _, Raise e => Raise e
      end
  end.

Definition Qge_bool (a b : Q) : bool := Qle_bool b a.
Definition Qlt_bool (a b : Q) : bool := negb (Qle_bool b a).
Definition Qgt_bool (a b : Q) : bool := negb (Qle_bool a b).

(** [col == k] never raises: a cell of another type is just different. *)
Definition series_eq (col : list cell) (k : Q) : list bool :=
  map (fun c => match c with
                | Int z => Qeq_bool (inject_Z z) k
                | Float q => Qeq_bool q k
                | _ => false
                end) col.

(** ** Table operations on references *)

Definition len (df : ref) : M Z :=
  d <- deref df ;; ret (Z.of_nat (length (rows d))).

Definition getitem (df : ref) (c : string) : M (list cell) :=
  d <- deref df ;; lift (df_getitem d c).

(** [df[mask]] is a temporary table value until it is bound or copied. *)
Definition getitem_mask (df : ref) (mask : list bool) : M DataFrame :=
  d <- deref df ;; ret (df_mask d mask).

Definition setitem (df : ref) (c : string) (vals : list cell) : M unit :=
  d <- deref df ;; d' <- lift (df_setitem d c vals) ;; assign df d'.

(** [df.copy()]. *)
Definition copy (df : ref) : M ref :=
  d <- deref df ;; alloc d.

Definition dropna (df : ref) (subset : list string) (how : string) : M DataFrame :=
  d <- deref df ;; lift (df_dropna d subset how).

Definition duplicated (df : ref) (subset : option (list string)) : M (list bool) :=
  d <- deref df ;; lift (df_duplicated d subset).

Definition drop_duplicates (df : ref) (subset : option (list string)) : M DataFrame :=
  d <- deref df ;; lift (df_drop_duplicates d subset).

(** * data_cleaning.py *)

Section Cleaning.
Context `{Pandas}.

(** [Series.astype(str)], cell by cell. *)
Definition astype_str (c : cell) : string :=
  match c with
  | Null => "nan"
  | Str s => s
  | Int z => NilZero.string_of_int (Z.to_int z)
  | Float q => repr_float q
  | Timestamp t => repr_timestamp t
  end.

Definition pd_to_datetime (col : list cell) : M (list cell) :=
  match to_datetime col with
  | Some v => ret v
  | None => raise ValueError
  end.

Definition series_astype (col : list cell) (dtype : string) : M (list cell) :=
  match astype dtype col with
  | Some v => ret v
  | None => raise ValueError
  end.

Definition remove_cancelled_orders (df : ref) (invoice_column cancelled_prefix : string) : M ref :=
  original_rows <- len df ;;
  col <- getitem df invoice_column ;;
  let cancelled_mask := map (fun c => String.prefix cancelled_prefix (astype_str c)) col in
  let cancelled_count := mask_sum cancelled_mask in
  kept <- getitem_mask df (map negb cancelled_mask) ;;
  df_clean <- alloc kept ;;
  logger INFO "Cancelled orders removed"
    [AInt cancelled_count; AFloat (np_mul (np_truediv cancelled_count original_rows) 100)] ;;;
  n <- len df_clean ;;
  logger INFO "Remaining rows" [AInt n] ;;;
  ret df_clean.

Definition remove_missing_values (df : ref) (cols : list string) (how : string) : M ref :=
  original_rows <- len df ;;
  kept <- dropna df cols how ;;
  df_clean <- alloc kept ;;
  n <- len df_clean ;;
  let removed := original_rows - n in
  pct <- py_truediv removed original_rows ;;
  logger INFO "Rows with missing values removed" [AInt removed; AFloat (Fval (pct * 100)%Q)] ;;;
  n <- len df_clean ;;
  logger INFO "Remaining rows" [AInt n] ;;;
  ret df_clean.

Definition remove_invalid_quantities (df : ref) (quantity_column : string) (min_quantity : Z) : M ref :=
  original_rows <- len df ;;
  col <- getitem df quantity_column ;;
  neg <- lift (series_cmp Qlt_bool col 0%Q) ;;
  let negative := mask_sum neg in
  col <- getitem df quantity_column ;;
  let zero := mask_sum (series_eq col 0%Q) in
  col <- getitem df quantity_column ;;
  valid <- lift (series_cmp Qge_bool col (inject_Z min_quantity)) ;;
  kept <- getitem_mask df valid ;;
  df_clean <- alloc kept ;;
  n <- len df_clean ;;
  let removed := original_rows - n in
  logger INFO "Invalid quantities removed" [AInt removed] ;;;
  logger INFO "Negative" [AInt negative] ;;;
  logger INFO "Zero" [AInt zero] ;;;
  n <- len df_clean ;;
  logger INFO "Remaining rows" [AInt n] ;;;
  ret df_clean.

Definition remove_invalid_prices (df : ref) (price_column : string) (min_price max_price : Q) : M ref :=
  original_rows <- len df ;;
  col <- getitem df price_column ;;
  neg <- lift (series_cmp Qlt_bool col 0%Q) ;;
  let negative := mask_sum neg in
  col <- getitem df price_column ;;
  let zero := mask_sum (series_eq col 0%Q) in
  col <- getitem df price_column ;;
  high <- lift (series_cmp Qgt_bool col max_price) ;;
  let too_high := mask_sum high in
  col <- getitem df price_column ;;
  lo <- lift (series_cmp Qge_bool col min_price) ;;
  col <- getitem df price_column ;;
  hi <- lift (series_cmp Qle_bool col max_price) ;;
  kept <- getitem_mask df (lo &&* hi) ;;
  df_clean <- alloc kept ;;
  n <- len df_clean ;;
  let removed := original_rows - n in
  logger INFO "Invalid prices removed" [AInt removed] ;;;
  logger INFO "Negative" [AInt negative] ;;;
  logger INFO "Zero" [AInt zero] ;;;
  logger INFO "Too high" [AFloat (Fval max_price); AInt too_high] ;;;
  n <- len df_clean ;;
  logger INFO "Remaining rows" [AInt n] ;;;
  ret df_clean.

Definition remove_duplicates (df : ref) (subset : option (list string)) : M ref :=
  original_rows <- len df ;;
  dup <- duplicated df subset ;;
  let duplicates := mask_sum dup in
  kept <- drop_duplicates df subset ;;
  df_clean <- alloc kept ;;
  logger INFO "Duplicate rows removed"
    [AInt duplicates; AFloat (np_mul (np_truediv duplicates original_rows) 100)] ;;;
  n <- len df_clean ;;
  logger INFO "Remaining rows" [AInt n] ;;;
  ret df_clean.

(** [type_mappings] is a dict; its items come in insertion order. *)
Definition convert_data_types (df : ref) (type_mappings : list (string * string)) : M ref :=
  df_clean <- copy df ;;
  for_each type_mappings (fun item =>
    let column := fst item in
    let dtype := snd item in
    d <- deref df_clean ;;
    if bool_decide (column ∈ columns d) then
      try_except
        ((if String.eqb dtype "datetime64" then
            col <- getitem df_clean column ;;
            v <- pd_to_datetime col ;;
            setitem df_clean column v
          else
            col <- getitem df_clean column ;;
            v <- series_astype col dtype ;;
            setitem df_clean column v) ;;;
         logger INFO "converted" [AStr column; AStr dtype])
        (fun e => logger ERROR "Error converting" [AStr column; AStr dtype])
    else logger WARNING "Column not found" [AStr column]) ;;;
  ret df_clean.

(** A date given as text, as pandas reads it when a datetime column is
    compared with a string. *)
Definition to_timestamp (s : string) : M Z :=
  match to_datetime [Str s] with
  | Some [Timestamp t] => ret t
  | _ => raise TypeError
  end.

(** Comparison of a datetime column with a timestamp: NaT compares false. *)
Fixpoint series_cmp_ts (op : Z -> Z -> bool) (col : list cell) (t0 : Z) : outcome (list bool) :=
  match col with
  | [] => Ok []
  | c :: cs =>
      match (match c with
             | Null => Ok false
             | Timestamp t => Ok (op t t0)
             | _ => Raise TypeError
             end), series_cmp_ts op cs t0 with
      | Ok b, Ok bs => Ok (b :: bs)
      | Raise e, _ => Raise e
      | _, Raise e => Raise e
      end
  end.

Definition filter_by_date_range (df : ref) (date_column start_date end_date : string) : M ref :=
  original_rows <- len df ;;
  col <- getitem df date_column ;;
  v <- pd_to_datetime col ;;
  setitem df date_column v ;;;
  col <- getitem df date_column ;;
  t0 <- to_timestamp start_date ;;
  lo <- lift (series_cmp_ts Z.geb col t0) ;;
  col <- getitem df date_column ;;
  t1 <- to_timestamp end_date ;;
  hi <- lift (series_cmp_ts Z.leb col t1) ;;
  kept <- getitem_mask df (lo &&* hi) ;;
  df_filtered <- alloc kept ;;
  n <- len df_filtered ;;
  let removed := original_rows - n in
  logger INFO "Rows outside date range removed" [AInt removed] ;;;
  logger INFO "Date range" [AStr start_date; AStr end_date] ;;;
  n <- len df_filtered ;;
  logger INFO "Remaining rows" [AInt n] ;;;
  ret df_filtered.

(** The [config] argument of the source is never read and is left out. *)
Definition clean_ecommerce_data (df : ref) : M ref :=
  logger INFO "================" [] ;;;
  logger INFO "STARTING DATA CLEANING PIPELINE" [] ;;;
  logger INFO "================" [] ;;;
  n <- len df ;;
  d <- deref df ;;
  logger INFO "Initial dataset" [AInt n; AInt (Z.of_nat (length (columns d)))] ;;;
  df_clean <- copy df ;;
  df_clean <- remove_cancelled_orders df_clean "InvoiceNo" "C" ;;
  df_clean <- convert_data_types df_clean [("InvoiceDate", "datetime64")] ;;
  df_clean <- remove_missing_values df_clean ["Description"] "any" ;;
  df_clean <- remove_invalid_quantities df_clean "Quantity" 1 ;;
  df_clean <- remove_invalid_prices df_clean "UnitPrice" (1 # 100)%Q 100000%Q ;;
  df_clean <- remove_duplicates df_clean None ;;
  original_rows <- len df ;;
  final_rows <- len df_clean ;;
  let removed := original_rows - final_rows in
  ratio <- py_truediv final_rows original_rows ;;
  let retention_rate := (ratio * 100)%Q in
  logger INFO "================" [] ;;;
  logger INFO "DATA CLEANING SUMMARY" [] ;;;
  logger INFO "================" [] ;;;
  logger INFO "Original dataset" [AInt original_rows] ;;;
  logger INFO "Cleaned dataset" [AInt final_rows] ;;;
  pct <- py_truediv removed original_rows ;;
  logger INFO "Rows removed" [AInt removed; AFloat (Fval (pct * 100)%Q)] ;;;
  logger INFO "Data retention rate" [AFloat (Fval retention_rate)] ;;;
  logger INFO "================" [] ;;;
  ret df_clean.

End Cleaning.

(** ** The table each cleaning function computes

    The functions of the source work on references.  For the statements
    below, this is the table each of them returns as a function of the
    table it is given, and the ways a call can end. *)

Section CleaningTables.
Context `{Pandas}.

Definition cancelled_rows (col : list cell) (prefix : string) : list bool :=
  map (fun c => String.prefix prefix (astype_str c)) col.

(** The call returns a new table [d'], allocated next to the old heap. *)
Definition returns_fresh (m : M ref) (s : state) (d' : DataFrame) : Prop :=
  exists lg, m s = (Ok (length (heap s)), mkState (heap s ++ [d']) (log s ++ lg)).

(** The call raises [e]; the tables that existed before are as they were. *)
Definition raises (m : M ref) (s : state) (e : exn) : Prop :=
  exists junk lg, m s = (Raise e, mkState (heap s ++ junk) (log s ++ lg)).

Definition runs_as (m : M ref) (s : state) (o : outcome DataFrame) : Prop :=
  match o with
  | Ok d' => returns_fresh m s d'
  | Raise e => raises m s e
  end.

Definition cancelled_removed (d : DataFrame) (invoice_column prefix : string) : outcome DataFrame :=
  match df_getitem d invoice_column with
  | Ok col => Ok (df_mask d (map negb (cancelled_rows col prefix)))
  | Raise e => Raise e
  end.

Definition missing_removed (d : DataFrame) (cols : list string) (how : string) : outcome DataFrame :=
  match df_dropna d cols how with
  | Ok kept => if (Z.of_nat (length (rows d)) =? 0) then Raise ZeroDivisionError else Ok kept
  | Raise e => Raise e
  end.

Definition quantities_valid (d : DataFrame) (quantity_column : string) (min_quantity : Z) : outcome DataFrame :=
  match df_getitem d quantity_column with
  | Ok col => match series_cmp Qge_bool col (inject_Z min_quantity) with
              | Ok valid => Ok (df_mask d valid)
              | Raise e => Raise e
              end
  | Raise e => Raise e
  end.

Definition prices_valid (d : DataFrame) (price_column : string) (min_price max_price : Q) : outcome DataFrame :=
  match df_getitem d price_column with
  | Ok col => match series_cmp Qge_bool col min_price, series_cmp Qle_bool col max_price with
              | Ok lo, Ok hi => Ok (df_mask d (lo &&* hi))
              | Raise e, _ => Raise e
              | _, Raise e => Raise e
              end
  | Raise e => Raise e
  end.

(** One entry of the type mapping applied to a table: a column that is
    absent or whose conversion fails leaves the table as it is. *)
Definition convert_column (d : DataFrame) (column dtype : string) : DataFrame :=
  if bool_decide (column ∈ columns d) then
    match df_getitem d column with
    | Ok col =>
        match (if String.eqb dtype "datetime64" then to_datetime col else astype dtype col) with
        | Some v => match df_setitem d column v with
                    | Ok d' => d'
                    | Raise _ => d
                    end
        | None => d
        end
    | Raise _ => d
    end
  else d.

Definition types_converted (d : DataFrame) (type_mappings : list (string * string)) : DataFrame :=
  fold_left (fun t item => convert_column t (fst item) (snd item)) type_mappings d.

(** The table the whole pipeline returns: the six steps in the order of
    the source, each applied to the table the previous one returned. *)
Definition cleaned (d : DataFrame) : outcome DataFrame :=
  match cancelled_removed d "InvoiceNo" "C" with
  | Raise e => Raise e
  | Ok d1 =>
  let d2 := types_converted d1 [("InvoiceDate", "datetime64")] in
  match missing_removed d2 ["Description"] "any" with
  | Raise e => Raise e
  | Ok d3 =>
  match quantities_valid d3 "Quantity" 1 with
  | Raise e => Raise e
  | Ok d4 =>
  match prices_valid d4 "UnitPrice" (1 # 100)%Q 100000%Q with
  | Raise e => Raise e
  | Ok d5 => df_drop_duplicates d5 None
  end end end end.

(** The messages that end the log of a successful run; the last but one
    carries the retention rate in percent. *)
Definition summary (rows_in rows_kept : Z) : list log_entry :=
  [ mkLog INFO "================" [];
    mkLog INFO "DATA CLEANING SUMMARY" [];
    mkLog INFO "================" [];
    mkLog INFO "Original dataset" [AInt rows_in];
    mkLog INFO "Cleaned dataset" [AInt rows_kept];
    mkLog INFO "Rows removed"
      [AInt (rows_in - rows_kept);
       AFloat (Fval (inject_Z (rows_in - rows_kept) / inject_Z rows_in * 100)%Q)];
    mkLog INFO "Data retention rate"
      [AFloat (Fval (inject_Z rows_kept / inject_Z rows_in * 100)%Q)];
    mkLog INFO "================" [] ].

(** The computation returns a reference to the table [d']; the heap only
    grew, and the log ends with [tail]. *)
Definition returns_table (m : M ref) (s : state) (d' : DataFrame) (tail : list log_entry) : Prop :=
  exists r junk lg,
    m s = (Ok r, mkState (heap s ++ junk) (log s ++ lg ++ tail)) /\
    (heap s ++ junk) !! r = Some d'.

Definition outcome_of (m : M ref) (s : state) (o : outcome DataFrame) (tail : list log_entry) : Prop :=
  match o with
  | Ok d' => returns_table m s d' tail
  | Raise e => raises m s e
  end.

(** ** The post-clean invariants of the transaction table *)

(** The truth value of a comparison that did not raise. *)
Definition cell_test (op : Q -> Q -> bool) (k : Q) (c : cell) : bool :=
  match cmp_cell op k c with
  | Ok b => b
  | Raise _ => false
  end.


Definition notna (c : cell) : bool := negb (isna c).

Definition at_least (k : Q) (c : cell) : bool := cell_test Qge_bool k c.

Definition within (lo hi : Q) (c : cell) : bool :=
  cell_test Qge_bool lo c && cell_test Qle_bool hi c.

(** The table has the column [c] and all its cells pass the test [P]. *)
Definition column_all (d : DataFrame) (c : string) (P : cell -> bool) : Prop :=
  exists col, df_getitem d c = Ok col /\ Forall (fun x => P x = true) col.



(** A call that returns leaves a table whose rows are a sub-sequence of
    the rows of [d], under the same columns. *)
Definition keeps_subsequence (m : M ref) (s : state) (d : DataFrame) : Prop :=
  forall r s', m s = (Ok r, s') ->
    exists d', heap s' !! r = Some d' /\ columns d' = columns d /\
               sublist (rows d') (rows d).

(** [d'] has the columns of [d] and a sub-sequence of its rows. *)
Definition subtable (d' d : DataFrame) : Prop :=
  columns d' = columns d /\ sublist (rows d') (rows d).

Definition numeric (c : cell) : bool :=
  match c with
  | Null | Int _ | Float _ => true
  | Str _ | Timestamp _ => false
  end.


(** The function [m], called on the table [d] alone, returns the table
    [d']. *)
Definition returns_on (m : ref -> M ref) (d d' : DataFrame) : Prop :=
  exists r s', m 0%nat (mkState [d] []) = (Ok r, s') /\ heap s' !! r = Some d'.

(** The message that carries the retention rate, in percent. *)
Definition retention_message (rows_in rows_kept : Z) : log_entry :=
  mkLog INFO "Data retention rate"
    [AFloat (Fval (inject_Z rows_kept / inject_Z rows_in * 100)%Q)].


End CleaningTables.

(** * feature_engineering.py *)

(** ** The pandas operations of the feature engine *)

(** The number in a cell, for ranking and summing: a null is skipped, a
    string is no number. *)
Definition number_of (c : cell) : outcome (option Q) :=
  match c with
  | Null => Ok None
  | Int z => Ok (Some (inject_Z z))
  | Float q => Ok (Some q)
  | Timestamp t => Ok (Some (inject_Z t))
  | Str _ => Raise TypeError
  end.

Fixpoint numbers_of (col : list cell) : outcome (list (option Q)) :=
  match col with
  | [] => Ok []
  | c :: cs => match number_of c, numbers_of cs with
               | Ok x, Ok xs => Ok (x :: xs)
               | Raise e, _ => Raise e
               | _, Raise e => Raise e
               end
  end.

Definition below (x : Q) (o : option Q) : bool :=
  match o with Some y => Qlt_bool y x | None => false end.

Definition equal_to (x : Q) (o : option Q) : bool :=
  match o with Some y => Qeq_bool y x | None => false end.

Definition count {A} (f : A -> bool) (l : list A) : nat := length (List.filter f l).

(** [rank(method='first')] of the value [x] at position [i]: one more than
    the number of smaller values plus the number of equal values seen
    before it. *)
Definition rank_of (vals : list (option Q)) (i : nat) (x : Q) : nat :=
  (1 + count (below x) vals + count (equal_to x) (take i vals))%nat.

(** [Series.rank(method='first', pct=True)]: the rank divided by the number
    of values that are not null; a null has no rank. *)
Definition rank_first_pct (vals : list (option Q)) : list (option Q) :=
  let n := count (fun o => match o with Some _ => true | None => false end) vals in
  imap (fun i o => match o with
                   | None => None
                   | Some x => Some (inject_Z (Z.of_nat (rank_of vals i x))
                                     / inject_Z (Z.of_nat n))%Q
                   end) vals.

(** [bins.searchsorted(x, side='left')] on increasing bins: the number of
    edges below [x]. *)
Definition searchsorted_left (bins : list Q) (x : Q) : nat :=
  count (fun b => Qlt_bool b x) bins.

(** [pd.cut(x, bins, labels)], right-closed intervals: no label at or
    below the first edge, nor above the last one. *)
Definition cut_value (bins : list Q) (labels : list Z) (x : option Q) : option Z :=
  match x with
  | None => None
  | Some q =>
      let ids := searchsorted_left bins q in
      if Nat.eqb ids 0 || Nat.eqb ids (length bins) then None
      else labels !! (ids - 1)%nat
  end.

Definition pd_cut (xs : list (option Q)) (bins : list Q) (labels : list Z) : list (option Z) :=
  map (cut_value bins labels) xs.

(** [.astype(int)] of the labels: a missing label cannot be an integer. *)
Fixpoint astype_int (col : list (option Z)) : outcome (list cell) :=
  match col with
  | [] => Ok []
  | None :: _ => Raise ValueError
  | Some z :: cs => match astype_int cs with
                    | Ok l => Ok (Int z :: l)
                    | Raise e => Raise e
                    end
  end.

Definition rfm_bins : list Q := [0; 2 # 10; 4 # 10; 6 # 10; 8 # 10; 1]%Q.

(** The score column [pd.cut(col.rank(method='first', pct=True), bins,
    labels).astype(int)]. *)
Definition score_column (col : list cell) (labels : list Z) : outcome (list cell) :=
  match numbers_of col with
  | Raise e => Raise e
  | Ok vals => astype_int (pd_cut (rank_first_pct vals) rfm_bins labels)
  end.

(** Sum of two cells as Python adds them in [classify_rfm]. *)
Definition cell_add (a b : cell) : outcome cell :=
  match a, b with
  | Int x, Int y => Ok (Int (x + y))
  | Int x, Float q => Ok (Float (inject_Z x + q))
  | Float p, Int y => Ok (Float (p + inject_Z y))
  | Float p, Float q => Ok (Float (p + q))
  | Null, (Null | Int _ | Float _) => Ok Null
  | (Int _ | Float _), Null => Ok Null
  | Str s, Str t => Ok (Str (s ++ t)%string)
  | _, _ => Raise TypeError
  end.

(** [score >= k] in [classify_rfm]: false on a null. *)
Definition cell_ge (c : cell) (k : Z) : outcome bool := cmp_cell Qge_bool (inject_Z k) c.

(** [row[c]] for a row of the table [d]. *)
Definition row_getitem (d : DataFrame) (r : Row) (c : string) : outcome cell :=
  match col_pos c (columns d) with
  | Some i => Ok (cell_at i r)
  | None => Raise (KeyError c)
  end.

(** [df.apply(f, axis=1)]: [f] on every row, in order.  The model is for
    tables with at least one row: on an empty table pandas returns a table
    instead of a column. *)
Fixpoint apply_rows (f : Row -> outcome cell) (rs : list Row) : outcome (list cell) :=
  match rs with
  | [] => Ok []
  | r :: rs' => match f r with
                | Raise e => Raise e
                | Ok c => match apply_rows f rs' with
                          | Ok cs => Ok (c :: cs)
                          | Raise e => Raise e
                          end
                end
  end.

(** What a cell adds to a sum: a null is skipped. *)
Definition addend (c : cell) : outcome Q :=
  match c with
  | Null => Ok 0%Q
  | Int z => Ok (inject_Z z)
  | Float q => Ok q
  | Str _ | Timestamp _ => Raise TypeError
  end.

(** [Series.sum()]. *)
Fixpoint series_sum (col : list cell) : outcome Q :=
  match col with
  | [] => Ok 0%Q
  | c :: cs => match addend c, series_sum cs with
               | Ok x, Ok a => Ok (x + a)%Q
               | Raise e, _ => Raise e
               | _, Raise e => Raise e
               end
  end.

Definition obind {A B} (o : outcome A) (k : A -> outcome B) : outcome B :=
  match o with
  | Ok a => k a
  | Raise e => Raise e
  end.

Notation "'let?' x := o 'in' k" := (obind o (fun x => k))
  (at level 10, x name, o at level 100, k at level 200).

(** The values of a column that are not null, each once, in the order in
    which they first appear. *)
Fixpoint distinct_from (seen col : list cell) : list cell :=
  match col with
  | [] => []
  | c :: cs =>
      if isna c || existsb (cell_eqb c) seen then distinct_from seen cs
      else c :: distinct_from (c :: seen) cs
  end.

Definition distinct (col : list cell) : list cell := distinct_from [] col.

(** [Series.nunique()]. *)
Definition series_nunique (col : list cell) : Z := Z.of_nat (length (distinct col)).

(** Insertion into a sorted list: the element goes in front of the first
    one it may stand before. *)
Fixpoint insert_by {A} (before : A -> A -> bool) (x : A) (l : list A) : list A :=
  match l with
  | [] => [x]
  | y :: l' => if before x y then x :: y :: l' else y :: insert_by before x l'
  end.

(** A stable sort: elements that may stand before each other keep their
    order. *)
Definition sort_by {A} (before : A -> A -> bool) (l : list A) : list A :=
  foldr (insert_by before) [] l.

(** Larger numbers first, nulls last. *)
Definition desc (a b : option Q) : bool :=
  match a, b with
  | Some x, Some y => Qle_bool y x
  | Some _, None => true
  | None, Some _ => false
  | None, None => true
  end.

(** [Series.value_counts()]: the count of each value, most frequent
    first. *)
Definition value_counts (col : list cell) : list (cell * Z) :=
  sort_by (fun a b => snd b <=? snd a)
    (map (fun k => (k, Z.of_nat (count (cell_eqb k) col))) (distinct col)).

(** The order in which [groupby] sorts its keys: by kind of cell, then by
    value. *)
Definition cell_leb (a b : cell) : bool :=
  match a, b with
  | Null, _ => true
  | _, Null => false
  | Int x, Int y => x <=? y
  | Int x, Float q => Qle_bool (inject_Z x) q
  | Float p, Int y => Qle_bool p (inject_Z y)
  | Float p, Float q => Qle_bool p q
  | (Int _ | Float _), _ => true
  | _, (Int _ | Float _) => false
  | Timestamp s, Timestamp t => s <=? t
  | Timestamp _, Str _ => true
  | Str _, Timestamp _ => false
  | Str s, Str t => String.leb s t
  end.

(** The keys of [df.groupby(by)]: the values of the column that are not
    null, each once, in increasing order. *)
Definition group_keys (col : list cell) : list cell :=
  sort_by cell_leb (distinct col).

Inductive aggfunc : Type := AggSum | AggNunique.

Definition aggregate (f : aggfunc) (col : list cell) : outcome cell :=
  match f with
  | AggSum => let? total := series_sum col in Ok (Float (Qred total))
  | AggNunique => Ok (Int (series_nunique col))
  end.

(** One row of the result of [groupby(by).agg(spec)]: the key and the
    aggregates of the rows that have this key. *)
Fixpoint aggregate_group (members : list Row) (spec : list (nat * aggfunc)) : outcome (list cell) :=
  match spec with
  | [] => Ok []
  | (i, f) :: spec' =>
      let? c := aggregate f (map (cell_at i) members) in
      let? cs := aggregate_group members spec' in
      Ok (c :: cs)
  end.

Fixpoint aggregate_groups (keys by_col : list cell) (rs : list Row)
    (spec : list (nat * aggfunc)) (next_label : Z) : outcome (list Row) :=
  match keys with
  | [] => Ok []
  | k :: keys' =>
      let members := select (map (cell_eqb k) by_col) rs in
      let? cs := aggregate_group members spec in
      let? rest := aggregate_groups keys' by_col rs spec (next_label + 1) in
      Ok (mkRow next_label (k :: cs) :: rest)
  end.

Fixpoint spec_positions (spec : list (string * aggfunc)) (cols : list string)
    : outcome (list (nat * aggfunc)) :=
  match spec with
  | [] => Ok []
  | (c, f) :: spec' =>
      match col_pos c cols with
      | None => Raise (KeyError c)
      | Some i => let? rest := spec_positions spec' cols in Ok ((i, f) :: rest)
      end
  end.

(** [df.groupby(by).agg(spec).reset_index()]: one row per key, labelled
    from 0, under the columns [by] and the aggregated ones. *)
Definition df_groupby_agg (d : DataFrame) (by_name : string) (spec : list (string * aggfunc))
    : outcome DataFrame :=
  let? by_col := df_getitem d by_name in
  let? positions := spec_positions spec (columns d) in
  let? rs := aggregate_groups (group_keys by_col) by_col (rows d) positions 0 in
  Ok (mkDF (by_name :: map fst spec) rs).

(** [df.columns = names]. *)
Definition df_set_columns (d : DataFrame) (names : list string) : outcome DataFrame :=
  if Nat.eqb (length names) (length (columns d)) then Ok (mkDF names (rows d))
  else Raise ValueError.

(** Rounding to the nearest integer, halves to the even one. *)
Definition round_half_even (q : Q) : Z :=
  let f := Qfloor q in
  let r := (q - inject_Z f)%Q in
  match Qcompare r (1 # 2) with
  | Lt => f
  | Gt => f + 1
  | Eq => if Z.even f then f else f + 1
  end.

(** [round(x, 2)]. *)
Definition round2 (q : Q) : Q := Qred (inject_Z (round_half_even (q * 100)) / 100)%Q.

(** One cell of [(col / total * 100).round(2)].  Division by a zero total
    gives nan or an infinity in numpy; a cell has no infinity and the model
    writes a null in both cases. *)
Definition share_cell (total : Q) (c : cell) : outcome cell :=
  let? x := number_of c in
  match x with
  | None => Ok Null
  | Some q => if Qeq_bool total 0 then Ok Null
              else Ok (Float (round2 (q / total * 100)))
  end.

Fixpoint series_share (col : list cell) (total : Q) : outcome (list cell) :=
  match col with
  | [] => Ok []
  | c :: cs =>
      let? x := share_cell total c in
      let? xs := series_share cs total in
      Ok (x :: xs)
  end.

(** The sort key of a row: the number in the column at position [i]; a
    cell that holds no number is placed as a null is. *)
Definition row_key (i : nat) (r : Row) : option Q :=
  match cell_at i r with
  | Int z => Some (inject_Z z)
  | Float q => Some q
  | _ => None
  end.

(** Rows in decreasing order of the number in column [i]. *)
Definition before_desc (i : nat) (a b : Row) : bool :=
  desc (row_key i a) (row_key i b).

Fixpoint relabel (next_label : Z) (rs : list Row) : list Row :=
  match rs with
  | [] => []
  | r :: rs' => mkRow next_label (cells r) :: relabel (next_label + 1) rs'
  end.

(** [df.sort_values(c, ascending=False).reset_index(drop=True)] for a
    column of numbers.  Rows with equal values keep their order (pandas
    leaves that order to the sorting algorithm). *)
Definition df_sort_values_desc (d : DataFrame) (c : string) : outcome DataFrame :=
  match col_pos c (columns d) with
  | None => Raise (KeyError c)
  | Some i =>
      Ok (mkDF (columns d)
            (relabel 0 (sort_by (before_desc i) (rows d))))
  end.

(** ** Table operations on references, continued *)

Definition groupby_agg (df : ref) (by_name : string) (spec : list (string * aggfunc)) : M DataFrame :=
  d <- deref df ;; lift (df_groupby_agg d by_name spec).

Definition set_columns (df : ref) (names : list string) : M unit :=
  d <- deref df ;; d' <- lift (df_set_columns d names) ;; assign df d'.

Definition sort_values_desc (df : ref) (c : string) : M DataFrame :=
  d <- deref df ;; lift (df_sort_values_desc d c).

(** [df.apply(f, axis=1)] where [f] reads the row of the table [df]. *)
Definition apply_axis1 (df : ref) (f : DataFrame -> Row -> outcome cell) : M (list cell) :=
  d <- deref df ;; lift (apply_rows (f d) (rows d)).

(** ** The functions of the source *)

Section FeatureEngineering.
Context `{Pandas}.

(** The scores are written into the caller's table, which is returned. *)
Definition create_rfm_scores (customer_metrics : ref) : M ref :=
  logger INFO "Creating RFM scores..." [] ;;;
  col <- getitem customer_metrics "Recency_Days" ;;
  score <- lift (score_column col [5; 4; 3; 2; 1]) ;;
  setitem customer_metrics "R_Score" score ;;;
  col <- getitem customer_metrics "TotalOrders" ;;
  score <- lift (score_column col [1; 2; 3; 4; 5]) ;;
  setitem customer_metrics "F_Score" score ;;;
  col <- getitem customer_metrics "CustomerLifetimeValue" ;;
  score <- lift (score_column col [1; 2; 3; 4; 5]) ;;
  setitem customer_metrics "M_Score" score ;;;
  r <- getitem customer_metrics "R_Score" ;;
  f <- getitem customer_metrics "F_Score" ;;
  m <- getitem customer_metrics "M_Score" ;;
  setitem customer_metrics "RFM_Score"
    (zip_with (fun rf x => Str (rf ++ astype_str x)%string)
       (zip_with (fun x y => (astype_str x ++ astype_str y)%string) r f) m) ;;;
  logger INFO "RFM scores created (1-5 scale)" [] ;;;
  ret customer_metrics.

Definition classify_rfm (d : DataFrame) (row : Row) : outcome cell :=
  let? r := row_getitem d row "R_Score" in
  let? f := row_getitem d row "F_Score" in
  let? rf := cell_add r f in
  let? m := row_getitem d row "M_Score" in
  let? score := cell_add rf m in
  let? champion := cell_ge score 13 in
  if champion then Ok (Str "Champions") else
  let? loyal := cell_ge score 10 in
  if loyal then Ok (Str "Loyal Customers") else
  let? potential := cell_ge score 7 in
  if potential then Ok (Str "Potential Loyalists") else
  let? at_risk := cell_ge score 5 in
  if at_risk then Ok (Str "At Risk") else
  Ok (Str "Lost Customers").

(** The labels are written into the caller's table, which is returned. *)
Definition create_customer_segments (customer_metrics : ref) : M ref :=
  segments <- apply_axis1 customer_metrics classify_rfm ;;
  setitem customer_metrics "CustomerSegment" segments ;;;
  col <- getitem customer_metrics "CustomerSegment" ;;
  let segment_counts := value_counts col in
  logger INFO "Customer segmentation complete:" [] ;;;
  for_each segment_counts (fun item =>
    let segment := fst item in
    let count := snd item in
    n <- len customer_metrics ;;
    logger INFO "segment"
      [AStr (astype_str segment); AInt count; AFloat (np_mul (np_truediv count n) 100)]) ;;;
  ret customer_metrics.

End FeatureEngineering.

Definition create_country_metrics (df : ref) : M ref :=
  logger INFO "Creating country metrics..." [] ;;;
  grouped <- groupby_agg df "Country"
    [("TotalPrice", AggSum); ("InvoiceNo", AggNunique); ("CustomerID", AggNunique)] ;;
  country_agg <- alloc grouped ;;
  set_columns country_agg ["Country"; "TotalRevenue"; "TotalOrders"; "UniqueCustomers"] ;;;
  col <- getitem country_agg "TotalRevenue" ;;
  total_revenue <- lift (series_sum col) ;;
  col <- getitem country_agg "TotalRevenue" ;;
  pct <- lift (series_share col total_revenue) ;;
  setitem country_agg "RevenuePct" pct ;;;
  sorted <- sort_values_desc country_agg "TotalRevenue" ;;
  country_agg <- alloc sorted ;;
  n <- len country_agg ;;
  logger INFO "Created metrics for countries" [AInt n] ;;;
  ret country_agg.

(** ** Segments as the specification words them *)

(** The ordered table of thresholds and labels, read from the top. *)
Definition segment_thresholds : list (Z * string) :=
  [(13, "Champions"); (10, "Loyal Customers"); (7, "Potential Loyalists"); (5, "At Risk")].

Fixpoint first_reached (score : Z) (table : list (Z * string)) (otherwise : string) : string :=
  match table with
  | [] => otherwise
  | (threshold, l) :: rest =>
      if threshold <=? score then l else first_reached score rest otherwise
  end.

Definition spec_segment (score : Z) : string :=
  first_reached score segment_thresholds "Lost Customers".

Definition segment_labels : list string :=
  ["Champions"; "Loyal Customers"; "Potential Loyalists"; "At Risk"; "Lost Customers"].

Definition is_int (c : cell) : bool :=
  match c with Int _ => true | _ => false end.

(** A number that is not null. *)
Definition is_number (c : cell) : bool :=
  match c with Int _ | Float _ => true | _ => false end.

(** The number in a cell that holds one. *)
Definition value_of (c : cell) : Q :=
  match c with
  | Int z => inject_Z z
  | Float q => q
  | _ => 0%Q
  end.

(** ** Ranks and score bins of a column of numbers *)

Definition has_value (o : option Q) : bool :=
  match o with Some _ => true | None => false end.

(** The percentile rank of the value [x] at position [i] of [xs]. *)
Definition pct_rank (xs : list Q) (i : nat) (x : Q) : Q :=
  (inject_Z (Z.of_nat (rank_of (map Some xs) i x)) / inject_Z (Z.of_nat (length xs)))%Q.

(** The bin of that rank, counted from 1: the number of edges below it. *)
Definition bucket (xs : list Q) (i : nat) (x : Q) : nat :=
  searchsorted_left rfm_bins (pct_rank xs i x).

(** The sum of a list of rationals, added from the right as [series_sum]
    adds. *)
Definition sumq (l : list Q) : Q := foldr Qplus 0%Q l.


(** The revenue of the rows that have a country; [groupby] leaves the
    other rows out. *)
Definition total_revenue (countries prices : list cell) : Q :=
  sumq (map value_of (select (map (fun c => negb (isna c)) countries) prices)).

(** The revenue of the rows of one country. *)
Definition group_revenue (k : cell) (countries prices : list cell) : Q :=
  sumq (map value_of (select (map (cell_eqb k) countries) prices)).

(** ** What a filter keeps *)

(** [d'] has the columns of [d] and exactly its rows that pass [test], in
    their order. *)
Definition filtered_by (d' d : DataFrame) (test : Row -> bool) : Prop :=
  columns d' = columns d /\ rows d' = List.filter test (rows d).

(** The call returns a new table object holding [d'] and leaves every
    table that existed before it as it was. *)
Definition returns_new (m : M ref) (s : state) (d' : DataFrame) : Prop :=
  exists s', m s = (Ok (length (heap s)), s') /\
             heap s' = heap s ++ [d'].

(** The call raises [e] and changes neither a table nor the log. *)
Definition fails_with (m : M ref) (s : state) (e : exn) : Prop :=
  m s = (Raise e, s).

(** Whether the call returns or raises, every table that existed before
    it is where it was and as it was, and so is every message of the log:
    the call only adds tables and messages. *)
Definition only_adds (m : M ref) (s : state) : Prop :=
  exists junk lg, snd (m s) = mkState (heap s ++ junk) (log s ++ lg).


(** A datetime cell: a timestamp or NaT. *)
Definition is_datetime (c : cell) : bool :=
  match c with Null | Timestamp _ => true | _ => false end.

(** The truth value of [op] between the timestamp of a cell and [t0];
    NaT compares false. *)
Definition ts_test (op : Z -> Z -> bool) (t0 : Z) (c : cell) : bool :=
  match c with Timestamp t => op t t0 | _ => false end.

(** A timestamp between [t0] and [t1], both included. *)
Definition in_range (t0 t1 : Z) (c : cell) : bool :=
  ts_test Z.geb t0 c && ts_test Z.leb t1 c.

(** ** Revenue per line *)

(** [s * n] on a Python string: [n] copies of [s], none when [n] is
    negative. *)
Definition str_repeat (s : string) (n : Z) : string :=
  String.concat "" (repeat s (Z.to_nat n)).

(** One cell of [left * right] on two columns.  Numbers multiply; in an
    object column pandas lets Python multiply cell by cell, so a text
    times an integer is the text repeated, and any other product with a
    text or a timestamp raises TypeError; a null on either side gives a
    null. *)
Definition cell_mul (a b : cell) : outcome cell :=
  match a, b with
  | Null, _ | _, Null => Ok Null
  | Int x, Int y => Ok (Int (x * y))
  | Int x, Float q => Ok (Float (inject_Z x * q))
  | Float p, Int y => Ok (Float (p * inject_Z y))
  | Float p, Float q => Ok (Float (p * q))
  | Str s, Int n | Int n, Str s => Ok (Str (str_repeat s n))
  | _, _ => Raise TypeError
  end.

Fixpoint series_mul (left right : list cell) : outcome (list cell) :=
  match left, right with
  | a :: l, b :: r =>
      match cell_mul a b, series_mul l r with
      | Ok c, Ok cs => Ok (c :: cs)
      | Raise e, _ => Raise e
      | _, Raise e => Raise e
      end
  | _, _ => Ok []
  end.

(** The TotalPrice column is written into the caller's table, which is
    returned. *)
Definition create_total_price (df : ref) (quantity_col price_col : string) : M ref :=
  quantity <- getitem df quantity_col ;;
  price <- getitem df price_col ;;
  total <- lift (series_mul quantity price) ;;
  setitem df "TotalPrice" total ;;;
  logger INFO "Created TotalPrice column" [] ;;;
  ret df.

(** The product of two cells that hold numbers or nulls. *)
Definition product_of (a b t : cell) : Prop :=
  if isna a || isna b then t = Null
  else is_number t = true /\ (value_of t == value_of a * value_of b)%Q.

(** ** Scores, as numbers *)

(** The score of each value of a column under [pd.cut] of the percentile
    ranks with the labels 5 to 1 (recency) and 1 to 5 (frequency and
    monetary value). *)
Definition recency_scores (col : list cell) : list Z :=
  imap (fun i x => 6 - Z.of_nat (bucket (map value_of col) i x)) (map value_of col).

Definition direct_scores (col : list cell) : list Z :=
  imap (fun i x => Z.of_nat (bucket (map value_of col) i x)) (map value_of col).

(** The decimal digit of a score, as text. *)
Definition score_digit (z : Z) : string :=
  String (ascii_of_nat (48 + Z.to_nat z)) "".

(** The four columns [create_rfm_scores] writes. *)
Definition score_columns : list string := ["R_Score"; "F_Score"; "M_Score"; "RFM_Score"].

(** The rank of each value of a column, [rank(method='first')]. *)
Definition ranks (col : list cell) : list nat :=
  imap (fun i x => rank_of (map Some (map value_of col)) i x) (map value_of col).

(** The fifth in which the rank [r] among [n] falls: 5r/n rounded up. *)
Definition quintile (n r : nat) : Z :=
  (5 * Z.of_nat r + Z.of_nat n - 1) / Z.of_nat n.

(** ** Column names *)

(** [s.replace(' ', r)]: every space gives way to [r]. *)
Fixpoint str_replace_space (r s : string) : string :=
  match s with
  | EmptyString => EmptyString
  | String a s' =>
      if Ascii.eqb a " " then (r ++ str_replace_space r s')%string
      else String a (str_replace_space r s')
  end.

Definition is_upper (a : ascii) : bool :=
  (65 <=? nat_of_ascii a)%nat && (nat_of_ascii a <=? 90)%nat.

Definition is_ascii (a : ascii) : bool := (nat_of_ascii a <? 128)%nat.

(** The names [str.lower()] is modelled for: text in ASCII.  Python also
    changes capital letters outside ASCII, which are not modelled. *)
Definition ascii_name (s : string) : Prop :=
  Forall (fun a => is_ascii a = true) (list_ascii_of_string s).

Definition ascii_lower (a : ascii) : ascii :=
  if is_upper a then ascii_of_nat (nat_of_ascii a + 32) else a.

(** [s.lower()] on ASCII text. *)
Fixpoint str_lower (s : string) : string :=
  match s with
  | EmptyString => EmptyString
  | String a s' => String (ascii_lower a) (str_lower s')
  end.

(** Python exceptions that no function above can raise.  A function that
    can raise one returns it on the left of a sum, with the state in which
    it was raised. *)
Inductive late_exn : Type := IndexError | UnboundLocalError.

(** [col[0].lower() + col[1:]]: IndexError on the empty name. *)
Definition lower_first (col : string) : late_exn + string :=
  match col with
  | EmptyString => inl IndexError
  | String a rest => inr (String (ascii_lower a) rest)
  end.

(** The list comprehension over the names stops at the first error. *)
Fixpoint lower_first_all (cols : list string) : late_exn + list string :=
  match cols with
  | [] => inr []
  | col :: cols' =>
      match lower_first col with
      | inl e => inl e
      | inr name =>
          match lower_first_all cols' with
          | inl e => inl e
          | inr names => inr (name :: names)
          end
      end
  end.

(** [df.columns]. *)
Definition get_columns (df : ref) : M (list string) :=
  d <- deref df ;; ret (columns d).

Definition standardize_column_names (df : ref) (style : string) : M (late_exn + ref) :=
  df_clean <- copy df ;;
  renamed <-
    (if String.eqb style "snake_case" then
       cols <- get_columns df_clean ;;
       set_columns df_clean (map (fun c => str_lower (str_replace_space "_" c)) cols) ;;;
       ret (inr tt)
     else if String.eqb style "camelCase" then
       cols <- get_columns df_clean ;;
       set_columns df_clean (map (str_replace_space "") cols) ;;;
       cols <- get_columns df_clean ;;
       match lower_first_all cols with
       | inl e => ret (inl e)
       | inr names => set_columns df_clean names ;;; ret (inr tt)
       end
     else if String.eqb style "PascalCase" then
       cols <- get_columns df_clean ;;
       set_columns df_clean (map (str_replace_space "") cols) ;;;
       ret (inr tt)
     else ret (inr tt)) ;;
  match renamed with
  | inl e => ret (inl e)
  | inr _ =>
      logger INFO "Column names standardized" [AStr style] ;;;
      ret (inr df_clean)
  end.

(** No space and no capital letter of ASCII in a name. *)
Definition snake_name (s : string) : Prop :=
  Forall (fun a => a <> " "%char /\ is_upper a = false) (list_ascii_of_string s).

Definition no_space (s : string) : Prop :=
  Forall (fun a => a <> " "%char) (list_ascii_of_string s).

(** A name of spaces only, the empty name included. *)
Definition blank (s : string) : bool :=
  forallb (fun a => Ascii.eqb a " ") (list_ascii_of_string s).

(** ** Outliers *)

(** The numbers of a column, missing values left out.  The model is for
    columns of numbers, missing values and text; text makes pandas raise
    TypeError when it interpolates. *)
Fixpoint present_numbers (col : list cell) : outcome (list Q) :=
  match col with
  | [] => Ok []
  | c :: cs =>
      match c with
      | Null => present_numbers cs
      | Int z => let? xs := present_numbers cs in Ok (inject_Z z :: xs)
      | Float x => let? xs := present_numbers cs in Ok (x :: xs)
      | Str _ | Timestamp _ => Raise TypeError
      end
  end.

(** The quantile [q] of numbers in increasing order, by linear
    interpolation between the two nearest: at the position [(n-1)q].  NaN,
    here [None], when there is no number. *)
Definition interpolate (sorted : list Q) (q : Q) : option Q :=
  match sorted with
  | [] => None
  | v0 :: _ =>
      let h := (inject_Z (Z.of_nat (length sorted) - 1) * q)%Q in
      let below := Z.to_nat (Qfloor h) in
      let above := Nat.min (below + 1) (length sorted - 1) in
      let a := default v0 (sorted !! below) in
      let b := default v0 (sorted !! above) in
      Some (a + (b - a) * (h - inject_Z (Qfloor h)))%Q
  end.

(** [col.quantile(q)]. *)
Definition series_quantile (col : list cell) (q : Q) : outcome (option Q) :=
  let? xs := present_numbers col in Ok (interpolate (sort_by Qle_bool xs) q).

(** Arithmetic of floats of which either may be NaN. *)
Definition float_op (op : Q -> Q -> Q) (a b : option Q) : option Q :=
  match a, b with
  | Some x, Some y => Some (op x y)
  | _, _ => None
  end.

(** Comparison of a column with a float: with NaN no comparison holds. *)
Definition series_cmp_float (op : Q -> Q -> bool) (col : list cell) (k : option Q)
    : outcome (list bool) :=
  match k with
  | Some x => series_cmp op col x
  | None => series_cmp (fun _ _ => false) col 0%Q
  end.

(** What [handle_outliers] takes from pandas and scipy without a model
    here: [Series.clip], and the whole branch of the z-score method, which
    yields the count of outliers, when it binds it, and the table bound
    to [df_clean]. *)
Class Stats : Type := {
  clip : list cell -> option Q -> option Q -> list cell;
  zscore_method : ref -> string -> Q -> string -> M (late_exn + (option Z * ref))
}.

Section Outliers.
Context `{Stats}.

Definition handle_outliers (df : ref) (column method : string) (threshold : Q)
    (action : string) : M (late_exn + ref) :=
  original_rows <- len df ;;
  df_clean <- copy df ;;
  found <-
    (if String.eqb method "iqr" then
       col <- getitem df_clean column ;;
       Q1 <- lift (series_quantile col (1 # 4)) ;;
       col <- getitem df_clean column ;;
       Q3 <- lift (series_quantile col (3 # 4)) ;;
       let IQR := float_op Qminus Q3 Q1 in
       let lower_bound := float_op Qminus Q1 (float_op Qmult (Some threshold) IQR) in
       let upper_bound := float_op Qplus Q3 (float_op Qmult (Some threshold) IQR) in
       col <- getitem df_clean column ;;
       low <- lift (series_cmp_float Qlt_bool col lower_bound) ;;
       col <- getitem df_clean column ;;
       high <- lift (series_cmp_float Qgt_bool col upper_bound) ;;
       let outliers := mask_sum (low ||* high) in
       if String.eqb action "remove" then
         col <- getitem df_clean column ;;
         lo <- lift (series_cmp_float Qge_bool col lower_bound) ;;
         col <- getitem df_clean column ;;
         hi <- lift (series_cmp_float Qle_bool col upper_bound) ;;
         kept <- getitem_mask df_clean (lo &&* hi) ;;
         df_clean <- alloc kept ;;
         ret (inr (Some outliers, df_clean))
       else if String.eqb action "cap" then
         col <- getitem df_clean column ;;
         setitem df_clean column (clip col lower_bound upper_bound) ;;;
         ret (inr (Some outliers, df_clean))
       else ret (inr (Some outliers, df_clean))
     else if String.eqb method "zscore" then
       zscore_method df_clean column threshold action
     else ret (inr (None, df_clean))) ;;
  match found with
  | inl e => ret (inl e)
  | inr (outliers, df_clean) =>
      n <- len df_clean ;;
      let removed := original_rows - n in
      match outliers with
      | None => ret (inl UnboundLocalError)
      | Some outliers =>
          logger INFO "Outliers detected" [AStr column; AInt outliers] ;;;
          logger INFO "Action" [AStr action] ;;;
          (if String.eqb action "remove" then logger INFO "Rows removed" [AInt removed]
           else ret tt) ;;;
          n <- len df_clean ;;
          logger INFO "Remaining rows" [AInt n] ;;;
          ret (inr df_clean)
      end
  end.

End Outliers.



(** ** Invoices *)

(** The aggregations [create_invoice_metrics] asks for. *)
Inductive invoice_aggfunc : Type := InvSum | InvNunique | InvFirst.

(** [first]: the first value of a group that is not null, null when the
    group has none. *)
Fixpoint first_present (col : list cell) : cell :=
  match col with
  | [] => Null
  | c :: cs => if isna c then first_present cs else c
  end.

(** [sum] of the part [members] of the column [whole] that falls in a
    group: whole in a column of whole numbers, a float otherwise. *)
Definition whole_sum (col : list cell) : Z :=
  foldr (fun c total => match c with Int z => z + total | _ => total end) 0 col.

Definition group_sum (whole members : list cell) : outcome cell :=
  if forallb is_int whole then Ok (Int (whole_sum members))
  else let? total := series_sum members in Ok (Float (Qred total)).

Definition invoice_aggregate (f : invoice_aggfunc) (whole members : list cell)
    : outcome cell :=
  match f with
  | InvSum => group_sum whole members
  | InvNunique => Ok (Int (series_nunique members))
  | InvFirst => Ok (first_present members)
  end.

(** One row of the result: the aggregates of the rows [members] of a
    group of the table with the rows [rs]. *)
Fixpoint invoice_group (members rs : list Row) (spec : list (nat * invoice_aggfunc))
    : outcome (list cell) :=
  match spec with
  | [] => Ok []
  | (i, f) :: spec' =>
      let? c := invoice_aggregate f (map (cell_at i) rs) (map (cell_at i) members) in
      let? cs := invoice_group members rs spec' in
      Ok (c :: cs)
  end.

Fixpoint invoice_groups (keys by_col : list cell) (rs : list Row)
    (spec : list (nat * invoice_aggfunc)) (next_label : Z) : outcome (list Row) :=
  match keys with
  | [] => Ok []
  | k :: keys' =>
      let members := select (map (cell_eqb k) by_col) rs in
      let? cs := invoice_group members rs spec in
      let? rest := invoice_groups keys' by_col rs spec (next_label + 1) in
      Ok (mkRow next_label (k :: cs) :: rest)
  end.

Fixpoint invoice_positions (spec : list (string * invoice_aggfunc)) (cols : list string)
    : outcome (list (nat * invoice_aggfunc)) :=
  match spec with
  | [] => Ok []
  | (c, f) :: spec' =>
      match col_pos c cols with
      | None => Raise (KeyError c)
      | Some i => let? rest := invoice_positions spec' cols in Ok ((i, f) :: rest)
      end
  end.

(** [df.groupby(by).agg(spec).reset_index()] with these aggregations. *)
Definition df_groupby_invoices (d : DataFrame) (by_name : string)
    (spec : list (string * invoice_aggfunc)) : outcome DataFrame :=
  let? by_col := df_getitem d by_name in
  let? positions := invoice_positions spec (columns d) in
  let? rs := invoice_groups (group_keys by_col) by_col (rows d) positions 0 in
  Ok (mkDF (by_name :: map fst spec) rs).

Definition groupby_invoices (df : ref) (by_name : string)
    (spec : list (string * invoice_aggfunc)) : M DataFrame :=
  d <- deref df ;; lift (df_groupby_invoices d by_name spec).

Definition create_invoice_metrics (df : ref) : M ref :=
  logger INFO "Creating invoice metrics..." [] ;;;
  grouped <- groupby_invoices df "InvoiceNo"
    [("TotalPrice", InvSum); ("Quantity", InvSum); ("StockCode", InvNunique);
     ("CustomerID", InvFirst); ("Country", InvFirst); ("InvoiceDate", InvFirst)] ;;
  invoice_agg <- alloc grouped ;;
  set_columns invoice_agg
    ["InvoiceNo"; "InvoiceValue"; "TotalItems"; "UniqueProducts";
     "CustomerID"; "Country"; "InvoiceDate"] ;;;
  n <- len invoice_agg ;;
  logger INFO "Created metrics for invoices" [AInt n] ;;;
  ret invoice_agg.

(** The lines of the invoice [k]: the part of a column in its group. *)
Definition lines_of (k : cell) (invoices col : list cell) : list cell :=
  select (map (cell_eqb k) invoices) col.

(** [c] is the first value of [own] that is not null, or null when [own]
    has none. *)
Definition first_value_of (own : list cell) (c : cell) : Prop :=
  (Forall (fun x => isna x = true) own /\ c = Null) \/
  (exists i, own !! i = Some c /\ isna c = false /\
             forall i' x, (i' < i)%nat -> own !! i' = Some x -> isna x = true).

(** The seven columns of the invoice table. *)
Definition invoice_columns : list string :=
  ["InvoiceNo"; "InvoiceValue"; "TotalItems"; "UniqueProducts";
   "CustomerID"; "Country"; "InvoiceDate"].

(** ** A concrete pandas for the examples

    Dates are read in the form YYYY-MM-DD only and become the number
    YYYYMMDD; a timestamp or a null converts to itself; anything else
    makes the conversion of the column fail. *)

Definition digit_of (a : ascii) : option Z :=
  let n := Z.of_nat (nat_of_ascii a) in
  if (48 <=? n) && (n <=? 57) then Some (n - 48) else None.

Fixpoint digits_value (acc : Z) (l : list ascii) : option Z :=
  match l with
  | [] => Some acc
  | a :: l' => match digit_of a with
               | Some v => digits_value (10 * acc + v) l'
               | None => None
               end
  end.

Definition parse_iso_date (s : string) : option Z :=
  match list_ascii_of_string s with
  | [y1; y2; y3; y4; d1; m1; m2; d2; a1; a2] =>
      if Ascii.eqb d1 "-" && Ascii.eqb d2 "-"
      then digits_value 0 [y1; y2; y3; y4; m1; m2; a1; a2]
      else None
  | _ => None
  end.

Fixpoint iso_to_datetime (col : list cell) : option (list cell) :=
  match col with
  | [] => Some []
  | c :: cs =>
      match (match c with
             | Null => Some Null
             | Timestamp t => Some (Timestamp t)
             | Str s => option_map Timestamp (parse_iso_date s)
             | _ => None
             end), iso_to_datetime cs with
      | Some v, Some vs => Some (v :: vs)
      | _, _ => None
      end
  end.

Definition iso_pandas : Pandas := {|
  to_datetime := iso_to_datetime;
  astype := fun _ _ => None;
  repr_float := fun _ => "0.0";
  repr_timestamp := fun _ => "1970-01-01"
|}.

(** A stand-in for the examples, which use neither of the two. *)
Definition no_stats : Stats := {|
  clip := fun col _ _ => col;
  zscore_method := fun _ _ _ _ => raise TypeError
|}.

(** ** Example tables *)

Definition transaction_columns : list string :=
  ["InvoiceNo"; "StockCode"; "Description"; "Quantity";
   "InvoiceDate"; "UnitPrice"; "CustomerID"; "Country"].

(** A table with the eight columns and no row. *)
Definition empty_transactions : DataFrame := mkDF transaction_columns [].

(** Six order lines: a cancellation, a missing description with a zero
    quantity and price, a negative price, and an exact duplicate. *)
Definition sample_transactions : DataFrame :=
  mkDF transaction_columns
    [ mkRow 0 [Str "536365"; Str "85123A"; Str "WHITE HANGING HEART"; Int 6;
               Str "2010-12-01"; Float (255 # 100); Float 17850; Str "United Kingdom"];
      mkRow 1 [Str "536366"; Str "71053"; Str "WHITE METAL LANTERN"; Int 8;
               Str "2010-12-01"; Float (339 # 100); Float 17850; Str "United Kingdom"];
      mkRow 2 [Str "C536367"; Str "84406B"; Str "CREAM CUPID"; Int (-1);
               Str "2010-12-01"; Float (275 # 100); Float 13047; Str "United Kingdom"];
      mkRow 3 [Str "536369"; Str "84029E"; Null; Int 0;
               Str "2010-12-02"; Float 0; Float 17850; Str "United Kingdom"];
      mkRow 4 [Str "536370"; Str "22752"; Str "RED RETROSPOT PLATE"; Int 5;
               Str "2010-12-02"; Float (-15 # 10); Float 17850; Str "United Kingdom"];
      mkRow 5 [Str "536365"; Str "85123A"; Str "WHITE HANGING HEART"; Int 6;
               Str "2010-12-01"; Float (255 # 100); Float 17850; Str "United Kingdom"] ].

(** Two order lines, both cancellations. *)
Definition all_cancelled : DataFrame :=
  mkDF transaction_columns
    [ mkRow 0 [Str "C001"; Str "85123A"; Str "WHITE HANGING HEART"; Int (-1);
               Str "2010-12-01"; Float (255 # 100); Float 17850; Str "United Kingdom"];
      mkRow 1 [Str "C002"; Str "71053"; Str "WHITE METAL LANTERN"; Int (-2);
               Str "2010-12-01"; Float (339 # 100); Float 17850; Str "United Kingdom"] ].

(** One valid order line, and the same line followed by a cancellation. *)
Definition one_line : DataFrame :=
  mkDF transaction_columns
    [ mkRow 0 [Str "536365"; Str "85123A"; Str "WHITE HANGING HEART"; Int 6;
               Timestamp 20101201; Float (255 # 100); Float 17850; Str "United Kingdom"] ].

Definition one_line_one_cancelled : DataFrame :=
  mkDF transaction_columns
    [ mkRow 0 [Str "536365"; Str "85123A"; Str "WHITE HANGING HEART"; Int 6;
               Timestamp 20101201; Float (255 # 100); Float 17850; Str "United Kingdom"];
      mkRow 1 [Str "C536367"; Str "84406B"; Str "CREAM CUPID"; Int (-1);
               Timestamp 20101201; Float (275 # 100); Float 13047; Str "United Kingdom"] ].



(** Two columns of text, the second with a value that is no date. *)
Definition bad_dates : DataFrame :=
  mkDF ["InvoiceNo"; "InvoiceDate"]
    [ mkRow 0 [Str "536365"; Str "2010-12-01"];
      mkRow 1 [Str "536366"; Str "not a date"] ].

(** The interpreter state whose only object is the table [d]. *)
Definition only (d : DataFrame) : state := mkState [d] [].



(** The integer in a cell that holds one. *)
Definition int_of (c : cell) : Z :=
  match c with Int z => z | _ => 0 end.

(** Seven customers with their order counts, lifetime values and
    recencies; two of them share a recency of ten days. *)
Definition sample_customers : DataFrame :=
  mkDF ["CustomerID"; "TotalOrders"; "CustomerLifetimeValue"; "Recency_Days"]
    [ mkRow 0 [Int 17850; Int 5; Float 1000; Int 1];
      mkRow 1 [Int 13047; Int 1; Float 50; Int 100];
      mkRow 2 [Int 12583; Int 2; Float 500; Int 10];
      mkRow 3 [Int 13748; Int 2; Float 70; Int 10];
      mkRow 4 [Int 15100; Int 9; Float 20; Int 300];
      mkRow 5 [Int 15291; Int 3; Float 90; Int 30];
      mkRow 6 [Int 14688; Int 3; Float 95; Int 7] ].

(** Three customers with their three scores. *)
Definition scored_customers : DataFrame :=
  mkDF ["CustomerID"; "R_Score"; "F_Score"; "M_Score"]
    [ mkRow 0 [Int 17850; Int 5; Int 5; Int 5];
      mkRow 1 [Int 13047; Int 1; Int 1; Int 2];
      mkRow 2 [Int 12583; Int 3; Int 2; Int 5] ].


(** Sales in three countries, one of them with two customers. *)
Definition three_countries : DataFrame :=
  mkDF ["InvoiceNo"; "CustomerID"; "Country"; "TotalPrice"]
    [ mkRow 0 [Str "536365"; Int 17850; Str "United Kingdom"; Float 30];
      mkRow 1 [Str "536366"; Int 13047; Str "France"; Float 10];
      mkRow 2 [Str "536367"; Int 12583; Str "United Kingdom"; Float 20];
      mkRow 3 [Str "536368"; Int 13748; Str "Germany"; Float 40] ].

(** Three order lines with quantities and prices, one without a price. *)
Definition priced_lines : DataFrame :=
  mkDF ["InvoiceNo"; "Quantity"; "UnitPrice"]
    [ mkRow 0 [Str "536365"; Int 6; Float (255 # 100)];
      mkRow 1 [Str "536366"; Int 8; Float (339 # 100)];
      mkRow 2 [Str "536367"; Int 2; Null] ].

(** Two customers of whom the second has no recency score. *)
Definition partly_scored_customers : DataFrame :=
  mkDF ["CustomerID"; "R_Score"; "F_Score"; "M_Score"]
    [ mkRow 0 [Int 17850; Float 5; Float 5; Float 5];
      mkRow 1 [Int 13047; Null; Float 1; Float 2] ].

(** A table whose column names have spaces and capital letters. *)
Definition spaced_names : DataFrame :=
  mkDF ["Invoice No"; "Unit Price"; "country"]
    [ mkRow 0 [Str "536365"; Float 2.55; Str "France"];
      mkRow 1 [Str "536366"; Float 3.39; Str "Norway"] ].

(** A table with a column whose name is one space. *)
Definition blank_name : DataFrame :=
  mkDF ["Invoice No"; " "] [ mkRow 0 [Str "536365"; Int 1] ].

(** Four order lines of two invoices and one without an invoice number;
    the first line has no customer. *)
Definition invoice_lines : DataFrame :=
  mkDF ["InvoiceNo"; "StockCode"; "Quantity"; "InvoiceDate"; "CustomerID"; "Country";
        "TotalPrice"]
    [ mkRow 0 [Str "536365"; Str "85123A"; Int 6; Timestamp 0; Null;
               Str "United Kingdom"; Float (153 # 10)];
      mkRow 1 [Str "536365"; Str "71053"; Int 8; Timestamp 0; Int 17850;
               Str "United Kingdom"; Float (2712 # 100)];
      mkRow 2 [Str "536366"; Str "22752"; Int 2; Timestamp 60; Int 13047;
               Str "France"; Float 5];
      mkRow 3 [Null; Str "22752"; Int 1; Timestamp 90; Int 13047;
               Str "France"; Float (5 # 2)] ].

(** * Properties of the table operations *)

Lemma select_sublist {A} (mask : list bool) (l : list A) : sublist (select mask l) l.
Proof.
  revert l; induction mask as [|b m IH]; intros [|x l]; simpl;
    try apply sublist_nil_l.
  destruct b; [apply sublist_skip | apply sublist_cons]; apply IH.
Qed.

Lemma select_length {A} (mask : list bool) (l : list A) :
  (length (select mask l) <= length l)%nat.
Proof. apply sublist_length, select_sublist. Qed.

Lemma select_all_true {A} (mask : list bool) (l : list A) :
  length mask = length l -> Forall (fun b => b = true) mask -> select mask l = l.
Proof.
  revert l; induction mask as [|b m IH]; intros [|x l] Hlen Hall; simpl in *;
    try reflexivity; try discriminate.
  inversion Hall; subst. f_equal. apply IH; [lia | assumption].
Qed.

Lemma df_mask_sublist d mask : sublist (rows (df_mask d mask)) (rows d).
Proof. apply select_sublist. Qed.

Lemma lookup_fresh (h : list DataFrame) (d : DataFrame) :
  (h ++ [d]) !! length h = Some d.
Proof. by apply list_lookup_middle. Qed.

Lemma lookup_old (h : list DataFrame) (d : DataFrame) (r : ref) (x : DataFrame) :
  h !! r = Some x -> (h ++ [d]) !! r = Some x.
Proof. intros Hr. by apply lookup_app_l_Some. Qed.

(** ** Symbolic execution of the monad *)

Lemma deref_bind {B} s r d (k : DataFrame -> M B) :
  heap s !! r = Some d -> bind (deref r) k s = k d s.
Proof. intros Hr. unfold bind, deref. by rewrite Hr. Qed.

Lemma len_bind {B} s r d (k : Z -> M B) :
  heap s !! r = Some d -> bind (len r) k s = k (Z.of_nat (length (rows d))) s.
Proof. intros Hr. unfold len, bind, deref, ret. by rewrite Hr. Qed.

Lemma getitem_bind {B} s r d c (k : list cell -> M B) :
  heap s !! r = Some d ->
  bind (getitem r c) k s =
  match df_getitem d c with Ok col => k col s | Raise e => (Raise e, s) end.
Proof. intros Hr. unfold getitem, bind, deref, lift. by rewrite Hr. Qed.

Lemma getitem_mask_bind {B} s r d mask (k : DataFrame -> M B) :
  heap s !! r = Some d -> bind (getitem_mask r mask) k s = k (df_mask d mask) s.
Proof. intros Hr. unfold getitem_mask, bind, deref, ret. by rewrite Hr. Qed.

Lemma dropna_bind {B} s r d subset how (k : DataFrame -> M B) :
  heap s !! r = Some d ->
  bind (dropna r subset how) k s =
  match df_dropna d subset how with Ok t => k t s | Raise e => (Raise e, s) end.
Proof. intros Hr. unfold dropna, bind, deref, lift. by rewrite Hr. Qed.

Lemma duplicated_bind {B} s r d subset (k : list bool -> M B) :
  heap s !! r = Some d ->
  bind (duplicated r subset) k s =
  match df_duplicated d subset with Ok m => k m s | Raise e => (Raise e, s) end.
Proof. intros Hr. unfold duplicated, bind, deref, lift. by rewrite Hr. Qed.

Lemma drop_duplicates_bind {B} s r d subset (k : DataFrame -> M B) :
  heap s !! r = Some d ->
  bind (drop_duplicates r subset) k s =
  match df_drop_duplicates d subset with Ok t => k t s | Raise e => (Raise e, s) end.
Proof. intros Hr. unfold drop_duplicates, bind, deref, lift. by rewrite Hr. Qed.

Lemma copy_bind {B} s r d (k : ref -> M B) :
  heap s !! r = Some d ->
  bind (copy r) k s = k (length (heap s)) (mkState (heap s ++ [d]) (log s)).
Proof. intros Hr. unfold copy, bind, deref, alloc. by rewrite Hr. Qed.

Lemma setitem_bind {B} s r d c vals (k : unit -> M B) :
  heap s !! r = Some d ->
  bind (setitem r c vals) k s =
  match df_setitem d c vals with
  | Ok d' => k tt (mkState (<[r := d']> (heap s)) (log s))
  | Raise e => (Raise e, s)
  end.
Proof.
  intros Hr. unfold setitem, bind, deref, lift, assign. rewrite Hr.
  by destruct (df_setitem d c vals).
Qed.

Lemma setitem_run s r d c vals :
  heap s !! r = Some d ->
  setitem r c vals s =
  match df_setitem d c vals with
  | Ok d' => (Ok tt, mkState (<[r := d']> (heap s)) (log s))
  | Raise e => (Raise e, s)
  end.
Proof.
  intros Hr. unfold setitem, bind, deref, lift, assign. rewrite Hr.
  by destruct (df_setitem d c vals).
Qed.

Lemma ret_bind {A B} s (a : A) (k : A -> M B) : bind (ret a) k s = k a s.
Proof. reflexivity. Qed.

Lemma raise_bind {A B} s e (k : A -> M B) : bind (raise e) k s = (Raise e, s).
Proof. reflexivity. Qed.

Lemma bind_bind {A B C} (m : M A) (f : A -> M B) (k : B -> M C) s :
  bind (bind m f) k s = bind m (fun x => bind (f x) k) s.
Proof. unfold bind. by destruct (m s) as [[a|e] s']. Qed.

Lemma lift_bind {A B} s (o : outcome A) (k : A -> M B) :
  bind (lift o) k s = match o with Ok a => k a s | Raise e => (Raise e, s) end.
Proof. unfold bind, lift. by destruct o. Qed.

Lemma alloc_bind {B} s d (k : ref -> M B) :
  bind (alloc d) k s = k (length (heap s)) (mkState (heap s ++ [d]) (log s)).
Proof. reflexivity. Qed.

Lemma logger_bind {B} s l t a (k : unit -> M B) :
  bind (logger l t a) k s = k tt (mkState (heap s) (log s ++ [mkLog l t a])).
Proof. reflexivity. Qed.

Lemma py_truediv_bind {B} s a b (k : Q -> M B) :
  bind (py_truediv a b) k s =
  if b =? 0 then (Raise ZeroDivisionError, s) else k (inject_Z a / inject_Z b)%Q s.
Proof. unfold bind, py_truediv. by destruct (b =? 0). Qed.

Lemma lookup_assigned (h : list DataFrame) (r : ref) (d d0 : DataFrame) :
  h !! r = Some d0 -> <[r := d]> h !! r = Some d.
Proof. intros Hr. apply list_lookup_insert_eq. by eapply lookup_lt_Some. Qed.

(** Finds the table a reference is bound to in a heap that grew by
    allocation or in which the table was assigned to. *)
Ltac mlookup :=
  cbn [heap];
  first [ eassumption
        | apply lookup_fresh
        | apply lookup_old; mlookup
        | eapply lookup_assigned; mlookup ].

(** One step of symbolic execution. *)
Ltac mstep :=
  first [ rewrite logger_bind
        | rewrite ret_bind
        | rewrite raise_bind
        | rewrite alloc_bind
        | rewrite lift_bind
        | rewrite py_truediv_bind
        | erewrite len_bind by mlookup
        | erewrite getitem_bind by mlookup
        | erewrite getitem_mask_bind by mlookup
        | erewrite dropna_bind by mlookup
        | erewrite duplicated_bind by mlookup
        | erewrite drop_duplicates_bind by mlookup
        | erewrite copy_bind by mlookup
        | erewrite setitem_bind by mlookup
        | erewrite setitem_run by mlookup
        | erewrite deref_bind by mlookup ];
  cbn [heap log].

Section CleaningProperties.
Context `{Pandas}.

(** What [remove_cancelled_orders] does to a state in which [df] is bound:
    it raises the lookup failure of the column, or appends the filtered
    table to the heap and two messages to the log. *)
Lemma remove_cancelled_orders_run s df d invoice_column prefix :
  heap s !! df = Some d ->
  remove_cancelled_orders df invoice_column prefix s =
  match df_getitem d invoice_column with
  | Raise e => (Raise e, s)
  | Ok col =>
      let kept := df_mask d (map negb (cancelled_rows col prefix)) in
      (Ok (length (heap s)),
       mkState (heap s ++ [kept])
         (log s ++
          [mkLog INFO "Cancelled orders removed"
             [AInt (mask_sum (cancelled_rows col prefix));
              AFloat (np_mul (np_truediv (mask_sum (cancelled_rows col prefix))
                                (Z.of_nat (length (rows d)))) 100)];
           mkLog INFO "Remaining rows" [AInt (Z.of_nat (length (rows kept)))]]))
  end.
Proof.
  intros Hdf. unfold remove_cancelled_orders, cancelled_rows.
  do 2 mstep. destruct (df_getitem d invoice_column) as [col|e]; [|reflexivity].
  repeat mstep. unfold ret. by rewrite <- app_assoc.
Qed.


(** ** What each cleaning function computes

    For each function of the source: the table it returns as a function of
    the table it is given, and the proof that the function, run on any
    state in which its argument is bound, allocates exactly that table
    (or raises exactly that exception) and touches nothing else. *)

Lemma raises_here (m : M ref) s e : m s = (Raise e, s) -> raises m s e.
Proof.
  intros Hm. exists [], []. rewrite Hm, !app_nil_r. by destruct s.
Qed.

(** Whether a comparison with a number raises depends on the column only. *)
Lemma series_cmp_raise op1 op2 col k1 k2 e :
  series_cmp op1 col k1 = Raise e -> series_cmp op2 col k2 = Raise e.
Proof.
  revert e; induction col as [|c cs IH]; intros e; simpl; [discriminate|].
  destruct c; try (intros [= <-]; reflexivity);
    destruct (series_cmp op1 cs k1) as [m1|e1]; try discriminate;
    intros [= <-]; by rewrite (IH e1 eq_refl).
Qed.

Lemma series_cmp_ok op1 op2 col k1 k2 m :
  series_cmp op1 col k1 = Ok m -> exists m', series_cmp op2 col k2 = Ok m'.
Proof.
  intros Hm. destruct (series_cmp op2 col k2) as [m'|e] eqn:E; [by eexists|].
  rewrite (series_cmp_raise op2 op1 col k2 k1 e E) in Hm. discriminate.
Qed.

Lemma remove_cancelled_orders_spec s df d invoice_column prefix :
  heap s !! df = Some d ->
  runs_as (remove_cancelled_orders df invoice_column prefix) s
          (cancelled_removed d invoice_column prefix).
Proof.
  intros Hdf. unfold cancelled_removed.
  pose proof (remove_cancelled_orders_run s df d invoice_column prefix Hdf) as Hrun.
  destruct (df_getitem d invoice_column); [by eexists | by apply raises_here].
Qed.

Lemma remove_missing_values_spec s df d cols how :
  heap s !! df = Some d ->
  runs_as (remove_missing_values df cols how) s (missing_removed d cols how).
Proof.
  intros Hdf. unfold missing_removed, remove_missing_values, runs_as.
  destruct (df_dropna d cols how) as [kept|e] eqn:E.
  - destruct (Z.of_nat (length (rows d)) =? 0) eqn:Z0.
    + exists [kept], []. repeat mstep. rewrite E. repeat mstep.
      by rewrite Z0, app_nil_r.
    + unfold returns_fresh. repeat mstep. rewrite E. repeat mstep.
      rewrite Z0. repeat mstep. unfold ret. rewrite <- !app_assoc. by eexists.
  - apply raises_here. repeat mstep. by rewrite E.
Qed.

Lemma remove_invalid_quantities_spec s df d quantity_column min_quantity :
  heap s !! df = Some d ->
  runs_as (remove_invalid_quantities df quantity_column min_quantity) s
          (quantities_valid d quantity_column min_quantity).
Proof.
  intros Hdf. unfold quantities_valid, remove_invalid_quantities, runs_as.
  destruct (df_getitem d quantity_column) as [col|e] eqn:E.
  - destruct (series_cmp Qge_bool col (inject_Z min_quantity)) as [valid|e] eqn:V.
    + destruct (series_cmp_ok Qge_bool Qlt_bool col _ 0%Q _ V) as [neg N].
      unfold returns_fresh. repeat (mstep; rewrite ?E, ?N, ?V).
      unfold ret. rewrite <- !app_assoc. by eexists.
    + apply raises_here. repeat (mstep; rewrite ?E).
      by rewrite (series_cmp_raise Qge_bool Qlt_bool col _ 0%Q e V).
  - apply raises_here. repeat mstep. by rewrite E.
Qed.

Lemma remove_invalid_prices_spec s df d price_column min_price max_price :
  heap s !! df = Some d ->
  runs_as (remove_invalid_prices df price_column min_price max_price) s
          (prices_valid d price_column min_price max_price).
Proof.
  intros Hdf. unfold prices_valid, remove_invalid_prices, runs_as.
  destruct (df_getitem d price_column) as [col|e] eqn:E.
  - destruct (series_cmp Qge_bool col min_price) as [lo|e] eqn:L.
    + destruct (series_cmp_ok Qge_bool Qlt_bool col _ 0%Q _ L) as [neg N].
      destruct (series_cmp_ok Qge_bool Qgt_bool col _ max_price _ L) as [high G].
      destruct (series_cmp_ok Qge_bool Qle_bool col _ max_price _ L) as [hi U].
      rewrite U. unfold returns_fresh. repeat (mstep; rewrite ?E, ?N, ?G, ?L, ?U).
      unfold ret. rewrite <- !app_assoc. by eexists.
    + apply raises_here. repeat (mstep; rewrite ?E).
      by rewrite (series_cmp_raise Qge_bool Qlt_bool col _ 0%Q e L).
  - apply raises_here. repeat mstep. by rewrite E.
Qed.

Lemma remove_duplicates_spec s df d subset :
  heap s !! df = Some d ->
  runs_as (remove_duplicates df subset) s (df_drop_duplicates d subset).
Proof.
  intros Hdf. unfold remove_duplicates, runs_as, df_drop_duplicates.
  destruct (df_duplicated d subset) as [m|e] eqn:E.
  - unfold returns_fresh. repeat (mstep; rewrite ?E).
    unfold df_drop_duplicates. rewrite E. repeat mstep.
    unfold ret. rewrite <- !app_assoc. by eexists.
  - apply raises_here. repeat (mstep; rewrite ?E). reflexivity.
Qed.

Lemma insert_fresh (h : list DataFrame) (d d' : DataFrame) :
  <[length h := d']> (h ++ [d]) = h ++ [d'].
Proof.
  rewrite insert_app_r_alt by lia. by rewrite Nat.sub_diag.
Qed.

Lemma convert_loop (h : list DataFrame) (type_mappings : list (string * string)) :
  forall (d : DataFrame) (lg : list log_entry), exists lg',
    for_each type_mappings (fun item =>
      let column := fst item in
      let dtype := snd item in
      t <- deref (length h) ;;
      if bool_decide (column ∈ columns t) then
        try_except
          ((if String.eqb dtype "datetime64" then
              col <- getitem (length h) column ;;
              v <- pd_to_datetime col ;;
              setitem (length h) column v
            else
              col <- getitem (length h) column ;;
              v <- series_astype col dtype ;;
              setitem (length h) column v) ;;;
           logger INFO "converted" [AStr column; AStr dtype])
          (fun e => logger ERROR "Error converting" [AStr column; AStr dtype])
      else logger WARNING "Column not found" [AStr column])
    (mkState (h ++ [d]) lg)
    = (Ok tt, mkState (h ++ [types_converted d type_mappings]) (lg ++ lg')).
Proof.
  induction type_mappings as [|[column dtype] rest IH]; intros d lg.
  - exists []. by rewrite app_nil_r.
  - set (body := fun item : string * string => _) in *.
    unfold types_converted. cbn [for_each fold_left fst snd].
    change (fold_left _ rest ?t) with (types_converted t rest).
    assert (Hstep : exists entry,
      body (column, dtype) (mkState (h ++ [d]) lg) =
      (Ok tt, mkState (h ++ [convert_column d column dtype]) (lg ++ [entry]))).
    { subst body. cbn [fst snd]. unfold convert_column.
      destruct (bool_decide (column ∈ columns d)) eqn:Hin;
        [|eexists; mstep; by rewrite Hin].
      destruct (df_getitem d column) as [col|e] eqn:Hget;
        [|eexists; mstep; rewrite Hin; unfold try_except, bind at 1;
          destruct (String.eqb dtype "datetime64"); mstep; by rewrite Hget].
      destruct (String.eqb dtype "datetime64") eqn:Hdt.
      - destruct (to_datetime col) as [v|] eqn:Hv;
          [destruct (df_setitem d column v) as [d'|e] eqn:Hset|];
          eexists; mstep; rewrite Hin; unfold try_except, bind at 1; cbv iota;
          mstep; rewrite Hget; unfold pd_to_datetime; rewrite Hv;
          mstep; try reflexivity;
          mstep; rewrite Hset; cbn [logger heap log];
          rewrite ?insert_fresh; reflexivity.
      - destruct (astype dtype col) as [v|] eqn:Hv;
          [destruct (df_setitem d column v) as [d'|e] eqn:Hset|];
          eexists; mstep; rewrite Hin; unfold try_except, bind at 1; cbv iota;
          mstep; rewrite Hget; unfold series_astype; rewrite Hv;
          mstep; try reflexivity;
          mstep; rewrite Hset; cbn [logger heap log];
          rewrite ?insert_fresh; reflexivity. }
    destruct Hstep as [entry Hstep].
    destruct (IH (convert_column d column dtype) (lg ++ [entry])) as [lg' IH'].
    exists (entry :: lg'). unfold bind at 1. rewrite Hstep, IH'.
    by rewrite <- app_assoc.
Qed.

Lemma convert_data_types_spec s df d type_mappings :
  heap s !! df = Some d ->
  returns_fresh (convert_data_types df type_mappings) s (types_converted d type_mappings).
Proof.
  intros Hdf. unfold convert_data_types, returns_fresh. mstep.
  destruct (convert_loop (heap s) type_mappings d (log s)) as [lg' Hloop].
  cbv zeta in Hloop. exists lg'. unfold bind at 1. by rewrite Hloop.
Qed.

Lemma bind_ok {A B} (m : M A) (k : A -> M B) s a s' :
  m s = (Ok a, s') -> bind m k s = k a s'.
Proof. intros Hm. unfold bind. by rewrite Hm. Qed.

Lemma bind_raise {A B} (m : M A) (k : A -> M B) s e s' :
  m s = (Raise e, s') -> bind m k s = (Raise e, s').
Proof. intros Hm. unfold bind. by rewrite Hm. Qed.

Lemma zip_with_row_set_length i (rs : list Row) (vals : list cell) :
  length vals = length rs -> length (zip_with (row_set i) rs vals) = length rs.
Proof. intros Hl. rewrite length_zip_with. lia. Qed.

Lemma df_setitem_length d c vals d' :
  df_setitem d c vals = Ok d' -> length (rows d') = length (rows d).
Proof.
  unfold df_setitem. destruct (Nat.eqb (length vals) (length (rows d))) eqn:E;
    [|discriminate]. apply Nat.eqb_eq in E. cbn [negb].
  destruct (col_pos c (columns d)); intros [= <-]; cbn [rows];
    rewrite length_zip_with; lia.
Qed.

Lemma convert_column_length d column dtype :
  length (rows (convert_column d column dtype)) = length (rows d).
Proof.
  unfold convert_column.
  destruct (bool_decide _); [|done].
  destruct (df_getitem d column) as [col|]; [|done].
  destruct (if String.eqb dtype "datetime64" then _ else _) as [v|]; [|done].
  destruct (df_setitem d column v) as [d'|] eqn:E; [|done].
  by apply df_setitem_length in E.
Qed.

Lemma types_converted_length type_mappings : forall d,
  length (rows (types_converted d type_mappings)) = length (rows d).
Proof.
  induction type_mappings as [|item rest IH]; intros d; [done|].
  unfold types_converted in *. cbn [fold_left]. rewrite IH.
  apply convert_column_length.
Qed.

(** ** Sequencing calls *)

Lemma outcome_of_ext (m m' : M ref) s junk lg o tail :
  m s = m' (mkState (heap s ++ junk) (log s ++ lg)) ->
  outcome_of m' (mkState (heap s ++ junk) (log s ++ lg)) o tail ->
  outcome_of m s o tail.
Proof.
  intros Hm. destruct o as [d'|e]; cbn [outcome_of].
  - intros (r & junk' & lg' & Hrun & Hr). cbn [heap log] in *.
    exists r, (junk ++ junk'), (lg ++ lg'). rewrite Hm, Hrun.
    by rewrite <- !app_assoc in *.
  - intros (junk' & lg' & Hrun). cbn [heap log] in *.
    exists (junk ++ junk'), (lg ++ lg'). rewrite Hm, Hrun.
    by rewrite <- !app_assoc.
Qed.

Lemma seq_call (m : M ref) (k : ref -> M ref) s o1 o tail :
  runs_as m s o1 ->
  (forall e, o1 = Raise e -> o = Raise e) ->
  (forall d1 s1 r1, o1 = Ok d1 -> heap s1 !! r1 = Some d1 ->
     (forall r0 x, heap s !! r0 = Some x -> heap s1 !! r0 = Some x) ->
     outcome_of (k r1) s1 o tail) ->
  outcome_of (bind m k) s o tail.
Proof.
  destruct o1 as [d1|e]; cbn [runs_as]; intros Hm Hraise Hok.
  - destruct Hm as [lg Hm].
    apply (outcome_of_ext _ (k (length (heap s))) s [d1] lg).
    + by apply bind_ok.
    + apply (Hok d1); [done | apply lookup_fresh |].
      intros r0 x Hx. by apply lookup_old.
  - rewrite (Hraise e eq_refl). destruct Hm as (junk & lg & Hm).
    exists junk, lg. by apply bind_raise.
Qed.

(** The end of the pipeline: the summary is logged and the reference to
    the cleaned table is returned. *)
Lemma summary_run s df df_clean d d' :
  heap s !! df = Some d -> heap s !! df_clean = Some d' -> rows d <> [] ->
  returns_table
    (original_rows <- len df ;;
     final_rows <- len df_clean ;;
     let removed := original_rows - final_rows in
     ratio <- py_truediv final_rows original_rows ;;
     let retention_rate := (ratio * 100)%Q in
     logger INFO "================" [] ;;;
     logger INFO "DATA CLEANING SUMMARY" [] ;;;
     logger INFO "================" [] ;;;
     logger INFO "Original dataset" [AInt original_rows] ;;;
     logger INFO "Cleaned dataset" [AInt final_rows] ;;;
     pct <- py_truediv removed original_rows ;;
     logger INFO "Rows removed" [AInt removed; AFloat (Fval (pct * 100)%Q)] ;;;
     logger INFO "Data retention rate" [AFloat (Fval retention_rate)] ;;;
     logger INFO "================" [] ;;;
     ret df_clean)
    s d' (summary (Z.of_nat (length (rows d))) (Z.of_nat (length (rows d')))).
Proof.
  intros Hdf Hclean Hne. exists df_clean, [], [].
  assert ((Z.of_nat (length (rows d)) =? 0) = false) as Hz.
  { apply Z.eqb_neq. destruct (rows d); [done | cbn [length]; lia]. }
  rewrite app_nil_r. split; [|done].
  repeat (mstep; rewrite ?Hz). unfold ret, summary. cbn [app].
  by rewrite <- !app_assoc.
Qed.

Lemma missing_removed_nonempty d cols how d' :
  missing_removed d cols how = Ok d' -> rows d <> [].
Proof.
  unfold missing_removed. destruct (df_dropna d cols how); [|discriminate].
  destruct (rows d); [discriminate | done].
Qed.

Lemma cancelled_removed_nonempty d c p d' :
  cancelled_removed d c p = Ok d' -> rows d' <> [] -> rows d <> [].
Proof.
  unfold cancelled_removed. destruct (df_getitem d c); [|discriminate].
  intros [= <-]. cbn [df_mask rows]. destruct (rows d); [|done].
  by destruct (map negb _).
Qed.

(** The pipeline on any state in which its argument is bound: it returns
    the table [cleaned] computes and ends the log with the summary, or it
    raises the exception [cleaned] computes. *)
Lemma clean_ecommerce_data_spec s df d :
  heap s !! df = Some d ->
  outcome_of (clean_ecommerce_data df) s (cleaned d)
    (match cleaned d with
     | Ok d' => summary (Z.of_nat (length (rows d))) (Z.of_nat (length (rows d')))
     | Raise _ => []
     end).
Proof.
  intros Hdf.
  eapply (outcome_of_ext _ _ s [d]).
  { unfold clean_ecommerce_data.
    match goal with |- _ = ?R => set (rhs := R) end.
    repeat mstep. rewrite <- !app_assoc. subst rhs. reflexivity. }
  assert (Hdf1 : forall r0 x, heap s !! r0 = Some x ->
            heap (mkState (heap s ++ [d]) (log s)) !! r0 = Some x)
    by (intros r0 x Hx; by apply lookup_old).
  unfold cleaned. cbv zeta.
  eapply seq_call; [apply remove_cancelled_orders_spec; mlookup | |].
  { intros e ->. reflexivity. }
  intros d1 s1 r1 E1 Hr1 Hs1. rewrite E1.
  eapply (seq_call _ _ s1 (Ok (types_converted d1 [("InvoiceDate", "datetime64")])));
    [apply (convert_data_types_spec s1 r1 d1 [("InvoiceDate", "datetime64")] Hr1) | |].
  { intros e [=]. }
  intros d2 s2 r2 Heq Hr2 Hs2.
  assert (d2 = types_converted d1 [("InvoiceDate", "datetime64")]) as -> by congruence.
  clear Heq.
  eapply seq_call; [apply remove_missing_values_spec; eassumption | |].
  { intros e ->. reflexivity. }
  intros d3 s3 r3 E3 Hr3 Hs3. rewrite E3.
  eapply seq_call; [apply remove_invalid_quantities_spec; eassumption | |].
  { intros e ->. reflexivity. }
  intros d4 s4 r4 -> Hr4 Hs4.
  eapply seq_call; [apply remove_invalid_prices_spec; eassumption | |].
  { intros e ->. reflexivity. }
  intros d5 s5 r5 -> Hr5 Hs5.
  eapply seq_call; [apply remove_duplicates_spec; eassumption | |].
  { intros e ->. reflexivity. }
  intros d6 s6 r6 -> Hr6 Hs6. cbn [outcome_of].
  apply summary_run; [auto 10 | done |].
  apply missing_removed_nonempty in E3.
  assert (rows d1 <> []) as Hd1.
  { intros Hnil. apply E3. apply length_zero_iff_nil.
    rewrite types_converted_length. by rewrite Hnil. }
  eapply cancelled_removed_nonempty; [exact E1 | exact Hd1].
Qed.

(** ** Reading a run back *)

Lemma runs_as_returns (m : M ref) s o r s' :
  runs_as m s o -> m s = (Ok r, s') ->
  exists d', o = Ok d' /\ heap s' !! r = Some d' /\
             forall r0 x, heap s !! r0 = Some x -> heap s' !! r0 = Some x.
Proof.
  destruct o as [d'|e]; cbn [runs_as].
  - intros [lg Hm] Hrun. rewrite Hm in Hrun. injection Hrun as <- <-.
    exists d'. cbn [heap]. split; [done|]. split; [apply lookup_fresh|].
    intros r0 x Hx. by apply lookup_old.
  - intros (junk & lg & Hm) Hrun. rewrite Hm in Hrun. discriminate.
Qed.


Lemma clean_returns s df d d' :
  heap s !! df = Some d -> cleaned d = Ok d' ->
  exists r s' pre,
    clean_ecommerce_data df s = (Ok r, s') /\
    heap s' !! r = Some d' /\
    heap s' !! df = Some d /\
    log s' = log s ++ pre ++
             summary (Z.of_nat (length (rows d))) (Z.of_nat (length (rows d'))).
Proof.
  intros Hdf Hc. pose proof (clean_ecommerce_data_spec s df d Hdf) as Hrun.
  rewrite Hc in Hrun. destruct Hrun as (r & junk & lg & Hrun & Hr).
  exists r, (mkState (heap s ++ junk)
               (log s ++ lg ++ summary (Z.of_nat (length (rows d)))
                                       (Z.of_nat (length (rows d'))))), lg.
  cbn [heap log]. split; [exact Hrun|]. split; [exact Hr|]. split; [|done].
  by apply lookup_app_l_Some.
Qed.

Lemma clean_raises s df d e :
  heap s !! df = Some d -> cleaned d = Raise e ->
  exists s', clean_ecommerce_data df s = (Raise e, s') /\ heap s' !! df = Some d.
Proof.
  intros Hdf Hc. pose proof (clean_ecommerce_data_spec s df d Hdf) as Hrun.
  rewrite Hc in Hrun. destruct Hrun as (junk & lg & Hrun).
  eexists. split; [exact Hrun|]. cbn [heap]. by apply lookup_app_l_Some.
Qed.


(** ** Every filter keeps a sub-sequence of the rows *)

Lemma cancelled_removed_rows d c p d' :
  cancelled_removed d c p = Ok d' ->
  columns d' = columns d /\ sublist (rows d') (rows d).
Proof.
  unfold cancelled_removed. destruct (df_getitem d c); [|discriminate].
  intros [= <-]. split; [done | apply df_mask_sublist].
Qed.

Lemma df_dropna_rows d cols how d' :
  df_dropna d cols how = Ok d' ->
  columns d' = columns d /\ sublist (rows d') (rows d).
Proof.
  unfold df_dropna. destruct (positions cols (columns d)); [|discriminate].
  destruct (String.eqb how "any"); [|destruct (String.eqb how "all"); [|discriminate]];
    intros [= <-]; (split; [done | apply df_mask_sublist]).
Qed.

Lemma missing_removed_rows d cols how d' :
  missing_removed d cols how = Ok d' ->
  columns d' = columns d /\ sublist (rows d') (rows d).
Proof.
  unfold missing_removed. destruct (df_dropna d cols how) as [t|] eqn:E; [|discriminate].
  destruct (_ =? 0); [discriminate|]. intros [= <-]. by eapply df_dropna_rows.
Qed.

Lemma quantities_valid_rows d c k d' :
  quantities_valid d c k = Ok d' ->
  columns d' = columns d /\ sublist (rows d') (rows d).
Proof.
  unfold quantities_valid. destruct (df_getitem d c) as [col|]; [|discriminate].
  destruct (series_cmp _ col _); [|discriminate].
  intros [= <-]. split; [done | apply df_mask_sublist].
Qed.

Lemma prices_valid_rows d c lo hi d' :
  prices_valid d c lo hi = Ok d' ->
  columns d' = columns d /\ sublist (rows d') (rows d).
Proof.
  unfold prices_valid. destruct (df_getitem d c) as [col|]; [|discriminate].
  destruct (series_cmp Qge_bool col lo); [|discriminate].
  destruct (series_cmp Qle_bool col hi); [|discriminate].
  intros [= <-]. split; [done | apply df_mask_sublist].
Qed.

Lemma df_drop_duplicates_rows d subset d' :
  df_drop_duplicates d subset = Ok d' ->
  columns d' = columns d /\ sublist (rows d') (rows d).
Proof.
  unfold df_drop_duplicates. destruct (df_duplicated d subset); [|discriminate].
  intros [= <-]. split; [done | apply df_mask_sublist].
Qed.

(** ** Columns and rows *)

Lemma df_eta d : mkDF (columns d) (rows d) = d.
Proof. by destruct d. Qed.

Lemma select_map_filter {A} (f : A -> bool) (l : list A) :
  select (map f l) l = List.filter f l.
Proof.
  induction l as [|x l IH]; [done|]. cbn [map select List.filter].
  destruct (f x); by rewrite IH.
Qed.



Lemma Forall_sublist {A} (P : A -> Prop) (l k : list A) :
  sublist l k -> Forall P k -> Forall P l.
Proof.
  intros Hs Hk. rewrite Forall_forall in *. intros x Hx.
  apply Hk. eapply elem_of_sublist; eassumption.
Qed.

Lemma col_pos_lt c cols i : col_pos c cols = Some i -> (i < length cols)%nat.
Proof.
  revert i; induction cols as [|c' cs IH]; intros i; cbn; [done|].
  destruct (String.eqb c c'); [intros [= <-]; lia|].
  destruct (col_pos c cs) as [j|]; [|done]. intros [= <-].
  specialize (IH j eq_refl). lia.
Qed.

Lemma col_pos_inj c c' cols i :
  col_pos c cols = Some i -> col_pos c' cols = Some i -> c = c'.
Proof.
  revert i; induction cols as [|x cs IH]; intros i; cbn; [done|].
  destruct (String.eqb c x) eqn:E1, (String.eqb c' x) eqn:E2.
  - apply String.eqb_eq in E1, E2. congruence.
  - intros [= <-]. by destruct (col_pos c' cs).
  - destruct (col_pos c cs); [|done]. by intros [= <-].
  - destruct (col_pos c cs) as [j|]; [|done].
    destruct (col_pos c' cs) as [j'|]; [|done].
    intros [= <-] [= ->]. by apply (IH j).
Qed.

Lemma col_pos_elem c cols : c ∈ cols <-> is_Some (col_pos c cols).
Proof.
  induction cols as [|x cs IH]; cbn.
  - split; [by intros ?%elem_of_nil | by intros [? ?]].
  - destruct (String.eqb c x) eqn:E.
    + apply String.eqb_eq in E as ->. split; [by eexists | intros _; constructor].
    + apply String.eqb_neq in E. rewrite elem_of_cons, IH.
      destruct (col_pos c cs); cbn; split; try (intros [?|?]); try done;
        try (by eexists); try (intros [? ?]; done).
      intros _. right. by eexists.
Qed.


Lemma cell_at_row_set_ne i j r v : i <> j -> cell_at j (row_set i r v) = cell_at j r.
Proof.
  intros Hij. unfold cell_at, row_set. cbn [cells].
  by rewrite !nth_lookup, list_lookup_insert_ne.
Qed.

Lemma cell_at_row_set_eq i r v :
  (i < length (cells r))%nat -> cell_at i (row_set i r v) = v.
Proof.
  intros Hi. unfold cell_at, row_set. cbn [cells].
  by rewrite nth_lookup, list_lookup_insert_eq.
Qed.

(** ** Tests on a column *)




Lemma series_cmp_test op col k m :
  series_cmp op col k = Ok m -> m = map (cell_test op k) col.
Proof.
  revert m; induction col as [|c cs IH]; intros m; cbn [series_cmp map].
  - by intros [= <-].
  - unfold cell_test at 1.
    destruct (cmp_cell op k c) as [b|e]; [|discriminate].
    destruct (series_cmp op cs k) as [bs|e]; [|discriminate].
    intros [= <-]. by rewrite (IH bs eq_refl).
Qed.


Lemma zip_with_andb_map {A} (f g : A -> bool) (l : list A) :
  map f l &&* map g l = map (fun x => f x && g x) l.
Proof. induction l as [|x l IH]; [done|]. cbn. by rewrite <- IH. Qed.

(** *** What each filter establishes *)






(** *** A table that passes the test of a filter goes through unchanged *)





(** ** Duplicates *)





(** ** Type conversion touches the named column only *)

Lemma zip_with_row_set_other i j (rs : list Row) : forall vals,
  i <> j -> length vals = length rs ->
  map (cell_at j) (zip_with (row_set i) rs vals) = map (cell_at j) rs.
Proof.
  induction rs as [|r rs IH]; intros [|v vals] Hij Hlen;
    cbn [zip_with map length] in *; try done.
  rewrite cell_at_row_set_ne by done. f_equal. apply IH; [done | lia].
Qed.

Lemma df_setitem_columns d c vals d' :
  c ∈ columns d -> df_setitem d c vals = Ok d' -> columns d' = columns d.
Proof.
  intros [i Hi]%col_pos_elem. unfold df_setitem. rewrite Hi.
  destruct (negb _); [done|]. by intros [= <-].
Qed.

Lemma df_setitem_other d c vals d' c' :
  c ∈ columns d -> c' <> c -> df_setitem d c vals = Ok d' ->
  df_getitem d' c' = df_getitem d c'.
Proof.
  intros [i Hi]%col_pos_elem Hne. unfold df_setitem. rewrite Hi.
  destruct (Nat.eqb (length vals) (length (rows d))) eqn:El; [|done].
  apply Nat.eqb_eq in El. cbn [negb]. intros [= <-].
  unfold df_getitem. cbn [columns rows].
  destruct (col_pos c' (columns d)) as [j|] eqn:Hj; [|done].
  rewrite zip_with_row_set_other; [done | | done].
  intros ->. apply Hne. by eapply col_pos_inj.
Qed.

Lemma convert_column_columns d c t : columns (convert_column d c t) = columns d.
Proof.
  unfold convert_column. destruct (bool_decide (c ∈ columns d)) eqn:Hin; [|done].
  apply bool_decide_eq_true in Hin.
  destruct (df_getitem d c) as [col|]; [|done].
  destruct (if String.eqb t "datetime64" then _ else _) as [v|]; [|done].
  destruct (df_setitem d c v) as [d'|] eqn:E; [|done].
  by eapply df_setitem_columns.
Qed.


Lemma types_converted_columns type_mappings : forall d,
  columns (types_converted d type_mappings) = columns d.
Proof.
  induction type_mappings as [|item rest IH]; intros d; [done|].
  unfold types_converted in *. cbn [fold_left]. rewrite IH.
  apply convert_column_columns.
Qed.



(** ** The table the pipeline returns *)








Lemma series_cmp_numeric op col k :
  Forall (fun x => numeric x = true) col -> exists m, series_cmp op col k = Ok m.
Proof.
  induction 1 as [|c cs Hc _ [m IH]]; [by eexists|]. cbn [series_cmp].
  rewrite IH. destruct c; try discriminate; by eexists.
Qed.

Lemma df_dropna_total d c :
  c ∈ columns d -> exists d', df_dropna d [c] "any" = Ok d'.
Proof.
  intros [i Hi]%col_pos_elem. unfold df_dropna. cbn [positions]. rewrite Hi.
  by eexists.
Qed.





(** When no row survives the removal of cancellations, the percentage in
    the log message of [remove_missing_values] divides by zero. *)
Lemma cleaned_nothing_left d d1 :
  cancelled_removed d "InvoiceNo" "C" = Ok d1 -> rows d1 = [] ->
  "Description" ∈ columns d ->
  cleaned d = Raise ZeroDivisionError.
Proof.
  intros H1 Hnil Hdesc. unfold cleaned. rewrite H1. cbv zeta.
  pose proof (cancelled_removed_rows _ _ _ _ H1) as [C1 _].
  set (d2 := types_converted d1 [("InvoiceDate", "datetime64")]).
  destruct (df_dropna_total d2 "Description") as [d3 H3].
  { unfold d2. by rewrite types_converted_columns, C1. }
  unfold missing_removed. rewrite H3.
  unfold d2. by rewrite types_converted_length, Hnil.
Qed.

End CleaningProperties.

(** * The cleaner: empty tables, row counts and sub-sequences *)

Lemma raises_fst (m : M ref) s e : raises m s e -> fst (m s) = Raise e.
Proof. intros (junk & lg & ->). reflexivity. Qed.

(** C1 (the code diverges): on a table with the eight columns and no
    row, [remove_missing_values] raises ZeroDivisionError, and so does the
    whole pipeline; the pipeline also raises it on a non-empty table whose
    rows are all cancellations, that is, whenever cleaning would yield zero
    rows before the missing-value step.  The division is the percentage
    formatted into a log message. *)
Theorem empty_table_raises_zero_division (P : Pandas) :
  fst (remove_missing_values 0%nat ["Description"] "any" (only empty_transactions))
    = Raise ZeroDivisionError /\
  fst (clean_ecommerce_data 0%nat (only empty_transactions))
    = Raise ZeroDivisionError /\
  fst (clean_ecommerce_data 0%nat (only all_cancelled))
    = Raise ZeroDivisionError.
Proof.
  split; [|split].
  - apply raises_fst.
    exact (remove_missing_values_spec (only empty_transactions) 0%nat
             empty_transactions ["Description"] "any" eq_refl).
  - destruct (clean_raises (only empty_transactions) 0%nat empty_transactions
                ZeroDivisionError eq_refl) as (s' & -> & _); [|done].
    eapply cleaned_nothing_left; [reflexivity | reflexivity |].
    apply col_pos_elem. by eexists.
  - destruct (clean_raises (only all_cancelled) 0%nat all_cancelled
                ZeroDivisionError eq_refl) as (s' & -> & _); [|done].
    eapply cleaned_nothing_left; [reflexivity | reflexivity |].
    apply col_pos_elem. by eexists.
Qed.





Lemma runs_as_keeps (m : M ref) s o d :
  runs_as m s o ->
  (forall d', o = Ok d' -> columns d' = columns d /\ sublist (rows d') (rows d)) ->
  keeps_subsequence m s d.
Proof.
  intros Hrun Hsub r s' Hm.
  destruct (runs_as_returns m s o r s' Hrun Hm) as (d' & -> & Hr & _).
  exists d'. split; [done | by apply Hsub].
Qed.

(** C10: each of the five row-dropping operations, whatever its
    parameters, returns a table with the columns of its input whose rows
    are a sub-sequence of the input's rows: every surviving row is a row of
    the input, label and cells unchanged, and the survivors keep their
    relative order. *)
Theorem row_dropping_keeps_subsequence (P : Pandas) (s : state) (df : ref) (d : DataFrame) :
  heap s !! df = Some d ->
  (forall c p, keeps_subsequence (remove_cancelled_orders df c p) s d) /\
  (forall cols how, keeps_subsequence (remove_missing_values df cols how) s d) /\
  (forall c k, keeps_subsequence (remove_invalid_quantities df c k) s d) /\
  (forall c lo hi, keeps_subsequence (remove_invalid_prices df c lo hi) s d) /\
  (forall subset, keeps_subsequence (remove_duplicates df subset) s d).
Proof.
  intros Hdf. repeat split; intros.
  - eapply runs_as_keeps; [by apply remove_cancelled_orders_spec|].
    intros d'. apply cancelled_removed_rows.
  - eapply runs_as_keeps; [by apply remove_missing_values_spec|].
    intros d'. apply missing_removed_rows.
  - eapply runs_as_keeps; [by apply remove_invalid_quantities_spec|].
    intros d'. apply quantities_valid_rows.
  - eapply runs_as_keeps; [by apply remove_invalid_prices_spec|].
    intros d'. apply prices_valid_rows.
  - eapply runs_as_keeps; [by apply remove_duplicates_spec|].
    intros d'. apply df_drop_duplicates_rows.
Qed.

Lemma row_dropping_keeps_subsequence_witness :
  exists d1 d2 d3 d4 d5,
    (heap (snd (@remove_cancelled_orders iso_pandas 0%nat "InvoiceNo" "C"
                  (only sample_transactions))) !! 1%nat = Some d1 /\
     sublist (rows d1) (rows sample_transactions) /\ length (rows d1) = 5%nat) /\
    (heap (snd (remove_missing_values 0%nat ["Description"] "any"
                  (only sample_transactions))) !! 1%nat = Some d2 /\
     sublist (rows d2) (rows sample_transactions) /\ length (rows d2) = 5%nat) /\
    (heap (snd (remove_invalid_quantities 0%nat "Quantity" 1
                  (only sample_transactions))) !! 1%nat = Some d3 /\
     sublist (rows d3) (rows sample_transactions) /\ length (rows d3) = 4%nat) /\
    (heap (snd (remove_invalid_prices 0%nat "UnitPrice" (1 # 100)%Q 100000%Q
                  (only sample_transactions))) !! 1%nat = Some d4 /\
     sublist (rows d4) (rows sample_transactions) /\ length (rows d4) = 4%nat) /\
    (heap (snd (remove_duplicates 0%nat None
                  (only sample_transactions))) !! 1%nat = Some d5 /\
     sublist (rows d5) (rows sample_transactions) /\ length (rows d5) = 5%nat).
Proof.
  destruct (row_dropping_keeps_subsequence iso_pandas (only sample_transactions) 0%nat
              sample_transactions eq_refl) as (K1 & K2 & K3 & K4 & K5).
  destruct (K1 "InvoiceNo" "C" 1%nat _ eq_refl) as (d1 & H1 & _ & S1).
  destruct (K2 ["Description"] "any" 1%nat _ eq_refl) as (d2 & H2 & _ & S2).
  destruct (K3 "Quantity" 1 1%nat _ eq_refl) as (d3 & H3 & _ & S3).
  destruct (K4 "UnitPrice" (1 # 100)%Q 100000%Q 1%nat _ eq_refl) as (d4 & H4 & _ & S4).
  destruct (K5 None 1%nat _ eq_refl) as (d5 & H5 & _ & S5).
  exists d1, d2, d3, d4, d5.
  repeat split; try assumption.
  - vm_compute in H1. injection H1 as <-. reflexivity.
  - vm_compute in H2. injection H2 as <-. reflexivity.
  - vm_compute in H3. injection H3 as <-. reflexivity.
  - vm_compute in H4. injection H4 as <-. reflexivity.
  - vm_compute in H5. injection H5 as <-. reflexivity.
Defined.

(** * The cleaner: order of the steps and idempotence *)

Lemma returns_on_table (m : ref -> M ref) (d d' : DataFrame) (o : outcome DataFrame) :
  runs_as (m 0%nat) (mkState [d] []) o -> returns_on m d d' -> o = Ok d'.
Proof.
  intros Hrun (r & s' & Hm & Hr).
  destruct (runs_as_returns _ _ _ _ _ Hrun Hm) as (d'' & -> & Hr' & _).
  congruence.
Qed.

Lemma retention_in_summary rows_in rows_kept pre (l : list log_entry) :
  In (retention_message rows_in rows_kept) (l ++ pre ++ summary rows_in rows_kept).
Proof.
  apply in_or_app. right. apply in_or_app. right.
  unfold summary, retention_message. cbn. tauto.
Qed.

(** C4, the claim as stated fails: the pipeline returns the cleaned table
    and nothing else.  Two inputs with retention rates of 100 and of 50
    percent give the same returned value; the rate is only written to the
    log. *)
Lemma clean_result_carries_no_retention_rate :
  exists r sa sb d',
    @clean_ecommerce_data iso_pandas 0%nat (only one_line) = (Ok r, sa) /\
    @clean_ecommerce_data iso_pandas 0%nat (only one_line_one_cancelled) = (Ok r, sb) /\
    heap sa !! r = Some d' /\ heap sb !! r = Some d' /\
    In (retention_message 1 1) (log sa) /\
    In (retention_message 2 1) (log sb) /\
    ~ (inject_Z 1 / inject_Z 1 * 100 == inject_Z 1 / inject_Z 2 * 100)%Q.
Proof.
  eexists _, _, _, _.
  split; [vm_compute; reflexivity|].
  split; [vm_compute; reflexivity|].
  split; [vm_compute; reflexivity|].
  split; [vm_compute; reflexivity|].
  split; [vm_compute; tauto|].
  split; [vm_compute; tauto|].
  vm_compute. discriminate.
Qed.

(** C4 (amended): the pipeline is the six functions run in the order
    cancellation removal, type coercion, missing-value removal, quantity
    filter, price filter, duplicate removal, each on the table the previous
    one returned.  It returns the last table only; the retention rate, rows
    kept over rows in as a percentage, is in the summary that ends the log.
    The caller's table is unchanged. *)
Theorem clean_runs_the_steps_in_order (P : Pandas) (s : state) (df : ref)
    (d d1 d2 d3 d4 d5 d6 : DataFrame) :
  heap s !! df = Some d ->
  returns_on (fun r => remove_cancelled_orders r "InvoiceNo" "C") d d1 ->
  returns_on (fun r => convert_data_types r [("InvoiceDate", "datetime64")]) d1 d2 ->
  returns_on (fun r => remove_missing_values r ["Description"] "any") d2 d3 ->
  returns_on (fun r => remove_invalid_quantities r "Quantity" 1) d3 d4 ->
  returns_on (fun r => remove_invalid_prices r "UnitPrice" (1 # 100)%Q 100000%Q) d4 d5 ->
  returns_on (fun r => remove_duplicates r None) d5 d6 ->
  exists r s',
    clean_ecommerce_data df s = (Ok r, s') /\
    heap s' !! r = Some d6 /\
    heap s' !! df = Some d /\
    In (retention_message (Z.of_nat (length (rows d))) (Z.of_nat (length (rows d6))))
       (log s').
Proof.
  intros Hdf R1 R2 R3 R4 R5 R6.
  apply (returns_on_table _ _ _ _
           (remove_cancelled_orders_spec (mkState [d] []) 0%nat d _ _ eq_refl)) in R1.
  apply (returns_on_table _ _ _ (Ok _)
           (convert_data_types_spec (mkState [d1] []) 0%nat d1 _ eq_refl)) in R2.
  apply (returns_on_table _ _ _ _
           (remove_missing_values_spec (mkState [d2] []) 0%nat d2 _ _ eq_refl)) in R3.
  apply (returns_on_table _ _ _ _
           (remove_invalid_quantities_spec (mkState [d3] []) 0%nat d3 _ _ eq_refl)) in R4.
  apply (returns_on_table _ _ _ _
           (remove_invalid_prices_spec (mkState [d4] []) 0%nat d4 _ _ _ eq_refl)) in R5.
  apply (returns_on_table _ _ _ _
           (remove_duplicates_spec (mkState [d5] []) 0%nat d5 _ eq_refl)) in R6.
  assert (d2 = types_converted d1 [("InvoiceDate", "datetime64")]) as -> by congruence.
  assert (cleaned d = Ok d6) as Hc.
  { unfold cleaned. rewrite R1. cbv zeta. by rewrite R3, R4, R5. }
  destruct (clean_returns s df d d6 Hdf Hc) as (r & s' & pre & Hrun & Hr & Hd & Hlog).
  exists r, s'. repeat (split; [done|]). rewrite Hlog. apply retention_in_summary.
Qed.

Lemma clean_runs_the_steps_in_order_witness :
  exists r s' d6,
    @clean_ecommerce_data iso_pandas 0%nat (only sample_transactions) = (Ok r, s') /\
    heap s' !! r = Some d6 /\
    map label (rows d6) = [0; 1] /\
    In (retention_message 6 2) (log s').
Proof.
  edestruct (clean_runs_the_steps_in_order iso_pandas (only sample_transactions) 0%nat
               sample_transactions) as (r & s' & Hrun & Hr & _ & Hlog).
  - reflexivity.
  - eexists _, _. split; vm_compute; reflexivity.
  - eexists _, _. split; vm_compute; reflexivity.
  - eexists _, _. split; vm_compute; reflexivity.
  - eexists _, _. split; vm_compute; reflexivity.
  - eexists _, _. split; vm_compute; reflexivity.
  - eexists _, _. split; vm_compute; reflexivity.
  - eexists r, s', _. split; [exact Hrun|]. split; [exact Hr|].
    split; [reflexivity | exact Hlog].
Defined.





(** * The cleaner: purity and type coercion *)

Section Purity.
Context `{Pandas}.

(** A call characterised by [runs_as] leaves every table that existed
    before it, the caller's one included, as it was. *)
Lemma runs_as_pure (m : M ref) s o r0 x :
  runs_as m s o -> heap s !! r0 = Some x -> heap (snd (m s)) !! r0 = Some x.
Proof.
  destruct o as [d'|e]; cbn [runs_as].
  - intros [lg ->] Hx. cbn [snd heap]. by apply lookup_old.
  - intros (junk & lg & ->) Hx. cbn [snd heap]. by apply lookup_app_l_Some.
Qed.

(** The operations that copy before they change anything: the caller's
    table is the same after the call, whether it returns or raises. *)
Lemma copying_operations_are_pure s df d :
  heap s !! df = Some d ->
  (forall c p, heap (snd (remove_cancelled_orders df c p s)) !! df = Some d) /\
  (forall cols how, heap (snd (remove_missing_values df cols how s)) !! df = Some d) /\
  (forall c k, heap (snd (remove_invalid_quantities df c k s)) !! df = Some d) /\
  (forall c lo hi, heap (snd (remove_invalid_prices df c lo hi s)) !! df = Some d) /\
  (forall subset, heap (snd (remove_duplicates df subset s)) !! df = Some d) /\
  (forall mapping, heap (snd (convert_data_types df mapping s)) !! df = Some d) /\
  heap (snd (clean_ecommerce_data df s)) !! df = Some d.
Proof.
  intros Hdf. repeat split; intros.
  - eapply runs_as_pure; [by apply remove_cancelled_orders_spec | done].
  - eapply runs_as_pure; [by apply remove_missing_values_spec | done].
  - eapply runs_as_pure; [by apply remove_invalid_quantities_spec | done].
  - eapply runs_as_pure; [by apply remove_invalid_prices_spec | done].
  - eapply runs_as_pure; [by apply remove_duplicates_spec | done].
  - eapply (runs_as_pure _ _ (Ok _)); [by apply convert_data_types_spec | done].
  - destruct (cleaned d) as [d'|e] eqn:Hc.
    + destruct (clean_returns s df d d' Hdf Hc) as (r & s' & _ & -> & _ & Hd & _).
      exact Hd.
    + destruct (clean_raises s df d e Hdf Hc) as (s' & -> & Hd). exact Hd.
Qed.

(** [filter_by_date_range] assigns the converted dates to the caller's
    table before it filters: whatever the call does next, the caller's
    table holds the converted column afterwards. *)
Lemma filter_by_date_range_assigns s df d c col v d' start_date end_date :
  heap s !! df = Some d ->
  df_getitem d c = Ok col -> to_datetime col = Some v -> df_setitem d c v = Ok d' ->
  heap (snd (filter_by_date_range df c start_date end_date s)) !! df = Some d'.
Proof.
  intros Hdf Hcol Hv Hset. unfold filter_by_date_range.
  assert (df < length (heap s))%nat as Hlt by (by eapply lookup_lt_Some).
  assert (<[df := d']> (heap s) !! df = Some d') as Hnew
    by (by apply list_lookup_insert_eq).
  do 2 mstep. rewrite Hcol. unfold pd_to_datetime. rewrite Hv. do 2 mstep.
  rewrite Hset. mstep.
  destruct (df_getitem d' c) as [col'|e]; [|exact Hnew].
  unfold to_timestamp.
  destruct (to_datetime [Str start_date]) as [[|[] []]|]; try exact Hnew.
  mstep. mstep. destruct (series_cmp_ts Z.geb col' t) as [lo|e]; [|exact Hnew].
  mstep. destruct (df_getitem d' c) as [col''|e]; [|exact Hnew].
  destruct (to_datetime [Str end_date]) as [[|[] []]|]; try exact Hnew.
  mstep. mstep. destruct (series_cmp_ts Z.leb col'' t0) as [hi|e]; [|exact Hnew].
  repeat mstep. unfold ret. cbn [snd heap]. by apply lookup_old.
Qed.

End Purity.

(** C2 (the code diverges): [filter_by_date_range] changes its caller's
    table.  Called on the sample table, whose dates are text, it returns
    the filtered copy and leaves the caller's date column converted to
    timestamps. *)
Theorem filter_by_date_range_changes_the_callers_table :
  exists r s' d',
    @filter_by_date_range iso_pandas 0%nat "InvoiceDate" "2010-12-01" "2010-12-01"
      (only sample_transactions) = (Ok r, s') /\
    heap (only sample_transactions) !! 0%nat = Some sample_transactions /\
    heap s' !! 0%nat = Some d' /\
    df_getitem sample_transactions "InvoiceDate"
      = Ok [Str "2010-12-01"; Str "2010-12-01"; Str "2010-12-01";
            Str "2010-12-02"; Str "2010-12-02"; Str "2010-12-01"] /\
    df_getitem d' "InvoiceDate"
      = Ok [Timestamp 20101201; Timestamp 20101201; Timestamp 20101201;
            Timestamp 20101202; Timestamp 20101202; Timestamp 20101201] /\
    d' <> sample_transactions.
Proof.
  eexists _, _, _.
  split; [vm_compute; reflexivity|].
  split; [reflexivity|].
  split; [vm_compute; reflexivity|].
  split; [vm_compute; reflexivity|].
  split; [vm_compute; reflexivity|].
  discriminate.
Qed.

Section Coercion.
Context `{Pandas}.

Lemma zip_with_row_set_same i (rs : list Row) : forall vals,
  length vals = length rs ->
  Forall (fun r => (i < length (cells r))%nat) rs ->
  map (cell_at i) (zip_with (row_set i) rs vals) = vals.
Proof.
  induction rs as [|r rs IH]; intros [|v vals] Hlen Hwide;
    cbn [zip_with map length] in *; try done.
  inversion Hwide; subst.
  rewrite cell_at_row_set_eq by done. f_equal. apply IH; [lia | done].
Qed.

Lemma df_setitem_same d c vals d' :
  well_formed d -> c ∈ columns d -> df_setitem d c vals = Ok d' ->
  df_getitem d' c = Ok vals.
Proof.
  intros Hwf [i Hi]%col_pos_elem. unfold df_setitem. rewrite Hi.
  destruct (Nat.eqb (length vals) (length (rows d))) eqn:El; [|done].
  apply Nat.eqb_eq in El. cbn [negb]. intros [= <-].
  unfold df_getitem. cbn [columns rows]. rewrite Hi. f_equal.
  apply zip_with_row_set_same; [done|].
  eapply Forall_impl; [exact Hwf|]. intros r Hr. cbn in Hr. rewrite Hr.
  by eapply col_pos_lt.
Qed.

Lemma df_setitem_well_formed d c vals d' :
  well_formed d -> c ∈ columns d -> df_setitem d c vals = Ok d' -> well_formed d'.
Proof.
  intros Hwf [i Hi]%col_pos_elem. unfold df_setitem. rewrite Hi.
  destruct (negb _); [done|]. intros [= <-].
  unfold well_formed in *. cbn [columns rows].
  apply Forall_forall. intros r' Hr'.
  apply elem_of_lookup_zip_with in Hr' as (n & r & v & -> & Hr & _).
  unfold row_set. cbn [cells]. rewrite length_insert.
  rewrite Forall_forall in Hwf. apply Hwf. by eapply list_elem_of_lookup_2.
Qed.


Lemma df_getitem_length d c col : df_getitem d c = Ok col -> length col = length (rows d).
Proof.
  unfold df_getitem. destruct (col_pos c (columns d)); [|done].
  intros [= <-]. apply length_map.
Qed.




End Coercion.




(** * The feature engine *)

(** ** Assigning a column, new or old *)

Lemma col_pos_app_new c cols :
  col_pos c cols = None -> col_pos c (cols ++ [c]) = Some (length cols).
Proof.
  induction cols as [|x cs IH]; cbn [col_pos app length].
  - by rewrite String.eqb_refl.
  - destruct (String.eqb c x); [done|].
    destruct (col_pos c cs); [done|]. intros _. by rewrite IH.
Qed.

Lemma col_pos_app_other c c' cols :
  c' <> c -> col_pos c' (cols ++ [c]) = col_pos c' cols.
Proof.
  intros Hne. induction cols as [|x cs IH]; cbn [col_pos app].
  - apply String.eqb_neq in Hne. by rewrite Hne.
  - destruct (String.eqb c' x); [done|]. by rewrite IH.
Qed.

Lemma cell_at_row_app_old j r v :
  (j < length (cells r))%nat -> cell_at j (row_app r v) = cell_at j r.
Proof. intros Hj. unfold cell_at, row_app. cbn [cells]. by rewrite app_nth1. Qed.

Lemma cell_at_row_app_new r v : cell_at (length (cells r)) (row_app r v) = v.
Proof.
  unfold cell_at, row_app. cbn [cells].
  by rewrite app_nth2, Nat.sub_diag by lia.
Qed.

Lemma zip_with_row_app_new n (rs : list Row) : forall vals,
  length vals = length rs -> Forall (fun r => length (cells r) = n) rs ->
  map (cell_at n) (zip_with row_app rs vals) = vals.
Proof.
  induction rs as [|r rs IH]; intros [|v vals] Hlen Hwf;
    cbn [zip_with map length] in *; try done.
  inversion Hwf as [|? ? Hr Hrs]; subst.
  rewrite cell_at_row_app_new. f_equal. apply IH; [lia | done].
Qed.

Lemma zip_with_row_app_old j n (rs : list Row) : forall vals,
  (j < n)%nat -> length vals = length rs ->
  Forall (fun r => length (cells r) = n) rs ->
  map (cell_at j) (zip_with row_app rs vals) = map (cell_at j) rs.
Proof.
  induction rs as [|r rs IH]; intros [|v vals] Hj Hlen Hwf;
    cbn [zip_with map length] in *; try done.
  inversion Hwf as [|? ? Hr Hrs]; subst.
  rewrite cell_at_row_app_old by lia. f_equal. apply IH; [done | lia | done].
Qed.

(** On a well-formed table, [df[c] = vals] with as many values as rows
    gives a well-formed table in which the column [c] holds [vals] and
    every other column is as before. *)
Lemma df_setitem_spec d c vals :
  well_formed d -> length vals = length (rows d) ->
  exists d', df_setitem d c vals = Ok d' /\
             well_formed d' /\
             length (rows d') = length (rows d) /\
             df_getitem d' c = Ok vals /\
             forall c', c' <> c -> df_getitem d' c' = df_getitem d c'.
Proof.
  intros Hwf Hlen. unfold df_setitem. rewrite Hlen, Nat.eqb_refl. cbn [negb].
  destruct (col_pos c (columns d)) as [i|] eqn:Hi.
  - assert (c ∈ columns d) as Hin by (apply col_pos_elem; by eexists).
    assert (df_setitem d c vals
            = Ok (mkDF (columns d) (zip_with (row_set i) (rows d) vals))) as Hset.
    { unfold df_setitem. by rewrite Hlen, Nat.eqb_refl, Hi. }
    eexists. split; [done|].
    split; [by eapply df_setitem_well_formed|].
    split; [cbn [rows]; rewrite length_zip_with; lia|].
    split; [by eapply df_setitem_same|].
    intros c' Hne. by eapply df_setitem_other.
  - eexists. split; [done|]. unfold well_formed in *. cbn [columns rows].
    split; [|split; [rewrite length_zip_with; lia|split]].
    + apply Forall_forall. intros r' Hr'.
      apply elem_of_lookup_zip_with in Hr' as (n & r & v & -> & Hr & _).
      unfold row_app. cbn [cells]. rewrite !length_app. cbn [length].
      rewrite Forall_forall in Hwf. rewrite (Hwf r); [done|].
      by eapply list_elem_of_lookup_2.
    + unfold df_getitem. cbn [columns rows]. rewrite col_pos_app_new by done.
      f_equal. by apply zip_with_row_app_new.
    + intros c' Hne. unfold df_getitem. cbn [columns rows].
      rewrite col_pos_app_other by done.
      destruct (col_pos c' (columns d)) as [j|] eqn:Hj; [|done]. f_equal.
      eapply zip_with_row_app_old; [by eapply col_pos_lt | done | done].
Qed.

(** ** Segmentation *)

Lemma Qle_bool_inject_Z a b : Qle_bool (inject_Z a) (inject_Z b) = (a <=? b).
Proof. unfold Qle_bool, inject_Z. cbn [Qnum Qden]. by rewrite !Z.mul_1_r. Qed.

Lemma cell_ge_int x k : cell_ge (Int x) k = Ok (k <=? x).
Proof.
  unfold cell_ge, cmp_cell, Qge_bool. by rewrite Qle_bool_inject_Z.
Qed.

Lemma spec_segment_label score : spec_segment score ∈ segment_labels.
Proof.
  unfold spec_segment, segment_thresholds, segment_labels. cbn [first_reached].
  repeat (match goal with |- context [if ?b then _ else _] => destruct b end);
    apply (bool_decide_unpack _); vm_compute; exact I.
Qed.

Section Segmentation.
Context `{Pandas}.

Lemma classify_rfm_int d row iR iF iM r f m :
  col_pos "R_Score" (columns d) = Some iR ->
  col_pos "F_Score" (columns d) = Some iF ->
  col_pos "M_Score" (columns d) = Some iM ->
  cell_at iR row = Int r -> cell_at iF row = Int f -> cell_at iM row = Int m ->
  classify_rfm d row = Ok (Str (spec_segment (r + f + m))).
Proof.
  intros HR HF HM Hr Hf Hm. unfold classify_rfm, row_getitem.
  rewrite HR, HF, HM, Hr, Hf, Hm. cbn [obind cell_add].
  rewrite !cell_ge_int. cbn [obind].
  unfold spec_segment, segment_thresholds. cbn [first_reached].
  repeat (match goal with |- context [if ?b then _ else _] => destruct b end);
    reflexivity.
Qed.

Lemma apply_rows_map (f : Row -> outcome cell) (g : Row -> cell) (rs : list Row) :
  Forall (fun r => f r = Ok (g r)) rs -> apply_rows f rs = Ok (map g rs).
Proof.
  induction 1 as [|r rs Hr _ IH]; [done|]. cbn [apply_rows map]. by rewrite Hr, IH.
Qed.

(** The loop that logs the size of each segment changes no table. *)
Lemma log_segments_run (cm : ref) (d : DataFrame) (counts : list (cell * Z)) :
  forall s, heap s !! cm = Some d ->
  exists lg,
    for_each counts (fun item =>
      n <- len cm ;;
      logger INFO "segment"
        [AStr (astype_str (fst item)); AInt (snd item);
         AFloat (np_mul (np_truediv (snd item) n) 100)]) s
    = (Ok tt, mkState (heap s) (log s ++ lg)).
Proof.
  induction counts as [|item rest IH]; intros s Hcm.
  - exists []. cbn [for_each ret]. rewrite app_nil_r. by destruct s.
  - cbn [for_each]. unfold bind at 1.
    erewrite len_bind by eassumption. unfold logger at 1.
    destruct (IH (mkState (heap s) (log s ++ [mkLog INFO "segment"
               [AStr (astype_str (fst item)); AInt (snd item);
                AFloat (np_mul (np_truediv (snd item) (Z.of_nat (length (rows d)))) 100)]]))
               Hcm) as [lg Hlg].
    rewrite Hlg. cbn [heap log]. eexists. by rewrite <- app_assoc.
Qed.

End Segmentation.

Lemma lookup_map_int (zs : list Z) (col : list cell) i z :
  col = map Int zs -> zs !! i = Some z -> col !! i = Some (Int z).
Proof. intros -> Hz. change (map Int zs) with (Int <$> zs). by rewrite list_lookup_fmap, Hz. Qed.

(** C9: [create_customer_segments], on a customer table with at least one
    row whose three score columns hold integers, writes one label per
    customer into the table: the label the threshold table of the
    specification gives for the sum of the three scores (13 and more
    Champions, else 10 and more Loyal Customers, else 7 and more Potential
    Loyalists, else 5 and more At Risk, else Lost Customers), which is
    always one of the five. *)
Theorem every_customer_gets_one_segment (P : Pandas) (s : state) (cm : ref)
    (d : DataFrame) (rs fs ms : list Z) :
  heap s !! cm = Some d -> well_formed d -> rows d <> [] ->
  df_getitem d "R_Score" = Ok (map Int rs) ->
  df_getitem d "F_Score" = Ok (map Int fs) ->
  df_getitem d "M_Score" = Ok (map Int ms) ->
  exists s' d' segments,
    create_customer_segments cm s = (Ok cm, s') /\
    heap s' !! cm = Some d' /\
    df_getitem d' "CustomerSegment" = Ok segments /\
    length segments = length (rows d) /\
    Forall (fun c => exists l, c = Str l /\ l ∈ segment_labels) segments /\
    forall i r f m,
      rs !! i = Some r -> fs !! i = Some f -> ms !! i = Some m ->
      segments !! i = Some (Str (spec_segment (r + f + m))).
Proof.
  intros Hcm Hwf Hne HR HF HM.
  unfold df_getitem in HR, HF, HM.
  destruct (col_pos "R_Score" (columns d)) as [iR|] eqn:ER; [|done].
  destruct (col_pos "F_Score" (columns d)) as [iF|] eqn:EF; [|done].
  destruct (col_pos "M_Score" (columns d)) as [iM|] eqn:EM; [|done].
  injection HR as HR. injection HF as HF. injection HM as HM.
  set (g := fun row => Str (spec_segment (int_of (cell_at iR row) + int_of (cell_at iF row)
                                           + int_of (cell_at iM row)))).
  assert (forall i row, rows d !! i = Some row ->
            exists r f m, rs !! i = Some r /\ fs !! i = Some f /\ ms !! i = Some m /\
              cell_at iR row = Int r /\ cell_at iF row = Int f /\ cell_at iM row = Int m)
    as Hrow.
  { intros i row Hi.
    assert (map (cell_at iR) (rows d) !! i = Some (cell_at iR row)) as H1
      by (change (map ?f ?l) with (f <$> l); by rewrite list_lookup_fmap, Hi).
    assert (map (cell_at iF) (rows d) !! i = Some (cell_at iF row)) as H2
      by (change (map ?f ?l) with (f <$> l); by rewrite list_lookup_fmap, Hi).
    assert (map (cell_at iM) (rows d) !! i = Some (cell_at iM row)) as H3
      by (change (map ?f ?l) with (f <$> l); by rewrite list_lookup_fmap, Hi).
    rewrite HR in H1. rewrite HF in H2. rewrite HM in H3.
    change (map Int ?l) with (Int <$> l) in H1, H2, H3.
    rewrite list_lookup_fmap in H1, H2, H3.
    destruct (rs !! i) as [r|]; [|done]. destruct (fs !! i) as [f|]; [|done].
    destruct (ms !! i) as [m|]; [|done]. cbn in H1, H2, H3.
    exists r, f, m. repeat split; congruence. }
  assert (apply_rows (classify_rfm d) (rows d) = Ok (map g (rows d))) as Happly.
  { apply apply_rows_map. apply Forall_lookup. intros i row Hi.
    destruct (Hrow i row Hi) as (r & f & m & _ & _ & _ & Hr & Hf & Hm).
    unfold g. rewrite Hr, Hf, Hm. cbn [int_of].
    by eapply classify_rfm_int. }
  destruct (df_setitem_spec d "CustomerSegment" (map g (rows d)) Hwf (length_map _ _))
    as (d' & Hset & _ & _ & Hget & _).
  assert (cm < length (heap s))%nat as Hlt by (by eapply lookup_lt_Some).
  assert (<[cm := d']> (heap s) !! cm = Some d') as Hnew
    by (by apply list_lookup_insert_eq).
  destruct (log_segments_run cm d' (value_counts (map g (rows d)))
              (mkState (<[cm := d']> (heap s))
                 (log s ++ [mkLog INFO "Customer segmentation complete:" []])) Hnew)
    as [lg Hloop].
  exists (mkState (<[cm := d']> (heap s))
            ((log s ++ [mkLog INFO "Customer segmentation complete:" []]) ++ lg)),
         d', (map g (rows d)).
  split.
  { unfold create_customer_segments, apply_axis1. rewrite bind_bind.
    mstep. mstep. rewrite Happly. mstep. rewrite Hset.
    erewrite getitem_bind by exact Hnew. rewrite Hget. mstep.
    unfold bind at 1. rewrite Hloop. reflexivity. }
  split; [exact Hnew|]. split; [exact Hget|]. split; [apply length_map|]. split.
  - apply Forall_fmap, Forall_forall. intros row _. eexists. split; [reflexivity|].
    apply spec_segment_label.
  - intros i r f m Hr Hf Hm. change (map g (rows d)) with (g <$> rows d).
    rewrite list_lookup_fmap.
    destruct (rows d !! i) as [row|] eqn:Hi.
    + destruct (Hrow i row Hi) as (r' & f' & m' & Hr' & Hf' & Hm' & Er & Ef & Em).
      assert (r' = r /\ f' = f /\ m' = m) as (-> & -> & ->)
        by (repeat split; congruence).
      unfold g. cbn [fmap option_fmap option_map]. by rewrite Er, Ef, Em.
    + apply lookup_ge_None in Hi.
      assert (length rs = length (rows d)) as Hl.
      { rewrite <- (length_map Int rs), <- HR. apply length_map. }
      apply lookup_lt_Some in Hr. lia.
Qed.

Lemma every_customer_gets_one_segment_witness :
  exists s' d' segments,
    @create_customer_segments iso_pandas 0%nat (only scored_customers) = (Ok 0%nat, s') /\
    heap s' !! 0%nat = Some d' /\
    df_getitem d' "CustomerSegment" = Ok segments /\
    segments !! 0%nat = Some (Str "Champions") /\
    segments !! 1%nat = Some (Str "Lost Customers") /\
    segments !! 2%nat = Some (Str "Loyal Customers").
Proof.
  destruct (every_customer_gets_one_segment iso_pandas (only scored_customers) 0%nat
              scored_customers [5; 1; 3] [5; 1; 2] [5; 2; 5] eq_refl
              ltac:(repeat constructor) ltac:(discriminate)
              eq_refl eq_refl eq_refl)
    as (s' & d' & segments & Hrun & Hd' & Hcol & _ & _ & Hseg).
  exists s', d', segments. split; [exact Hrun|]. split; [exact Hd'|].
  split; [exact Hcol|]. split; [|split].
  - exact (Hseg 0%nat 5 5 5 eq_refl eq_refl eq_refl).
  - exact (Hseg 1%nat 1 1 2 eq_refl eq_refl eq_refl).
  - exact (Hseg 2%nat 3 2 5 eq_refl eq_refl eq_refl).
Defined.

(** ** Counting and ranking *)

Lemma Qlt_bool_iff a b : Qlt_bool a b = true <-> (a < b)%Q.
Proof.
  unfold Qlt_bool. rewrite negb_true_iff. split.
  - intros Hle. apply Qnot_le_lt. intros Hba.
    apply Qle_bool_iff in Hba. congruence.
  - intros Hlt. destruct (Qle_bool b a) eqn:E; [|done].
    apply Qle_bool_iff in E. by apply Qlt_not_le in Hlt.
Qed.

Lemma count_cons {A} (f : A -> bool) x l :
  count f (x :: l) = ((if f x then 1 else 0) + count f l)%nat.
Proof. unfold count. cbn [List.filter]. by destruct (f x). Qed.

Lemma count_app {A} (f : A -> bool) l1 l2 :
  count f (l1 ++ l2) = (count f l1 + count f l2)%nat.
Proof. unfold count. by rewrite List.filter_app, length_app. Qed.

Lemma count_le {A} (f g : A -> bool) l :
  (forall x, f x = true -> g x = true) -> (count f l <= count g l)%nat.
Proof.
  intros Hfg. induction l as [|x l IH]; [done|]. rewrite !count_cons.
  destruct (f x) eqn:E; [rewrite (Hfg x E)|destruct (g x)]; lia.
Qed.

Lemma count_ext {A} (f g : A -> bool) l :
  (forall x, f x = g x) -> count f l = count g l.
Proof.
  intros Hfg. induction l as [|x l IH]; [done|]. by rewrite !count_cons, Hfg, IH.
Qed.

Lemma count_disjoint {A} (f g h : A -> bool) l :
  (forall x, f x = true -> g x = true -> False) ->
  (forall x, f x = true -> h x = true) -> (forall x, g x = true -> h x = true) ->
  (count f l + count g l <= count h l)%nat.
Proof.
  intros Hd Hf Hg. induction l as [|x l IH]; [done|]. rewrite !count_cons.
  destruct (f x) eqn:Ef, (g x) eqn:Eg.
  - destruct (Hd x Ef Eg).
  - rewrite (Hf x Ef). lia.
  - rewrite (Hg x Eg). lia.
  - destruct (h x); lia.
Qed.

Lemma count_all {A} (f : A -> bool) l :
  (forall x, f x = true) -> count f l = length l.
Proof.
  intros Hf. induction l as [|x l IH]; [done|]. rewrite count_cons, Hf, IH. done.
Qed.

Lemma below_equal_disjoint x o : below x o = true -> equal_to x o = true -> False.
Proof.
  destruct o as [y|]; [|done]. cbn. intros Hlt%Qlt_bool_iff Heq%Qeq_bool_iff.
  rewrite Heq in Hlt. by apply Qlt_irrefl in Hlt.
Qed.

Lemma below_has_value x o : below x o = true -> has_value o = true.
Proof. by destruct o. Qed.

Lemma equal_has_value x o : equal_to x o = true -> has_value o = true.
Proof. by destruct o. Qed.

Lemma split_at {A} (l : list A) i x :
  l !! i = Some x -> l = take i l ++ x :: drop (S i) l.
Proof. intros Hi. by rewrite take_drop_middle. Qed.

(** A rank is at least one and at most the number of values. *)
Lemma rank_of_bounds vals i x :
  vals !! i = Some (Some x) ->
  (1 <= rank_of vals i x <= count has_value vals)%nat.
Proof.
  intros Hi. unfold rank_of. split; [lia|].
  rewrite (split_at vals i (Some x) Hi) at 1 3.
  rewrite !count_app, !count_cons. cbn [below has_value].
  assert (Qlt_bool x x = false) as ->.
  { destruct (Qlt_bool x x) eqn:E; [|done].
    apply Qlt_bool_iff in E. by apply Qlt_irrefl in E. }
  pose proof (count_disjoint (below x) (equal_to x) has_value (take i vals)
                (below_equal_disjoint x) (below_has_value x) (equal_has_value x)).
  pose proof (count_le (below x) has_value (drop (S i) vals) (below_has_value x)).
  lia.
Qed.

(** A smaller value, or an equal value seen earlier, has a smaller rank. *)
Lemma rank_of_lt vals i j x y :
  vals !! i = Some (Some x) -> vals !! j = Some (Some y) ->
  (x < y)%Q \/ ((x == y)%Q /\ (i < j)%nat) ->
  (rank_of vals i x < rank_of vals j y)%nat.
Proof.
  intros Hi Hj Hxy. unfold rank_of.
  assert (equal_to x (Some x) = true) as Hxx by (cbn; apply Qeq_bool_iff; reflexivity).
  destruct Hxy as [Hlt|[Heq Hij]].
  - assert (count (below x) vals + count (equal_to x) vals <= count (below y) vals)%nat
      as Hb.
    { apply count_disjoint; [apply below_equal_disjoint | |].
      - intros [z|]; [|done]. cbn [below]. intros Hz%Qlt_bool_iff.
        apply Qlt_bool_iff. eapply Qlt_trans; eassumption.
      - intros [z|]; [|done]. cbn [below equal_to]. intros Hz%Qeq_bool_iff.
        apply Qlt_bool_iff. by rewrite Hz. }
    assert (count (equal_to x) (take i vals) + 1 <= count (equal_to x) vals)%nat as He.
    { rewrite (split_at vals i (Some x) Hi) at 2.
      rewrite count_app, count_cons, Hxx. lia. }
    lia.
  - assert (count (below y) vals = count (below x) vals) as ->.
    { apply count_ext. intros [z|]; [|done]. cbn.
      destruct (Qlt_bool z y) eqn:E1, (Qlt_bool z x) eqn:E2; try done.
      - apply Qlt_bool_iff in E1. rewrite <- Heq in E1.
        apply Qlt_bool_iff in E1. congruence.
      - apply Qlt_bool_iff in E2. rewrite Heq in E2.
        apply Qlt_bool_iff in E2. congruence. }
    assert (count (equal_to y) (take j vals) = count (equal_to x) (take j vals)) as ->.
    { apply count_ext. intros [z|]; [|done]. cbn.
      destruct (Qeq_bool z y) eqn:E1, (Qeq_bool z x) eqn:E2; try done.
      - apply Qeq_bool_iff in E1. rewrite <- Heq in E1.
        apply Qeq_bool_iff in E1. congruence.
      - apply Qeq_bool_iff in E2. rewrite Heq in E2.
        apply Qeq_bool_iff in E2. congruence. }
    assert (take j vals !! i = Some (Some x)) as Hti by (by rewrite lookup_take_lt).
    rewrite (split_at (take j vals) i (Some x) Hti).
    rewrite take_take, Nat.min_l by lia.
    rewrite count_app, count_cons, Hxx. lia.
Qed.

(** ** Percentile ranks and their bins *)

Lemma count_has_value_values (xs : list Q) : count has_value (map Some xs) = length xs.
Proof.
  induction xs as [|x xs IH]; [done|]. cbn [map]. rewrite count_cons. cbn [has_value length].
  by rewrite IH.
Qed.

Lemma pct_rank_bounds xs i x :
  xs !! i = Some x -> (0 < pct_rank xs i x)%Q /\ (pct_rank xs i x <= 1)%Q.
Proof.
  intros Hi. unfold pct_rank.
  assert (map Some xs !! i = Some (Some x)) as Hv
    by (change (map Some xs) with (Some <$> xs); by rewrite list_lookup_fmap, Hi).
  pose proof (rank_of_bounds _ _ _ Hv) as [Hlo Hhi].
  rewrite count_has_value_values in Hhi.
  set (r := rank_of (map Some xs) i x) in *. set (n := length xs) in *.
  assert (0 < inject_Z (Z.of_nat n))%Q as Hn.
  { change 0%Q with (inject_Z 0). rewrite <- Zlt_Qlt. lia. }
  split.
  - apply Qlt_shift_div_l; [done|]. rewrite Qmult_0_l.
    change 0%Q with (inject_Z 0). rewrite <- Zlt_Qlt. lia.
  - apply Qle_shift_div_r; [done|]. rewrite Qmult_1_l. rewrite <- Zle_Qle. lia.
Qed.



Lemma searchsorted_left_bounds p :
  (0 < p)%Q -> (p <= 1)%Q -> (1 <= searchsorted_left rfm_bins p <= 5)%nat.
Proof.
  intros H0 H1. unfold searchsorted_left, rfm_bins. rewrite !count_cons.
  assert (Qlt_bool 0 p = true) as -> by (by apply Qlt_bool_iff).
  assert (Qlt_bool 1 p = false) as ->.
  { destruct (Qlt_bool 1 p) eqn:E; [|done]. apply Qlt_bool_iff in E.
    by apply Qlt_not_le in E. }
  unfold count. cbn [List.filter length].
  destruct (Qlt_bool (2 # 10) p), (Qlt_bool (4 # 10) p), (Qlt_bool (6 # 10) p),
    (Qlt_bool (8 # 10) p); lia.
Qed.

Lemma bucket_bounds xs i x : xs !! i = Some x -> (1 <= bucket xs i x <= 5)%nat.
Proof.
  intros Hi. destruct (pct_rank_bounds xs i x Hi). by apply searchsorted_left_bounds.
Qed.


Lemma numbers_of_numbers col :
  Forall (fun c => is_number c = true) col ->
  numbers_of col = Ok (map Some (map value_of col)).
Proof.
  induction 1 as [|c cs Hc _ IH]; [done|]. cbn [numbers_of map]. rewrite IH.
  by destruct c.
Qed.

Lemma astype_int_values zs : astype_int (map Some zs) = Ok (map Int zs).
Proof. induction zs as [|z zs IH]; [done|]. cbn [map astype_int]. by rewrite IH. Qed.

(** The score column of a column of numbers: the label of the bin of each
    percentile rank. *)
Lemma score_column_numbers col labels (lab : nat -> Z) :
  Forall (fun c => is_number c = true) col ->
  (forall b, (1 <= b <= 5)%nat -> labels !! (b - 1)%nat = Some (lab b)) ->
  score_column col labels
  = Ok (map Int (imap (fun i x => lab (bucket (map value_of col) i x)) (map value_of col))).
Proof.
  intros Hnum Hlab. unfold score_column. rewrite (numbers_of_numbers col Hnum).
  set (xs := map value_of col). rewrite <- astype_int_values. f_equal.
  unfold pd_cut, rank_first_pct. rewrite count_has_value_values.
  change (map ?f ?l) with (f <$> l). rewrite imap_fmap, fmap_imap, fmap_imap.
  apply imap_ext. intros i x Hi. cbn [compose cut_value].
  fold (pct_rank xs i x). fold (bucket xs i x).
  pose proof (bucket_bounds xs i x Hi) as Hb.
  destruct (Nat.eqb_spec (bucket xs i x) 0); [lia|].
  destruct (Nat.eqb_spec (bucket xs i x) (length rfm_bins)); [cbn in *; lia|].
  cbn [orb]. by apply Hlab.
Qed.

(** ** RFM scores *)

Lemma zip_with_length_same {A B C} (f : A -> B -> C) (l : list A) (k : list B) :
  length l = length k -> length (zip_with f l k) = length k.
Proof. intros Hl. rewrite length_zip_with. lia. Qed.

Section Scores.
Context `{Pandas}.


End Scores.

(** The scores of a column of numbers, as integers: the label of the bin
    of each value. *)
Lemma scores_lookup (lab : nat -> Z) (col : list cell) i z :
  imap (fun i x => lab (bucket (map value_of col) i x)) (map value_of col) !! i = Some z ->
  exists c, col !! i = Some c /\
    map value_of col !! i = Some (value_of c) /\
    z = lab (bucket (map value_of col) i (value_of c)).
Proof.
  rewrite list_lookup_imap. change (map value_of col) with (value_of <$> col) at 2 3.
  rewrite list_lookup_fmap. destruct (col !! i) as [c|]; [|done].
  cbn. intros [= <-]. by exists c.
Qed.

Lemma scores_range (lab : nat -> Z) (col : list cell) :
  (forall b, (1 <= b <= 5)%nat -> 1 <= lab b <= 5) ->
  Forall (fun z => 1 <= z <= 5)
    (imap (fun i x => lab (bucket (map value_of col) i x)) (map value_of col)).
Proof.
  intros Hlab. apply Forall_lookup. intros i z Hz.
  apply scores_lookup in Hz as (c & _ & Hc & ->).
  apply Hlab. by eapply bucket_bounds.
Qed.



(** ** Country metrics *)

(** *** Rounding and sums *)






(** *** Sorting *)

Lemma insert_by_perm {A} (before : A -> A -> bool) x l :
  insert_by before x l ≡ₚ x :: l.
Proof.
  induction l as [|y l IH]; [done|]. cbn [insert_by].
  destruct (before x y); [done|]. by rewrite IH, Permutation_swap.
Qed.

Lemma sort_by_perm {A} (before : A -> A -> bool) l : sort_by before l ≡ₚ l.
Proof.
  induction l as [|x l IH]; [done|]. unfold sort_by. cbn [foldr].
  fold (sort_by before l). by rewrite insert_by_perm, IH.
Qed.

Section Sorting.
Context {A : Type} (before : A -> A -> bool).
Hypothesis before_total : forall a b, before a b = false -> before b a = true.
Hypothesis before_trans :
  forall a b c, before a b = true -> before b c = true -> before a c = true.




End Sorting.

(** *** The order of the revenue column *)




Lemma map_cell_at_relabel (i : nat) (n : Z) (rs : list Row) :
  map (cell_at i) (relabel n rs) = map (cell_at i) rs.
Proof.
  revert n. induction rs as [|r rs IH]; intros n; [done|].
  cbn [relabel map]. by rewrite IH.
Qed.


Lemma map_values_float (f : Row -> cell) (rs : list Row) :
  Forall (fun r => f r = Float (value_of (f r))) rs ->
  map f rs = map Float (map (fun r => value_of (f r)) rs).
Proof.
  induction 1 as [|r rs Hr _ IH]; [done|]. cbn [map]. by rewrite <- Hr, IH.
Qed.

(** *** Sums and shares of a column of floats *)

Lemma series_sum_floats (qs : list Q) : series_sum (map Float qs) = Ok (sumq qs).
Proof.
  induction qs as [|q qs IH]; [done|]. cbn [map series_sum addend]. by rewrite IH.
Qed.

Lemma series_sum_numbers (col : list cell) :
  Forall (fun c => is_number c = true) col ->
  series_sum col = Ok (sumq (map value_of col)).
Proof.
  induction 1 as [|c cs Hc _ IH]; [done|]. cbn [map series_sum]. rewrite IH.
  by destruct c.
Qed.

Lemma series_share_floats (qs : list Q) (t : Q) :
  exists pct,
    series_share (map Float qs) t = Ok pct /\
    length pct = length qs /\
    (Qeq_bool t 0 = false ->
     pct = map Float (map (fun q => round2 (q / t * 100)) qs)).
Proof.
  induction qs as [|q qs (pct & Hpct & Hlen & Hval)].
  - by exists [].
  - cbn [map series_share share_cell number_of obind]. rewrite Hpct. cbn [obind].
    destruct (Qeq_bool t 0) eqn:E.
    + eexists. split; [done|]. split; [cbn; by rewrite Hlen | done].
    + eexists. split; [done|]. split; [cbn; by rewrite Hlen|].
      intros _. by rewrite Hval.
Qed.

(** *** Groups and the total *)

Lemma Qeq_bool_sym (p q : Q) : Qeq_bool p q = Qeq_bool q p.
Proof.
  destruct (Qeq_bool p q) eqn:E1, (Qeq_bool q p) eqn:E2; try done.
  - apply Qeq_bool_iff in E1. symmetry in E1. apply Qeq_bool_iff in E1. congruence.
  - apply Qeq_bool_iff in E2. symmetry in E2. apply Qeq_bool_iff in E2. congruence.
Qed.

Lemma cell_eqb_refl (a : cell) : cell_eqb a a = true.
Proof.
  destruct a; cbn [cell_eqb]; try done.
  - apply String.eqb_refl.
  - apply Z.eqb_refl.
  - by apply Qeq_bool_iff.
  - apply Z.eqb_refl.
Qed.

Lemma cell_eqb_sym (a b : cell) : cell_eqb a b = cell_eqb b a.
Proof.
  destruct a, b; cbn [cell_eqb]; try done.
  - apply String.eqb_sym.
  - apply Z.eqb_sym.
  - apply Qeq_bool_sym.
  - apply Z.eqb_sym.
Qed.


(** The keys of a column are cells of the column, not null and not seen
    before. *)
Lemma distinct_from_elem seen col k :
  k ∈ distinct_from seen col ->
  isna k = false /\ existsb (cell_eqb k) seen = false.
Proof.
  revert seen. induction col as [|c cs IH]; intros seen; cbn [distinct_from].
  - by intros ?%elem_of_nil.
  - destruct (isna c || existsb (cell_eqb c) seen) eqn:E; [apply IH|].
    apply orb_false_elim in E as [E1 E2].
    intros [->|Hk]%elem_of_cons; [done|].
    apply IH in Hk as [Hna Hex]. split; [done|].
    cbn [existsb] in Hex. by apply orb_false_elim in Hex as [_ Hex].
Qed.

(** Every cell of the column that is not null has its key. *)
Lemma distinct_from_covers seen col c :
  c ∈ col -> isna c = false ->
  existsb (cell_eqb c) seen = true \/
  exists k, k ∈ distinct_from seen col /\ cell_eqb k c = true.
Proof.
  revert seen. induction col as [|c0 cs IH]; intros seen; [by intros ?%elem_of_nil|].
  intros Hc Hna. cbn [distinct_from].
  destruct (isna c0 || existsb (cell_eqb c0) seen) eqn:E.
  - apply elem_of_cons in Hc as [->|Hc]; [|by apply IH].
    left. rewrite Hna in E. exact E.
  - apply elem_of_cons in Hc as [->|Hc].
    + right. exists c0. split; [apply list_elem_of_here | apply cell_eqb_refl].
    + destruct (IH (c0 :: seen) Hc Hna) as [Hseen|(k & Hk & Hkc)].
      * cbn [existsb] in Hseen. apply orb_true_iff in Hseen as [Hc0|Hseen]; [|by left].
        right. exists c0. split; [apply list_elem_of_here|]. by rewrite cell_eqb_sym.
      * right. exists k. split; [by apply list_elem_of_further | done].
Qed.




Lemma select_ext {A} (m m' : list bool) (l : list A) : m = m' -> select m l = select m' l.
Proof. by intros ->. Qed.


Lemma select_map {A B} (f : A -> B) (m : list bool) (l : list A) :
  select m (map f l) = map f (select m l).
Proof.
  revert l. induction m as [|b m IH]; intros [|x l]; cbn [map select]; try done.
  destruct b; cbn [map]; by rewrite IH.
Qed.


(** *** Grouping *)

(** The grouped table has one row per key: the key, the sum of the group
    as a float and the two counts. *)
Lemma aggregate_groups_rows keys by_col rs iP iI iC n :
  Forall (fun r => is_number (cell_at iP r) = true) rs ->
  exists out,
    aggregate_groups keys by_col rs [(iP, AggSum); (iI, AggNunique); (iC, AggNunique)] n
      = Ok out /\
    length out = length keys /\
    Forall (fun r => exists k q a b, cells r = [k; Float q; Int a; Int b]) out /\
    map (fun r => value_of (cell_at 1 r)) out
    = map (fun k => Qred (group_revenue k by_col (map (cell_at iP) rs))) keys.
Proof.
  intros Hnum. revert n. induction keys as [|k keys IH]; intros n.
  - by exists [].
  - destruct (IH (n + 1)) as (out & Hout & Hlen & Hshape & Hvals).
    cbn [aggregate_groups aggregate_group aggregate obind].
    set (members := select (map (cell_eqb k) by_col) rs).
    assert (Forall (fun c => is_number c = true) (map (cell_at iP) members)) as Hm.
    { apply Forall_map. eapply Forall_sublist; [apply select_sublist | exact Hnum]. }
    rewrite (series_sum_numbers _ Hm). cbn [obind]. rewrite Hout. cbn [obind].
    eexists. split; [done|]. split; [cbn; by rewrite Hlen|]. split.
    + constructor; [|done]. cbn [cells]. by eexists _, _, _, _.
    + cbn [map]. rewrite Hvals. f_equal. unfold cell_at at 1. cbn [cells nth value_of].
      unfold group_revenue. by rewrite select_map.
Qed.

(** *** The function *)

Lemma assign_bind {B} s (r : ref) (d : DataFrame) (k : unit -> M B) :
  bind (assign r d) k s = k tt (mkState (<[r := d]> (heap s)) (log s)).
Proof. reflexivity. Qed.

Lemma df_getitem_relabel cols n rs c :
  df_getitem (mkDF cols (relabel n rs)) c
  = match col_pos c cols with
    | Some i => Ok (map (cell_at i) rs)
    | None => Raise (KeyError c)
    end.
Proof.
  unfold df_getitem. cbn [columns rows]. destruct (col_pos c cols); [|done].
  by rewrite map_cell_at_relabel.
Qed.





(** * Further properties of the cleaner *)

Lemma df_mask_filter (d : DataFrame) (test : Row -> bool) :
  df_mask d (map test (rows d)) = mkDF (columns d) (List.filter test (rows d)).
Proof. unfold df_mask. by rewrite select_map_filter. Qed.

Lemma filtered_by_mask (d : DataFrame) (c : string) (i : nat) (col : list cell)
    (P : cell -> bool) :
  col_pos c (columns d) = Some i -> df_getitem d c = Ok col ->
  filtered_by (df_mask d (map P col)) d (fun r => P (cell_at i r)).
Proof.
  intros Hi. unfold df_getitem. rewrite Hi. intros [= <-].
  rewrite map_map. rewrite (df_mask_filter d (fun r => P (cell_at i r))). by split.
Qed.





Lemma returns_fresh_new (m : M ref) s d' : returns_fresh m s d' -> returns_new m s d'.
Proof. intros [lg Hm]. eexists. split; [exact Hm | reflexivity]. Qed.

Lemma positions_ok (cols columns : list string) :
  Forall (fun c => c ∈ columns) cols ->
  exists idx, positions cols columns = Ok idx /\
              Forall2 (fun c i => col_pos c columns = Some i) cols idx.
Proof.
  induction 1 as [|c cols Hc _ (idx & Hidx & Hall)]; [by exists []|].
  apply col_pos_elem in Hc as [i Hi]. exists (i :: idx). cbn [positions].
  rewrite Hi, Hidx. split; [done | by constructor].
Qed.


Lemma filter_elem {A} (f : A -> bool) (l : list A) (x : A) :
  x ∈ List.filter f l <-> x ∈ l /\ f x = true.
Proof. rewrite !list_elem_of_In. apply filter_In. Qed.

(** X2: on a table with at least one row that has the named columns,
    [remove_missing_values] with how='any' returns a new table, a part of
    its input, in which no named column holds a null, and it loses no row
    whose named cells are all present. *)
Theorem missing_values_removed_from_named_columns (s : state) (df : ref)
    (d : DataFrame) (cols : list string) :
  heap s !! df = Some d -> rows d <> [] -> Forall (fun c => c ∈ columns d) cols ->
  exists d',
    returns_new (remove_missing_values df cols "any") s d' /\
    subtable d' d /\
    Forall (fun c => column_all d' c notna) cols /\
    (forall row, row ∈ rows d ->
       (forall c i, c ∈ cols -> col_pos c (columns d) = Some i ->
          isna (cell_at i row) = false) ->
       row ∈ rows d').
Proof.
  intros Hdf Hne Hcols.
  destruct (positions_ok cols (columns d) Hcols) as (idx & Hidx & Hall).
  set (test := fun r => forallb (fun i => negb (isna (cell_at i r))) idx).
  assert (missing_removed d cols "any" = Ok (df_mask d (map test (rows d)))) as Hspec.
  { unfold missing_removed, df_dropna. rewrite Hidx. cbn [String.eqb Ascii.eqb].
    destruct (Z.of_nat (length (rows d)) =? 0) eqn:Z0; [|done].
    apply Z.eqb_eq in Z0. destruct (rows d); [done | cbn [length] in Z0; lia]. }
  pose proof (remove_missing_values_spec s df d cols "any" Hdf) as Hrun.
  rewrite Hspec in Hrun. cbn [runs_as] in Hrun.
  exists (df_mask d (map test (rows d))).
  split; [by apply returns_fresh_new|].
  split; [split; [done | apply df_mask_sublist]|].
  rewrite (df_mask_filter d test). split.
  - apply Forall_forall. intros c Hc.
    apply list_elem_of_lookup in Hc as [n Hn].
    destruct (Forall2_lookup_l _ _ _ n c Hall Hn) as (i & Hi & Hpos).
    exists (map (cell_at i) (List.filter test (rows d))). split.
    { unfold df_getitem. cbn [columns rows]. by rewrite Hpos. }
    apply Forall_map. apply Forall_forall. intros r [_ Hr]%filter_elem.
    unfold test in Hr. rewrite forallb_forall in Hr. unfold notna.
    apply Hr. apply list_elem_of_In. by eapply list_elem_of_lookup_2.
  - intros row Hrow Hpresent. cbn [rows]. apply filter_elem. split; [done|].
    unfold test. apply forallb_forall. intros i Hi%list_elem_of_In.
    apply list_elem_of_lookup in Hi as [n Hn].
    destruct (Forall2_lookup_r _ _ _ n i Hall Hn) as (c & Hc & Hpos).
    rewrite (Hpresent c i); [done | by eapply list_elem_of_lookup_2 | done].
Qed.

Lemma missing_values_removed_from_named_columns_witness :
  exists d',
    returns_new (remove_missing_values 0%nat ["Description"] "any")
      (only sample_transactions) d' /\
    subtable d' sample_transactions /\
    Forall (fun c => column_all d' c notna) ["Description"] /\
    (forall row, row ∈ rows sample_transactions ->
       (forall c i, c ∈ ["Description"] ->
          col_pos c (columns sample_transactions) = Some i ->
          isna (cell_at i row) = false) ->
       row ∈ rows d').
Proof.
  apply (missing_values_removed_from_named_columns (only sample_transactions) 0%nat
           sample_transactions ["Description"] eq_refl).
  - discriminate.
  - repeat constructor.
Defined.

(** X3: with how='all', [remove_missing_values] keeps exactly the rows in
    which at least one named cell is present; with any other value of
    [how] than 'any' and 'all' it raises ValueError and leaves the state
    as it was. *)
Theorem missing_values_how_all_or_invalid (s : state) (df : ref) (d : DataFrame)
    (cols : list string) (how : string) :
  heap s !! df = Some d -> rows d <> [] -> Forall (fun c => c ∈ columns d) cols ->
  (how = "all" ->
   exists d',
     returns_new (remove_missing_values df cols how) s d' /\
     subtable d' d /\
     forall row, row ∈ rows d' <->
       row ∈ rows d /\
       exists c i, c ∈ cols /\ col_pos c (columns d) = Some i /\
                   isna (cell_at i row) = false) /\
  (how <> "any" -> how <> "all" ->
   fails_with (remove_missing_values df cols how) s ValueError).
Proof.
  intros Hdf Hne Hcols.
  destruct (positions_ok cols (columns d) Hcols) as (idx & Hidx & Hall).
  split.
  - intros ->.
    set (test := fun r => existsb (fun i => negb (isna (cell_at i r))) idx).
    assert (missing_removed d cols "all" = Ok (df_mask d (map test (rows d)))) as Hspec.
    { unfold missing_removed, df_dropna. rewrite Hidx. cbn [String.eqb Ascii.eqb].
      destruct (Z.of_nat (length (rows d)) =? 0) eqn:Z0; [|done].
      apply Z.eqb_eq in Z0. destruct (rows d); [done | cbn [length] in Z0; lia]. }
    pose proof (remove_missing_values_spec s df d cols "all" Hdf) as Hrun.
    rewrite Hspec in Hrun. cbn [runs_as] in Hrun.
    exists (df_mask d (map test (rows d))).
    split; [by apply returns_fresh_new|].
    split; [split; [done | apply df_mask_sublist]|].
    rewrite (df_mask_filter d test). cbn [rows]. intros row.
    rewrite filter_elem. unfold test. rewrite existsb_exists. split.
    + intros [Hrow (i & Hi%list_elem_of_In & Hna)]. split; [done|].
      apply list_elem_of_lookup in Hi as [n Hn].
      destruct (Forall2_lookup_r _ _ _ n i Hall Hn) as (c & Hc & Hpos).
      exists c, i. split; [by eapply list_elem_of_lookup_2|]. split; [done|].
      by apply negb_true_iff.
    + intros [Hrow (c & i & Hc & Hpos & Hna)]. split; [done|].
      apply list_elem_of_lookup in Hc as [n Hn].
      destruct (Forall2_lookup_l _ _ _ n c Hall Hn) as (i' & Hi' & Hpos').
      assert (i' = i) as -> by congruence.
      exists i. split; [apply list_elem_of_In; by eapply list_elem_of_lookup_2|].
      by rewrite Hna.
  - intros Hany Hall'. unfold fails_with, remove_missing_values.
    mstep. mstep. unfold df_dropna. rewrite Hidx.
    apply String.eqb_neq in Hany, Hall'. by rewrite Hany, Hall'.
Qed.

Lemma missing_values_how_all_or_invalid_witness :
  (exists d',
     returns_new (remove_missing_values 0%nat ["Description"; "CustomerID"] "all")
       (only sample_transactions) d' /\
     subtable d' sample_transactions) /\
  fails_with (remove_missing_values 0%nat ["Description"] "some")
    (only sample_transactions) ValueError.
Proof.
  split.
  - destruct (proj1 (missing_values_how_all_or_invalid (only sample_transactions) 0%nat
                       sample_transactions ["Description"; "CustomerID"] "all" eq_refl
                       ltac:(discriminate)
                       ltac:(repeat constructor)) eq_refl)
      as (d' & Hrun & Hsub & _).
    by exists d'.
  - apply (proj2 (missing_values_how_all_or_invalid (only sample_transactions) 0%nat
                    sample_transactions ["Description"] "some" eq_refl
                    ltac:(discriminate)
                    ltac:(repeat constructor))); discriminate.
Defined.

Lemma series_cmp_type_error (op : Q -> Q -> bool) (col : list cell) (k : Q) :
  Exists (fun c => numeric c = false) col -> series_cmp op col k = Raise TypeError.
Proof.
  induction 1 as [c cs Hc|c cs _ IH]; cbn [series_cmp].
  - destruct c; try discriminate; cbn [cmp_cell]; reflexivity.
  - rewrite IH. by destruct c.
Qed.

Lemma cell_test_number (op : Q -> Q -> bool) (k : Q) (c : cell) :
  cell_test op k c = true -> is_number c = true /\ op (value_of c) k = true.
Proof. destruct c; cbn; try discriminate; by intros ->. Qed.

(** X4: on a table whose quantity column holds numbers or nulls,
    [remove_invalid_quantities] returns a new table with exactly the rows
    whose quantity is at least the minimum; a row with a null quantity is
    dropped, so every remaining quantity is a number.  A text or a
    timestamp in the column makes the call raise TypeError, with the state
    left as it was. *)
Theorem quantities_below_minimum_removed (s : state) (df : ref) (d : DataFrame)
    (c : string) (k : Z) (i : nat) :
  heap s !! df = Some d -> col_pos c (columns d) = Some i ->
  (Forall (fun r => numeric (cell_at i r) = true) (rows d) ->
   exists d',
     returns_new (remove_invalid_quantities df c k) s d' /\
     filtered_by d' d (fun r => at_least (inject_Z k) (cell_at i r)) /\
     Forall (fun r => is_number (cell_at i r) = true /\
                      (inject_Z k <= value_of (cell_at i r))%Q) (rows d')) /\
  (Exists (fun r => numeric (cell_at i r) = false) (rows d) ->
   fails_with (remove_invalid_quantities df c k) s TypeError).
Proof.
  intros Hdf Hi.
  assert (df_getitem d c = Ok (map (cell_at i) (rows d))) as Hcol
    by (unfold df_getitem; by rewrite Hi).
  split.
  - intros Hnum.
    assert (Forall (fun x => numeric x = true) (map (cell_at i) (rows d))) as Hnum'
      by (by apply Forall_map).
    destruct (series_cmp_numeric Qge_bool _ (inject_Z k) Hnum') as [m Hm].
    pose proof (series_cmp_test _ _ _ _ Hm) as ->.
    pose proof (remove_invalid_quantities_spec s df d c k Hdf) as Hrun.
    unfold quantities_valid in Hrun. rewrite Hcol, Hm in Hrun. cbn [runs_as] in Hrun.
    exists (df_mask d (map (at_least (inject_Z k)) (map (cell_at i) (rows d)))).
    split; [by apply returns_fresh_new|].
    pose proof (filtered_by_mask d c i _ (at_least (inject_Z k)) Hi Hcol) as Hf.
    split; [exact Hf|]. destruct Hf as [_ ->].
    apply Forall_forall. intros r [_ Hr]%filter_elem.
    apply cell_test_number in Hr as [Hn Hge]. split; [done|].
    by apply Qle_bool_iff.
  - intros Hbad. unfold fails_with, remove_invalid_quantities.
    mstep. mstep. rewrite Hcol. rewrite series_cmp_type_error; [by mstep|].
    by apply Exists_fmap.
Qed.

Lemma quantities_below_minimum_removed_witness :
  (exists d',
     returns_new (remove_invalid_quantities 0%nat "Quantity" 1) (only sample_transactions) d' /\
     filtered_by d' sample_transactions (fun r => at_least 1 (cell_at 3 r))) /\
  fails_with (remove_invalid_quantities 0%nat "Description" 1)
    (only sample_transactions) TypeError.
Proof.
  split.
  - destruct (proj1 (quantities_below_minimum_removed (only sample_transactions) 0%nat
                       sample_transactions "Quantity" 1 3%nat eq_refl eq_refl)
                ltac:(repeat constructor)) as (d' & Hrun & Hf & _).
    by exists d'.
  - apply (proj2 (quantities_below_minimum_removed (only sample_transactions) 0%nat
                    sample_transactions "Description" 1 2%nat eq_refl eq_refl)).
    by constructor.
Defined.

(** X5: on a table whose price column holds numbers or nulls,
    [remove_invalid_prices] returns a new table with exactly the rows
    whose price lies between the two bounds, both included; every
    remaining price is a number, and no row remains when the lower bound
    is above the upper one.  A text or a timestamp in the column makes the
    call raise TypeError, with the state left as it was. *)
Theorem prices_outside_bounds_removed (s : state) (df : ref) (d : DataFrame)
    (c : string) (lo hi : Q) (i : nat) :
  heap s !! df = Some d -> col_pos c (columns d) = Some i ->
  (Forall (fun r => numeric (cell_at i r) = true) (rows d) ->
   exists d',
     returns_new (remove_invalid_prices df c lo hi) s d' /\
     filtered_by d' d (fun r => within lo hi (cell_at i r)) /\
     Forall (fun r => is_number (cell_at i r) = true /\
                      (lo <= value_of (cell_at i r) <= hi)%Q) (rows d') /\
     ((hi < lo)%Q -> rows d' = [])) /\
  (Exists (fun r => numeric (cell_at i r) = false) (rows d) ->
   fails_with (remove_invalid_prices df c lo hi) s TypeError).
Proof.
  intros Hdf Hi.
  assert (df_getitem d c = Ok (map (cell_at i) (rows d))) as Hcol
    by (unfold df_getitem; by rewrite Hi).
  split.
  - intros Hnum.
    assert (Forall (fun x => numeric x = true) (map (cell_at i) (rows d))) as Hnum'
      by (by apply Forall_map).
    destruct (series_cmp_numeric Qge_bool _ lo Hnum') as [m1 Hm1].
    destruct (series_cmp_numeric Qle_bool _ hi Hnum') as [m2 Hm2].
    pose proof (series_cmp_test _ _ _ _ Hm1) as ->.
    pose proof (series_cmp_test _ _ _ _ Hm2) as ->.
    pose proof (remove_invalid_prices_spec s df d c lo hi Hdf) as Hrun.
    unfold prices_valid in Hrun. rewrite Hcol, Hm1, Hm2 in Hrun. cbn [runs_as] in Hrun.
    rewrite zip_with_andb_map in Hrun.
    exists (df_mask d (map (within lo hi) (map (cell_at i) (rows d)))).
    split; [by apply returns_fresh_new|].
    pose proof (filtered_by_mask d c i _ (within lo hi) Hi Hcol) as Hf.
    split; [exact Hf|]. destruct Hf as [_ Hrows].
    assert (Forall (fun r => is_number (cell_at i r) = true /\
                             (lo <= value_of (cell_at i r) <= hi)%Q)
              (rows (df_mask d (map (within lo hi) (map (cell_at i) (rows d)))))) as Hall.
    { rewrite Hrows. apply Forall_forall. intros r [_ Hr]%filter_elem.
      unfold within in Hr. apply andb_true_iff in Hr as [H1 H2].
      apply cell_test_number in H1 as [Hn Hge]. apply cell_test_number in H2 as [_ Hle].
      split; [done|]. split; by apply Qle_bool_iff. }
    split; [exact Hall|]. intros Hlt.
    destruct (rows (df_mask d _)) as [|r rs]; [done|].
    apply Forall_cons in Hall as [[_ [H1 H2]] _].
    exfalso. apply (Qlt_not_le _ _ Hlt). by eapply Qle_trans.
  - intros Hbad. unfold fails_with, remove_invalid_prices.
    mstep. mstep. rewrite Hcol. rewrite series_cmp_type_error; [by mstep|].
    by apply Exists_fmap.
Qed.

Lemma prices_outside_bounds_removed_witness :
  (exists d',
     returns_new (remove_invalid_prices 0%nat "UnitPrice" (1 # 100)%Q 100000%Q)
       (only sample_transactions) d' /\
     filtered_by d' sample_transactions
       (fun r => within (1 # 100)%Q 100000%Q (cell_at 5 r))) /\
  fails_with (remove_invalid_prices 0%nat "StockCode" (1 # 100)%Q 100000%Q)
    (only sample_transactions) TypeError.
Proof.
  split.
  - destruct (proj1 (prices_outside_bounds_removed (only sample_transactions) 0%nat
                       sample_transactions "UnitPrice" (1 # 100)%Q 100000%Q 5%nat
                       eq_refl eq_refl)
                ltac:(repeat constructor)) as (d' & Hrun & Hf & _).
    by exists d'.
  - apply (proj2 (prices_outside_bounds_removed (only sample_transactions) 0%nat
                    sample_transactions "StockCode" (1 # 100)%Q 100000%Q 1%nat
                    eq_refl eq_refl)).
    by constructor.
Defined.

(** ** Duplicates: one row of each kind is kept *)






(** ** A column that is not there *)

Lemma df_getitem_missing (d : DataFrame) (c : string) :
  c ∉ columns d -> df_getitem d c = Raise (KeyError c).
Proof.
  intros Hc. unfold df_getitem. destruct (col_pos c (columns d)) eqn:E; [|done].
  destruct Hc. apply col_pos_elem. by eexists.
Qed.



(** ** The caller's tables *)

Lemma runs_as_only_adds (m : M ref) s o : runs_as m s o -> only_adds m s.
Proof.
  unfold only_adds. destruct o as [d'|e]; cbn [runs_as].
  - intros [lg ->]. by eexists _, _.
  - intros (junk & lg & ->). by eexists _, _.
Qed.

Lemma outcome_of_only_adds (m : M ref) s o tail : outcome_of m s o tail -> only_adds m s.
Proof.
  unfold only_adds. destruct o as [d'|e]; cbn [outcome_of].
  - intros (r & junk & lg & -> & _). by exists junk, (lg ++ tail).
  - intros (junk & lg & ->). by eexists _, _.
Qed.

(** X8: the five row-dropping functions, [convert_data_types] and the
    whole pipeline work on copies: whatever their parameters, and whether
    they return or raise, every table that existed before the call, the
    caller's one included, is unchanged after it, and no message is taken
    from the log. *)
Theorem cleaner_works_on_copies (P : Pandas) (s : state) (df : ref) (d : DataFrame) :
  heap s !! df = Some d ->
  (forall c p, only_adds (remove_cancelled_orders df c p) s) /\
  (forall cols how, only_adds (remove_missing_values df cols how) s) /\
  (forall c k, only_adds (remove_invalid_quantities df c k) s) /\
  (forall c lo hi, only_adds (remove_invalid_prices df c lo hi) s) /\
  (forall subset, only_adds (remove_duplicates df subset) s) /\
  (forall mapping, only_adds (convert_data_types df mapping) s) /\
  only_adds (clean_ecommerce_data df) s.
Proof.
  intros Hdf. repeat split; intros.
  - eapply runs_as_only_adds. by apply remove_cancelled_orders_spec.
  - eapply runs_as_only_adds. by apply remove_missing_values_spec.
  - eapply runs_as_only_adds. by apply remove_invalid_quantities_spec.
  - eapply runs_as_only_adds. by apply remove_invalid_prices_spec.
  - eapply runs_as_only_adds. by apply remove_duplicates_spec.
  - eapply (runs_as_only_adds _ _ (Ok _)). by apply convert_data_types_spec.
  - eapply outcome_of_only_adds. by apply clean_ecommerce_data_spec.
Qed.

Lemma cleaner_works_on_copies_witness :
  only_adds (@clean_ecommerce_data iso_pandas 0%nat) (only sample_transactions) /\
  only_adds (@clean_ecommerce_data iso_pandas 0%nat) (only empty_transactions).
Proof.
  split.
  - apply (cleaner_works_on_copies iso_pandas (only sample_transactions) 0%nat
             sample_transactions eq_refl).
  - apply (cleaner_works_on_copies iso_pandas (only empty_transactions) 0%nat
             empty_transactions eq_refl).
Defined.

(** ** Filtering twice, and in either order *)




Lemma quantities_valid_filter d c k d' :
  quantities_valid d c k = Ok d' ->
  exists i, col_pos c (columns d) = Some i /\
            d' = mkDF (columns d)
                   (List.filter (fun r => at_least (inject_Z k) (cell_at i r)) (rows d)).
Proof.
  unfold quantities_valid, df_getitem.
  destruct (col_pos c (columns d)) as [i|] eqn:Hi; [|done].
  destruct (series_cmp _ _ _) as [m|] eqn:Hm; [|done]. intros [= <-].
  apply series_cmp_test in Hm as ->. exists i. split; [done|].
  rewrite map_map. apply (df_mask_filter d (fun r => at_least (inject_Z k) (cell_at i r))).
Qed.

Lemma prices_valid_filter d c lo hi d' :
  prices_valid d c lo hi = Ok d' ->
  exists i, col_pos c (columns d) = Some i /\
            d' = mkDF (columns d)
                   (List.filter (fun r => within lo hi (cell_at i r)) (rows d)).
Proof.
  unfold prices_valid, df_getitem.
  destruct (col_pos c (columns d)) as [i|] eqn:Hi; [|done].
  destruct (series_cmp Qge_bool _ _) as [m1|] eqn:Hm1; [|done].
  destruct (series_cmp Qle_bool _ _) as [m2|] eqn:Hm2; [|done]. intros [= <-].
  apply series_cmp_test in Hm1 as ->. apply series_cmp_test in Hm2 as ->.
  exists i. split; [done|]. rewrite zip_with_andb_map, map_map.
  apply (df_mask_filter d (fun r => within lo hi (cell_at i r))).
Qed.

Lemma filter_filter_comm {A} (f g : A -> bool) (l : list A) :
  List.filter f (List.filter g l) = List.filter g (List.filter f l).
Proof.
  induction l as [|x l IH]; [done|]. cbn [List.filter].
  destruct (f x) eqn:Ef, (g x) eqn:Eg; cbn [List.filter]; rewrite ?Ef, ?Eg, ?IH; done.
Qed.

(** X10: the quantity filter and the price filter can be called in either
    order: when both orders return, they return equal tables. *)
Theorem quantity_and_price_filters_commute (s : state) (df : ref) (d : DataFrame)
    (cq cp : string) (k : Z) (lo hi : Q)
    (r1 r12 r2 r21 : ref) (s1 s12 s2 s21 : state) :
  heap s !! df = Some d ->
  remove_invalid_quantities df cq k s = (Ok r1, s1) ->
  remove_invalid_prices r1 cp lo hi s1 = (Ok r12, s12) ->
  remove_invalid_prices df cp lo hi s = (Ok r2, s2) ->
  remove_invalid_quantities r2 cq k s2 = (Ok r21, s21) ->
  exists t, heap s12 !! r12 = Some t /\ heap s21 !! r21 = Some t.
Proof.
  intros Hdf Hq1 Hp12 Hp2 Hq21.
  destruct (runs_as_returns _ _ _ _ _ (remove_invalid_quantities_spec s df d cq k Hdf) Hq1)
    as (d1 & Hd1 & Hr1 & _).
  destruct (runs_as_returns _ _ _ _ _ (remove_invalid_prices_spec s1 r1 d1 cp lo hi Hr1) Hp12)
    as (d12 & Hd12 & Hr12 & _).
  destruct (runs_as_returns _ _ _ _ _ (remove_invalid_prices_spec s df d cp lo hi Hdf) Hp2)
    as (d2 & Hd2 & Hr2 & _).
  destruct (runs_as_returns _ _ _ _ _ (remove_invalid_quantities_spec s2 r2 d2 cq k Hr2) Hq21)
    as (d21 & Hd21 & Hr21 & _).
  apply quantities_valid_filter in Hd1 as (iq & Hiq & ->).
  apply prices_valid_filter in Hd12 as (ip & Hip & ->).
  apply prices_valid_filter in Hd2 as (ip' & Hip' & ->).
  apply quantities_valid_filter in Hd21 as (iq' & Hiq' & ->).
  cbn [columns rows] in *.
  assert (ip' = ip) as -> by congruence. assert (iq' = iq) as -> by congruence.
  eexists. split; [exact Hr12|]. by rewrite filter_filter_comm.
Qed.

Lemma quantity_and_price_filters_commute_witness :
  exists t,
    heap (snd (remove_invalid_prices 1%nat "UnitPrice" (1 # 100)%Q 100000%Q
                 (snd (remove_invalid_quantities 0%nat "Quantity" 1
                         (only sample_transactions))))) !! 2%nat = Some t /\
    heap (snd (remove_invalid_quantities 1%nat "Quantity" 1
                 (snd (remove_invalid_prices 0%nat "UnitPrice" (1 # 100)%Q 100000%Q
                         (only sample_transactions))))) !! 2%nat = Some t.
Proof.
  apply (quantity_and_price_filters_commute (only sample_transactions) 0%nat
           sample_transactions "Quantity" "UnitPrice" 1 (1 # 100)%Q 100000%Q
           1%nat 2%nat 1%nat 2%nat
           (snd (remove_invalid_quantities 0%nat "Quantity" 1 (only sample_transactions)))
           (snd (remove_invalid_prices 1%nat "UnitPrice" (1 # 100)%Q 100000%Q
                   (snd (remove_invalid_quantities 0%nat "Quantity" 1
                           (only sample_transactions)))))
           (snd (remove_invalid_prices 0%nat "UnitPrice" (1 # 100)%Q 100000%Q
                   (only sample_transactions)))
           (snd (remove_invalid_quantities 1%nat "Quantity" 1
                   (snd (remove_invalid_prices 0%nat "UnitPrice" (1 # 100)%Q 100000%Q
                           (only sample_transactions)))))
           eq_refl);
    vm_compute; reflexivity.
Defined.

(** ** Filtering by date *)

Lemma series_cmp_ts_datetime (op : Z -> Z -> bool) (col : list cell) (t0 : Z) :
  Forall (fun c => is_datetime c = true) col ->
  series_cmp_ts op col t0 = Ok (map (ts_test op t0) col).
Proof.
  induction 1 as [|c cs Hc _ IH]; [done|]. cbn [series_cmp_ts map]. rewrite IH.
  by destruct c.
Qed.

Section DateRange.
Context `{Pandas}.

(** X11: when pandas converts the date column and reads the two bounds as
    dates, [filter_by_date_range] writes the converted column into the
    caller's table and returns a new table with exactly the rows of that
    table whose date lies between the bounds, both included; rows without
    a date are dropped.  When pandas cannot convert the column the call
    raises ValueError and changes nothing. *)
Theorem date_filter_keeps_rows_in_range (s : state) (df : ref) (d : DataFrame)
    (c start_date end_date : string) (i : nat) (v : list cell) (t0 t1 : Z) :
  heap s !! df = Some d -> well_formed d -> col_pos c (columns d) = Some i ->
  (to_datetime (map (cell_at i) (rows d)) = Some v ->
   length v = length (rows d) -> Forall (fun x => is_datetime x = true) v ->
   to_datetime [Str start_date] = Some [Timestamp t0] ->
   to_datetime [Str end_date] = Some [Timestamp t1] ->
   exists d1 d' lg,
     df_setitem d c v = Ok d1 /\
     filter_by_date_range df c start_date end_date s
     = (Ok (length (heap s)),
        mkState (<[df := d1]> (heap s) ++ [d']) (log s ++ lg)) /\
     filtered_by d' d1 (fun r => in_range t0 t1 (cell_at i r)) /\
     Forall (fun r => exists t, cell_at i r = Timestamp t /\ t0 <= t <= t1) (rows d')) /\
  (to_datetime (map (cell_at i) (rows d)) = None ->
   fails_with (filter_by_date_range df c start_date end_date) s ValueError).
Proof.
  intros Hdf Hwf Hi.
  assert (df_getitem d c = Ok (map (cell_at i) (rows d))) as Hcol
    by (unfold df_getitem; by rewrite Hi).
  assert (c ∈ columns d) as Hc by (apply col_pos_elem; by eexists).
  split.
  - intros Hv Hlen Hdt Ht0 Ht1.
    assert (exists d1, df_setitem d c v = Ok d1) as [d1 Hset].
    { unfold df_setitem. rewrite Hi. apply Nat.eqb_eq in Hlen. rewrite Hlen. by eexists. }
    pose proof (df_setitem_same d c v d1 Hwf Hc Hset) as Hcol1.
    pose proof (df_setitem_columns d c v d1 Hc Hset) as Hcols1.
    assert (col_pos c (columns d1) = Some i) as Hi1 by (by rewrite Hcols1).
    assert (length (heap s) = length (<[df := d1]> (heap s))) as Hlh
      by (by rewrite length_insert).
    exists d1, (df_mask d1 (map (in_range t0 t1) v)). eexists.
    split; [done|]. split.
    + unfold filter_by_date_range. mstep. mstep. rewrite Hcol.
      unfold pd_to_datetime. rewrite Hv. mstep. mstep. rewrite Hset.
      mstep. rewrite Hcol1. unfold to_timestamp. rewrite Ht0. mstep. mstep.
      rewrite (series_cmp_ts_datetime Z.geb v t0 Hdt).
      mstep. rewrite Hcol1. rewrite Ht1. mstep. mstep.
      rewrite (series_cmp_ts_datetime Z.leb v t1 Hdt).
      rewrite zip_with_andb_map. fold (in_range t0 t1).
      repeat mstep. unfold ret. rewrite <- Hlh, <- !app_assoc. reflexivity.
    + pose proof (filtered_by_mask d1 c i v (in_range t0 t1) Hi1 Hcol1) as Hf.
      split; [exact Hf|]. destruct Hf as [_ ->].
      apply Forall_forall. intros r [_ Hr]%filter_elem.
      unfold in_range, ts_test in Hr. destruct (cell_at i r); try done.
      apply andb_true_iff in Hr as [H0 H1]. eexists. split; [done|]. lia.
  - intros Hv. unfold fails_with, filter_by_date_range. mstep. mstep. rewrite Hcol.
    unfold pd_to_datetime. by rewrite Hv.
Qed.

End DateRange.

Lemma date_filter_keeps_rows_in_range_witness :
  (exists d1 d' lg,
     df_setitem sample_transactions "InvoiceDate"
       [Timestamp 20101201; Timestamp 20101201; Timestamp 20101201;
        Timestamp 20101202; Timestamp 20101202; Timestamp 20101201] = Ok d1 /\
     @filter_by_date_range iso_pandas 0%nat "InvoiceDate" "2010-12-02" "2010-12-31"
       (only sample_transactions)
     = (Ok 1%nat, mkState ([d1] ++ [d']) lg) /\
     filtered_by d' d1 (fun r => in_range 20101202 20101231 (cell_at 4 r))) /\
  fails_with (@filter_by_date_range iso_pandas 0%nat "InvoiceDate" "2010-12-01" "2010-12-31")
    (only bad_dates) ValueError.
Proof.
  split.
  - destruct (proj1 (@date_filter_keeps_rows_in_range iso_pandas
                       (only sample_transactions) 0%nat
                       sample_transactions "InvoiceDate" "2010-12-02" "2010-12-31" 4%nat
                       [Timestamp 20101201; Timestamp 20101201; Timestamp 20101201;
                        Timestamp 20101202; Timestamp 20101202; Timestamp 20101201]
                       20101202 20101231 eq_refl ltac:(repeat constructor) eq_refl)
                eq_refl eq_refl ltac:(repeat constructor) eq_refl eq_refl)
      as (d1 & d' & lg & Hset & Hrun & Hf & _).
    exists d1, d', lg. split; [exact Hset|]. split; [exact Hrun | exact Hf].
  - apply (proj2 (@date_filter_keeps_rows_in_range iso_pandas (only bad_dates) 0%nat
                    bad_dates "InvoiceDate" "2010-12-01" "2010-12-31" 1%nat [] 0 0
                    eq_refl ltac:(repeat constructor) eq_refl)).
    reflexivity.
Defined.

(** * Revenue per line *)

Lemma series_mul_length (l r : list cell) (t : list cell) :
  series_mul l r = Ok t -> length l = length r -> length t = length l.
Proof.
  revert r t. induction l as [|a l IH]; intros [|b r] t; cbn [series_mul length];
    try (by intros [= <-]); try done.
  destruct (cell_mul a b); [|done].
  destruct (series_mul l r) as [cs|] eqn:E; [|done].
  intros [= <-] [= Hl]. cbn. by rewrite (IH r cs E Hl).
Qed.

Lemma cell_mul_numeric (a b : cell) :
  numeric a = true -> numeric b = true ->
  exists t, cell_mul a b = Ok t /\ numeric t = true /\ product_of a b t.
Proof.
  unfold product_of.
  destruct a as [|?|x|p|?], b as [|?|y|q|?]; try done; cbn; intros _ _;
    eexists; (split; [reflexivity|]); (split; [done|]); try done;
    (split; [done|]); cbn; reflexivity.
Qed.

Lemma series_mul_numeric (l r : list cell) :
  Forall (fun c => numeric c = true) l -> Forall (fun c => numeric c = true) r ->
  length l = length r ->
  exists t, series_mul l r = Ok t /\ length t = length l /\
            Forall (fun c => numeric c = true) t /\
            forall j a b c, l !! j = Some a -> r !! j = Some b -> t !! j = Some c ->
                            product_of a b c.
Proof.
  intros Hl. revert r. induction Hl as [|a l Ha _ IH]; intros [|b r] Hr Hlen;
    try done; [by exists []|].
  inversion Hr as [|? ? Hb Hr']; subst.
  destruct (cell_mul_numeric a b Ha Hb) as (c & Hc & Hn & Hp).
  destruct (IH r Hr' ltac:(cbn in Hlen; lia)) as (t & Ht & Hlt & Hnt & Hpt).
  exists (c :: t). cbn [series_mul]. rewrite Hc, Ht.
  split; [done|]. split; [cbn; by rewrite Hlt|]. split; [by constructor|].
  intros [|j] a' b' c'; cbn.
  - by intros [= <-] [= <-] [= <-].
  - apply Hpt.
Qed.

(** What [create_total_price] does to a state in which [df] is bound to a
    table of numbers. *)
Lemma total_price_run (s : state) (df : ref) (d : DataFrame)
    (quantity_col price_col : string) (qs ps : list cell) :
  heap s !! df = Some d -> well_formed d ->
  df_getitem d quantity_col = Ok qs -> df_getitem d price_col = Ok ps ->
  Forall (fun c => numeric c = true) qs -> Forall (fun c => numeric c = true) ps ->
  exists d' totals,
    series_mul qs ps = Ok totals /\
    df_setitem d "TotalPrice" totals = Ok d' /\
    create_total_price df quantity_col price_col s
    = (Ok df, mkState (<[df := d']> (heap s))
                      (log s ++ [mkLog INFO "Created TotalPrice column" []])) /\
    df_getitem d' "TotalPrice" = Ok totals /\
    (forall j a b t, qs !! j = Some a -> ps !! j = Some b -> totals !! j = Some t ->
       product_of a b t) /\
    (forall c, c <> "TotalPrice" -> df_getitem d' c = df_getitem d c) /\
    length (rows d') = length (rows d) /\ well_formed d'.
Proof.
  intros Hdf Hwf Hq Hp Nq Np.
  pose proof (df_getitem_length _ _ _ Hq) as Lq.
  pose proof (df_getitem_length _ _ _ Hp) as Lp.
  destruct (series_mul_numeric qs ps Nq Np ltac:(congruence))
    as (totals & Hmul & Lt & _ & Hprod).
  destruct (df_setitem_spec d "TotalPrice" totals Hwf ltac:(congruence))
    as (d' & Hset & Hwf' & Hlen & Hget & Hother).
  exists d', totals. split; [done|]. split; [done|]. split; [|done].
  unfold create_total_price. mstep. rewrite Hq. mstep. rewrite Hp. mstep. rewrite Hmul.
  mstep. rewrite Hset. mstep. reflexivity.
Qed.



Section CleanThenPrice.
Context `{Pandas}.





End CleanThenPrice.


Lemma row_set_same (i : nat) (r : Row) :
  (i < length (cells r))%nat -> row_set i r (cell_at i r) = r.
Proof.
  intros Hi. unfold row_set, cell_at. destruct r as [l cs]. cbn [cells label] in *. f_equal.
  apply list_insert_id. destruct (lookup_lt_is_Some_2 cs i Hi) as [x Hx].
  by rewrite (nth_lookup_Some cs i Null x Hx).
Qed.

Lemma zip_with_row_set_own (i : nat) (rs : list Row) :
  Forall (fun r => (i < length (cells r))%nat) rs ->
  zip_with (row_set i) rs (map (cell_at i) rs) = rs.
Proof.
  induction 1 as [|r rs Hr _ IH]; [done|]. cbn [map zip_with].
  by rewrite row_set_same, IH.
Qed.

Lemma df_setitem_own_column (d : DataFrame) (c : string) (col : list cell) :
  well_formed d -> df_getitem d c = Ok col -> df_setitem d c col = Ok d.
Proof.
  intros Hwf. unfold df_getitem, df_setitem.
  destruct (col_pos c (columns d)) as [i|] eqn:Hi; [|done]. intros [= <-].
  rewrite length_map, Nat.eqb_refl. cbn [negb]. f_equal.
  rewrite zip_with_row_set_own; [apply df_eta|].
  eapply Forall_impl; [exact Hwf|]. intros r Hr. cbn in Hr. rewrite Hr.
  by eapply col_pos_lt.
Qed.

(** X14: [create_total_price] raises KeyError with the name of the
    quantity column when the table lacks it, and with the name of the
    price column when only that one is missing; in both cases nothing is
    changed.  Called a second time on a table of numbers it leaves the
    table as the first call left it. *)
Theorem total_price_missing_column_and_second_call (s : state) (df : ref) (d : DataFrame)
    (quantity_col price_col : string) :
  heap s !! df = Some d ->
  (quantity_col ∉ columns d ->
   fails_with (create_total_price df quantity_col price_col) s (KeyError quantity_col)) /\
  (quantity_col ∈ columns d -> price_col ∉ columns d ->
   fails_with (create_total_price df quantity_col price_col) s (KeyError price_col)) /\
  (forall qs ps,
     well_formed d ->
     df_getitem d quantity_col = Ok qs -> df_getitem d price_col = Ok ps ->
     Forall (fun c => numeric c = true) qs -> Forall (fun c => numeric c = true) ps ->
     quantity_col <> "TotalPrice" -> price_col <> "TotalPrice" ->
     exists s1 s2,
       create_total_price df quantity_col price_col s = (Ok df, s1) /\
       create_total_price df quantity_col price_col s1 = (Ok df, s2) /\
       heap s2 = heap s1).
Proof.
  intros Hdf. split; [|split].
  - intros Hq. unfold fails_with, create_total_price. mstep.
    by rewrite (df_getitem_missing d quantity_col Hq).
  - intros [i Hi]%col_pos_elem Hp. unfold fails_with, create_total_price. mstep.
    unfold df_getitem at 1. rewrite Hi. mstep.
    by rewrite (df_getitem_missing d price_col Hp).
  - intros qs ps Hwf Hq Hp Nq Np Hqn Hpn.
    destruct (total_price_run s df d quantity_col price_col qs ps Hdf Hwf Hq Hp Nq Np)
      as (d' & totals & Hmul & _ & Hrun & Hget & _ & Hother & _ & Hwf').
    eexists _, _. split; [exact Hrun|].
    assert (heap (mkState (<[df := d']> (heap s))
                    (log s ++ [mkLog INFO "Created TotalPrice column" []])) !! df = Some d')
      as Hdf' by (cbn [heap]; by eapply lookup_assigned).
    split.
    + unfold create_total_price. mstep. rewrite (Hother quantity_col Hqn), Hq.
      mstep. rewrite (Hother price_col Hpn), Hp. mstep. rewrite Hmul. mstep.
      rewrite (df_setitem_own_column d' "TotalPrice" totals Hwf' Hget).
      mstep. reflexivity.
    + cbn [heap]. by rewrite list_insert_insert_eq.
Qed.

Lemma total_price_missing_column_and_second_call_witness :
  fails_with (create_total_price 0%nat "Quantity" "UnitPrice") (only scored_customers)
    (KeyError "Quantity") /\
  (exists s1 s2,
     create_total_price 0%nat "Quantity" "UnitPrice" (only priced_lines) = (Ok 0%nat, s1) /\
     create_total_price 0%nat "Quantity" "UnitPrice" s1 = (Ok 0%nat, s2) /\
     heap s2 = heap s1).
Proof.
  split.
  - apply (proj1 (total_price_missing_column_and_second_call (only scored_customers)
                    0%nat scored_customers "Quantity" "UnitPrice" eq_refl)).
    apply (bool_decide_unpack _). vm_compute. exact I.
  - apply (proj2 (proj2 (total_price_missing_column_and_second_call (only priced_lines)
                    0%nat priced_lines "Quantity" "UnitPrice" eq_refl))
             [Int 6; Int 8; Int 2] [Float (255 # 100); Float (339 # 100); Null]);
      try reflexivity; try discriminate; repeat constructor.
Defined.

(** * More on the country metrics *)

Lemma aggregate_groups_keys keys by_col rs spec n out :
  aggregate_groups keys by_col rs spec n = Ok out -> map (cell_at 0) out = keys.
Proof.
  revert n out. induction keys as [|k keys IH]; intros n out; cbn [aggregate_groups].
  - by intros [= <-].
  - destruct (aggregate_group _ spec) as [cs|]; [|done]. cbn [obind].
    destruct (aggregate_groups keys by_col rs spec (n + 1)) as [rest|] eqn:E; [|done].
    cbn [obind]. intros [= <-]. cbn [map]. by rewrite (IH _ _ E).
Qed.

Lemma distinct_from_in seen col k : k ∈ distinct_from seen col -> k ∈ col.
Proof.
  revert seen. induction col as [|c cs IH]; intros seen; cbn [distinct_from]; [done|].
  destruct (isna c || existsb (cell_eqb c) seen).
  - intros Hk. apply list_elem_of_further. by eapply IH.
  - intros [->|Hk]%elem_of_cons; [apply list_elem_of_here|].
    apply list_elem_of_further. by eapply IH.
Qed.

Lemma map_cell_at_row_app (j : nat) (rs : list Row) (vals : list cell) :
  Forall (fun r => (j < length (cells r))%nat) rs -> length vals = length rs ->
  map (cell_at j) (zip_with row_app rs vals) = map (cell_at j) rs.
Proof.
  intros Hwide. revert vals. induction Hwide as [|r rs Hr _ IH]; intros [|v vals] Hlen;
    try done. cbn [zip_with map]. rewrite cell_at_row_app_old by done.
  f_equal. apply IH. cbn in Hlen. lia.
Qed.

(** What [create_country_metrics] leaves in the heap: the grouped table
    with its share column and, after it, the sorted table it returns. *)
Lemma create_country_metrics_heap s df d countries prices invoices customers :
  heap s !! df = Some d ->
  df_getitem d "Country" = Ok countries ->
  df_getitem d "TotalPrice" = Ok prices ->
  df_getitem d "InvoiceNo" = Ok invoices ->
  df_getitem d "CustomerID" = Ok customers ->
  Forall (fun c => is_number c = true) prices ->
  exists g cm lg cs,
    create_country_metrics df s
    = (Ok (S (length (heap s))), mkState (heap s ++ [g; cm]) (log s ++ lg)) /\
    columns cm = ["Country"; "TotalRevenue"; "TotalOrders"; "UniqueCustomers"; "RevenuePct"] /\
    df_getitem cm "Country" = Ok cs /\
    cs ≡ₚ distinct countries.
Proof.
  intros Hdf Hco Hpr Hin Hcu Hnum.
  unfold df_getitem in Hco, Hpr, Hin, Hcu.
  destruct (col_pos "Country" (columns d)) as [iCo|] eqn:ECo; [|done].
  destruct (col_pos "TotalPrice" (columns d)) as [iP|] eqn:EP; [|done].
  destruct (col_pos "InvoiceNo" (columns d)) as [iI|] eqn:EI; [|done].
  destruct (col_pos "CustomerID" (columns d)) as [iC|] eqn:EC; [|done].
  injection Hco as Hco. injection Hpr as Hpr. clear Hin Hcu.
  assert (Forall (fun r => is_number (cell_at iP r) = true) (rows d)) as Hnum'.
  { rewrite <- Hpr in Hnum. by apply Forall_map in Hnum. }
  destruct (aggregate_groups_rows (group_keys countries) countries (rows d) iP iI iC 0 Hnum')
    as (out & Hout & _ & Hshape & _).
  pose proof (aggregate_groups_keys _ _ _ _ _ _ Hout) as Hkeys.
  set (spec := [("TotalPrice", AggSum); ("InvoiceNo", AggNunique); ("CustomerID", AggNunique)]).
  assert (df_groupby_agg d "Country" spec = Ok (mkDF ("Country" :: map fst spec) out)) as Hgroup.
  { unfold df_groupby_agg, df_getitem, spec. rewrite ECo. cbn [obind spec_positions].
    rewrite EP, EI, EC. cbn [obind]. rewrite Hco, Hout. reflexivity. }
  set (names := ["Country"; "TotalRevenue"; "TotalOrders"; "UniqueCustomers"]).
  set (g1 := mkDF names out).
  set (rev0 := map (fun r => value_of (cell_at 1 r)) out).
  assert (df_getitem g1 "TotalRevenue" = Ok (map Float rev0)) as Hrev.
  { unfold df_getitem, g1, rev0. cbn [columns rows]. change (col_pos _ names) with (Some 1%nat).
    f_equal. apply map_values_float. eapply Forall_impl; [exact Hshape|].
    intros r (k & q & a & b & Hr). unfold cell_at. by rewrite Hr. }
  destruct (series_share_floats rev0 (sumq rev0)) as (pct & Hpct & Lpct & _).
  assert (length pct = length out) as Lpct'
    by (unfold rev0 in Lpct; by rewrite Lpct, length_map).
  set (g := mkDF (names ++ ["RevenuePct"]) (zip_with row_app out pct)).
  assert (df_setitem g1 "RevenuePct" pct = Ok g) as Sg.
  { unfold df_setitem, g1. cbn [rows columns]. apply Nat.eqb_eq in Lpct'.
    by rewrite Lpct'. }
  set (sorted := sort_by (before_desc 1) (rows g)).
  set (cm := mkDF (columns g) (relabel 0 sorted)).
  assert (map (cell_at 0) (rows g) = group_keys countries) as Hg0.
  { unfold g. cbn [rows]. rewrite map_cell_at_row_app; [done| |done].
    eapply Forall_impl; [exact Hshape|]. intros r (k & q & a & b & ->). cbn. lia. }
  exists g, cm. eexists. exists (map (cell_at 0) sorted).
  split; [|split; [done|split]].
  - unfold create_country_metrics. mstep.
    unfold groupby_agg. rewrite bind_bind. mstep. mstep. fold spec. rewrite Hgroup.
    mstep. unfold set_columns. rewrite bind_bind. mstep. rewrite bind_bind. mstep.
    change (df_set_columns _ _) with (Ok g1). cbv beta iota.
    rewrite assign_bind. cbn [heap log]. rewrite insert_fresh.
    mstep. rewrite Hrev. mstep. rewrite series_sum_floats.
    mstep. rewrite Hrev. mstep. rewrite Hpct. mstep. rewrite Sg. rewrite insert_fresh.
    unfold sort_values_desc. rewrite bind_bind. mstep. mstep.
    change (df_sort_values_desc g "TotalRevenue") with (Ok cm). cbv beta iota.
    repeat mstep. unfold ret.
    rewrite length_app, Nat.add_1_r, <- !app_assoc. reflexivity.
  - unfold cm. rewrite df_getitem_relabel. reflexivity.
  - unfold sorted. change (map ?f ?l) with (f <$> l). rewrite (sort_by_perm _ (rows g)).
    change (?f <$> ?l) with (map f l). rewrite Hg0. unfold group_keys. apply sort_by_perm.
Qed.

(** X15: on a table with the four columns whose prices are numbers,
    [create_country_metrics] leaves every existing table as it was and
    returns a new table with the five columns Country, TotalRevenue,
    TotalOrders, UniqueCustomers and RevenuePct that has one row per
    country: as many rows as the input has different countries, each the
    country of some input row, every country of an input row among them;
    rows without a country are left out.  On a table without rows the
    result has no row. *)
Theorem one_row_per_country (s : state) (df : ref) (d : DataFrame)
    (countries prices invoices customers : list cell) :
  heap s !! df = Some d ->
  df_getitem d "Country" = Ok countries ->
  df_getitem d "TotalPrice" = Ok prices ->
  df_getitem d "InvoiceNo" = Ok invoices ->
  df_getitem d "CustomerID" = Ok customers ->
  Forall (fun c => is_number c = true) prices ->
  exists g cm lg cs,
    create_country_metrics df s
    = (Ok (S (length (heap s))), mkState (heap s ++ [g; cm]) (log s ++ lg)) /\
    columns cm = ["Country"; "TotalRevenue"; "TotalOrders"; "UniqueCustomers"; "RevenuePct"] /\
    df_getitem cm "Country" = Ok cs /\
    Z.of_nat (length (rows cm)) = series_nunique countries /\
    (forall k, k ∈ cs -> k ∈ countries /\ isna k = false) /\
    (forall c, c ∈ countries -> isna c = false ->
       exists k, k ∈ cs /\ cell_eqb k c = true) /\
    (rows d = [] -> rows cm = []).
Proof.
  intros Hdf Hco Hpr Hin Hcu Hnum.
  destruct (create_country_metrics_heap s df d countries prices invoices customers
              Hdf Hco Hpr Hin Hcu Hnum) as (g & cm & lg & cs & Hrun & Hcols & Hcs & Hperm).
  assert (length (rows cm) = length (distinct countries)) as Hlen.
  { rewrite <- (df_getitem_length _ _ _ Hcs). by apply Permutation_length. }
  exists g, cm, lg, cs. split; [done|]. split; [done|]. split; [done|].
  split; [unfold series_nunique; by rewrite Hlen|]. split; [|split].
  - intros k Hk. rewrite Hperm in Hk. split.
    + by eapply distinct_from_in.
    + by apply distinct_from_elem in Hk as [? _].
  - intros c Hc Hna.
    destruct (distinct_from_covers [] countries c Hc Hna) as [?|(k & Hk & Hkc)]; [done|].
    exists k. split; [|done]. by rewrite Hperm.
  - intros Hnil. apply length_zero_iff_nil. rewrite Hlen.
    pose proof (df_getitem_length _ _ _ Hco) as Lc. rewrite Hnil in Lc.
    by destruct countries.
Qed.

Lemma one_row_per_country_witness :
  exists g cm lg cs,
    create_country_metrics 0%nat (only three_countries)
    = (Ok 2%nat, mkState ([three_countries] ++ [g; cm]) lg) /\
    df_getitem cm "Country" = Ok cs /\
    Z.of_nat (length (rows cm)) = 3.
Proof.
  destruct (one_row_per_country (only three_countries) 0%nat three_countries
              [Str "United Kingdom"; Str "France"; Str "United Kingdom"; Str "Germany"]
              [Float 30; Float 10; Float 20; Float 40]
              [Str "536365"; Str "536366"; Str "536367"; Str "536368"]
              [Int 17850; Int 13047; Int 12583; Int 13748]
              eq_refl eq_refl eq_refl eq_refl eq_refl ltac:(repeat constructor))
    as (g & cm & lg & cs & Hrun & _ & Hcs & Hn & _).
  exists g, cm, lg, cs. split; [exact Hrun|]. split; [exact Hcs | exact Hn].
Defined.

(** X16: [create_country_metrics] on a table without the Country column
    raises KeyError with that name, and on a table that has it but lacks
    one of the three aggregated columns it raises a KeyError; in both
    cases no table is changed or added. *)
Theorem country_metrics_missing_column (s : state) (df : ref) (d : DataFrame) :
  heap s !! df = Some d ->
  ("Country" ∉ columns d ->
   exists lg, create_country_metrics df s
              = (Raise (KeyError "Country"), mkState (heap s) (log s ++ lg))) /\
  ("Country" ∈ columns d ->
   "TotalPrice" ∉ columns d \/ "InvoiceNo" ∉ columns d \/ "CustomerID" ∉ columns d ->
   exists k lg, create_country_metrics df s
                = (Raise (KeyError k), mkState (heap s) (log s ++ lg))).
Proof.
  intros Hdf. split.
  - intros Hc. eexists. unfold create_country_metrics. mstep.
    unfold groupby_agg. rewrite bind_bind. mstep. mstep.
    unfold df_groupby_agg. rewrite (df_getitem_missing d "Country" Hc). reflexivity.
  - intros [i Hi]%col_pos_elem Hmiss.
    assert (exists k, spec_positions
              [("TotalPrice", AggSum); ("InvoiceNo", AggNunique); ("CustomerID", AggNunique)]
              (columns d) = Raise (KeyError k)) as [k Hk].
    { cbn [spec_positions].
      destruct (col_pos "TotalPrice" (columns d)) eqn:E1; [|by eexists].
      destruct (col_pos "InvoiceNo" (columns d)) eqn:E2; [|by eexists].
      destruct (col_pos "CustomerID" (columns d)) eqn:E3; [|by eexists].
      destruct Hmiss as [Hm|[Hm|Hm]]; destruct Hm; apply col_pos_elem; by eexists. }
    exists k. eexists. unfold create_country_metrics. mstep.
    unfold groupby_agg. rewrite bind_bind. mstep. mstep.
    unfold df_groupby_agg, df_getitem. rewrite Hi. cbn [obind]. rewrite Hk. reflexivity.
Qed.

Lemma country_metrics_missing_column_witness :
  exists lg, create_country_metrics 0%nat (only scored_customers)
             = (Raise (KeyError "Country"), mkState [scored_customers] lg).
Proof.
  destruct (proj1 (country_metrics_missing_column (only scored_customers) 0%nat
                     scored_customers eq_refl)
              ltac:(apply (bool_decide_unpack _); vm_compute; exact I)) as [lg Hrun].
  by eexists.
Defined.

(** * More on the RFM scores *)

Lemma recency_labels b :
  (1 <= b <= 5)%nat -> [5; 4; 3; 2; 1] !! (b - 1)%nat = Some (6 - Z.of_nat b).
Proof. destruct b as [|[|[|[|[|[|b]]]]]]; intros Hb; try lia; reflexivity. Qed.

Lemma direct_labels b :
  (1 <= b <= 5)%nat -> [1; 2; 3; 4; 5] !! (b - 1)%nat = Some (Z.of_nat b).
Proof. destruct b as [|[|[|[|[|[|b]]]]]]; intros Hb; try lia; reflexivity. Qed.

Lemma recency_scores_range col : Forall (fun z => 1 <= z <= 5) (recency_scores col).
Proof.
  unfold recency_scores. apply (scores_range (fun b => 6 - Z.of_nat b) col). lia.
Qed.

Lemma direct_scores_range col : Forall (fun z => 1 <= z <= 5) (direct_scores col).
Proof.
  unfold direct_scores. apply (scores_range (fun b => Z.of_nat b) col). lia.
Qed.

Section ScoreTable.
Context `{Pandas}.

Lemma astype_str_score z : 1 <= z <= 5 -> astype_str (Int z) = score_digit z.
Proof.
  intros Hz. assert (z = 1 \/ z = 2 \/ z = 3 \/ z = 4 \/ z = 5) as Hc by lia.
  destruct Hc as [->|[->|[->|[->| ->]]]]; reflexivity.
Qed.

Lemma rfm_text (rs fs ms : list Z) :
  Forall (fun z => 1 <= z <= 5) rs -> Forall (fun z => 1 <= z <= 5) fs ->
  Forall (fun z => 1 <= z <= 5) ms ->
  forall i r f m t,
    rs !! i = Some r -> fs !! i = Some f -> ms !! i = Some m ->
    zip_with (fun rf x => Str (rf ++ astype_str x)%string)
      (zip_with (fun x y => (astype_str x ++ astype_str y)%string)
         (map Int rs) (map Int fs)) (map Int ms) !! i = Some t ->
    t = Str (score_digit r ++ score_digit f ++ score_digit m)%string.
Proof.
  intros Hr Hf Hm i r f m t Hir Hif Him.
  rewrite !lookup_zip_with. change (map Int ?l) with (Int <$> l).
  rewrite !list_lookup_fmap, Hir, Hif, Him. cbn -[astype_str].
  rewrite !astype_str_score.
  - unfold score_digit. by intros [= <-].
  - by eapply (proj1 (Forall_lookup _ _) Hm).
  - by eapply (proj1 (Forall_lookup _ _) Hf).
  - by eapply (proj1 (Forall_lookup _ _) Hr).
Qed.

(** The table [create_rfm_scores] leaves in the place of the one it was
    given. *)
Lemma create_rfm_scores_table s cm d rec freq mon :
  heap s !! cm = Some d -> well_formed d ->
  df_getitem d "Recency_Days" = Ok rec ->
  df_getitem d "TotalOrders" = Ok freq ->
  df_getitem d "CustomerLifetimeValue" = Ok mon ->
  Forall (fun c => is_number c = true) rec ->
  Forall (fun c => is_number c = true) freq ->
  Forall (fun c => is_number c = true) mon ->
  exists d' rfm,
    create_rfm_scores cm s
    = (Ok cm, mkState (<[cm := d']> (heap s))
                (log s ++ [mkLog INFO "Creating RFM scores..." [];
                           mkLog INFO "RFM scores created (1-5 scale)" []])) /\
    df_getitem d' "R_Score" = Ok (map Int (recency_scores rec)) /\
    df_getitem d' "F_Score" = Ok (map Int (direct_scores freq)) /\
    df_getitem d' "M_Score" = Ok (map Int (direct_scores mon)) /\
    df_getitem d' "RFM_Score" = Ok rfm /\
    (forall i r f m t,
       recency_scores rec !! i = Some r -> direct_scores freq !! i = Some f ->
       direct_scores mon !! i = Some m -> rfm !! i = Some t ->
       t = Str (score_digit r ++ score_digit f ++ score_digit m)%string) /\
    (forall c, c ∉ score_columns -> df_getitem d' c = df_getitem d c) /\
    length (rows d') = length (rows d) /\ well_formed d'.
Proof.
  intros Hcm Hwf Hrec Hfreq Hmon Nrec Nfreq Nmon.
  set (R := map Int (recency_scores rec)).
  set (F := map Int (direct_scores freq)).
  set (M := map Int (direct_scores mon)).
  assert (score_column rec [5; 4; 3; 2; 1] = Ok R) as HR
    by (apply (score_column_numbers rec _ (fun b => 6 - Z.of_nat b) Nrec), recency_labels).
  assert (score_column freq [1; 2; 3; 4; 5] = Ok F) as HF
    by (apply (score_column_numbers freq _ (fun b => Z.of_nat b) Nfreq), direct_labels).
  assert (score_column mon [1; 2; 3; 4; 5] = Ok M) as HM
    by (apply (score_column_numbers mon _ (fun b => Z.of_nat b) Nmon), direct_labels).
  assert (length R = length (rows d)) as LR.
  { unfold R, recency_scores. rewrite length_map, length_imap, length_map.
    by eapply df_getitem_length. }
  assert (length F = length (rows d)) as LF.
  { unfold F, direct_scores. rewrite length_map, length_imap, length_map.
    by eapply df_getitem_length. }
  assert (length M = length (rows d)) as LM.
  { unfold M, direct_scores. rewrite length_map, length_imap, length_map.
    by eapply df_getitem_length. }
  destruct (df_setitem_spec d "R_Score" R Hwf LR) as (d1 & S1 & W1 & L1 & G1 & O1).
  destruct (df_setitem_spec d1 "F_Score" F W1 ltac:(congruence))
    as (d2 & S2 & W2 & L2 & G2 & O2).
  destruct (df_setitem_spec d2 "M_Score" M W2 ltac:(congruence))
    as (d3 & S3 & W3 & L3 & G3 & O3).
  set (rfm := zip_with (fun rf x => Str (rf ++ astype_str x)%string)
                (zip_with (fun x y => (astype_str x ++ astype_str y)%string) R F) M).
  assert (length rfm = length (rows d3)) as Lrfm.
  { unfold rfm. rewrite zip_with_length_same; [congruence|].
    rewrite zip_with_length_same; congruence. }
  destruct (df_setitem_spec d3 "RFM_Score" rfm W3 Lrfm)
    as (d4 & S4 & W4 & L4 & G4 & O4).
  assert (df_getitem d1 "TotalOrders" = Ok freq) as Hfreq1 by (by rewrite O1).
  assert (df_getitem d2 "CustomerLifetimeValue" = Ok mon) as Hmon2
    by (by rewrite O2, O1).
  assert (df_getitem d3 "R_Score" = Ok R) as GR3 by (by rewrite O3, O2).
  assert (df_getitem d3 "F_Score" = Ok F) as GF3 by (by rewrite O3).
  exists d4, rfm. split; [|split; [|split; [|split; [|split; [|split; [|split; [|split]]]]]]].
  - unfold create_rfm_scores.
    do 2 mstep. rewrite Hrec. mstep. rewrite HR. mstep. rewrite S1.
    mstep. rewrite Hfreq1. mstep. rewrite HF. mstep. rewrite S2.
    mstep. rewrite Hmon2. mstep. rewrite HM. mstep. rewrite S3.
    mstep. rewrite GR3. mstep. rewrite GF3. mstep. rewrite G3.
    mstep. fold rfm. rewrite S4. mstep. unfold ret.
    rewrite !list_insert_insert_eq, <- app_assoc. reflexivity.
  - by rewrite O4, O3, O2.
  - by rewrite O4, O3.
  - by rewrite O4.
  - done.
  - intros i r f m t. apply rfm_text.
    + apply recency_scores_range.
    + apply direct_scores_range.
    + apply direct_scores_range.
  - intros c Hc. unfold score_columns in Hc.
    rewrite O4, O3, O2, O1; [done| | | |]; intros ->; apply Hc; repeat constructor.
  - congruence.
  - done.
Qed.

(** X17: on a well-formed customer table whose three inputs are numbers,
    [create_rfm_scores] works in place: it returns the reference it was
    given, allocates no table, writes the four columns R_Score, F_Score,
    M_Score and RFM_Score and leaves every other column and the number of
    rows as they were.  RFM_Score is text: the three digits of the R, F
    and M scores of the row, in that order. *)
Theorem rfm_scores_are_written_in_place (s : state) (cm : ref) (d : DataFrame)
    (rec freq mon : list cell) :
  heap s !! cm = Some d -> well_formed d ->
  df_getitem d "Recency_Days" = Ok rec ->
  df_getitem d "TotalOrders" = Ok freq ->
  df_getitem d "CustomerLifetimeValue" = Ok mon ->
  Forall (fun c => is_number c = true) rec ->
  Forall (fun c => is_number c = true) freq ->
  Forall (fun c => is_number c = true) mon ->
  exists d' s' rs fs ms rfm,
    create_rfm_scores cm s = (Ok cm, s') /\
    heap s' = <[cm := d']> (heap s) /\
    df_getitem d' "R_Score" = Ok (map Int rs) /\
    df_getitem d' "F_Score" = Ok (map Int fs) /\
    df_getitem d' "M_Score" = Ok (map Int ms) /\
    df_getitem d' "RFM_Score" = Ok rfm /\
    (forall i r f m t,
       rs !! i = Some r -> fs !! i = Some f -> ms !! i = Some m -> rfm !! i = Some t ->
       t = Str (score_digit r ++ score_digit f ++ score_digit m)%string) /\
    (forall c, c ∉ score_columns -> df_getitem d' c = df_getitem d c) /\
    length (rows d') = length (rows d).
Proof.
  intros Hcm Hwf Hrec Hfreq Hmon Nrec Nfreq Nmon.
  destruct (create_rfm_scores_table s cm d rec freq mon Hcm Hwf Hrec Hfreq Hmon
              Nrec Nfreq Nmon)
    as (d' & rfm & Hrun & GR & GF & GM & Grfm & Htext & Hother & Hlen & _).
  exists d'. eexists. exists (recency_scores rec), (direct_scores freq), (direct_scores mon), rfm.
  split; [exact Hrun|]. by repeat split.
Qed.

End ScoreTable.

Lemma rfm_scores_are_written_in_place_witness :
  exists d' rfm,
    fst (@create_rfm_scores iso_pandas 0%nat (only sample_customers)) = Ok 0%nat /\
    heap (snd (@create_rfm_scores iso_pandas 0%nat (only sample_customers))) = [d'] /\
    df_getitem d' "RFM_Score" = Ok rfm /\
    df_getitem d' "CustomerID" = df_getitem sample_customers "CustomerID".
Proof.
  destruct (@rfm_scores_are_written_in_place iso_pandas (only sample_customers) 0%nat
              sample_customers
              [Int 1; Int 100; Int 10; Int 10; Int 300; Int 30; Int 7]
              [Int 5; Int 1; Int 2; Int 2; Int 9; Int 3; Int 3]
              [Float 1000; Float 50; Float 500; Float 70; Float 20; Float 90; Float 95]
              eq_refl ltac:(repeat constructor) eq_refl eq_refl eq_refl
              ltac:(repeat constructor) ltac:(repeat constructor)
              ltac:(repeat constructor))
    as (d' & s' & rs & fs & ms & rfm & Hrun & Hheap & _ & _ & _ & Hrfm & _ & Hother & _).
  exists d', rfm. rewrite Hrun. cbn [fst snd]. split; [reflexivity|].
  split; [exact Hheap|]. split; [exact Hrfm|]. apply Hother.
  apply (bool_decide_unpack _). vm_compute. exact I.
Defined.

(** ** Ranks and fifths *)

Lemma Qlt_bool_div (a : Z) (b : positive) (r n : Z) :
  0 < n -> Qlt_bool (a # b) (inject_Z r / inject_Z n) = (a * n <? Z.pos b * r).
Proof.
  intros Hn.
  assert (0 < inject_Z n)%Q as Hn' by (change 0%Q with (inject_Z 0); by rewrite <- Zlt_Qlt).
  assert (((a # b) < inject_Z r / inject_Z n)%Q <-> a * n < Z.pos b * r) as Hiff.
  { rewrite <- (Qmult_lt_r _ _ (inject_Z n) Hn').
    assert (inject_Z r / inject_Z n * inject_Z n == inject_Z r)%Q as ->
      by (field; intros E; rewrite E in Hn'; by apply Qlt_irrefl in Hn').
    unfold Qlt, Qmult, inject_Z. cbn [Qnum Qden]. rewrite Pos.mul_1_r. lia. }
  destruct (Qlt_bool _ _) eqn:E1, (a * n <? Z.pos b * r) eqn:E2; try done.
  - apply Qlt_bool_iff, Hiff in E1. apply Z.ltb_ge in E2. lia.
  - apply Z.ltb_lt, Hiff, Qlt_bool_iff in E2. congruence.
Qed.

(** The bin of the percentile rank r/n is the fifth of the rank. *)
Lemma searchsorted_quintile (n r : nat) :
  (1 <= r <= n)%nat ->
  Z.of_nat (searchsorted_left rfm_bins (inject_Z (Z.of_nat r) / inject_Z (Z.of_nat n)))
  = quintile n r.
Proof.
  intros Hr. unfold searchsorted_left, rfm_bins, quintile. rewrite !count_cons.
  change (count _ []) with 0%nat.
  rewrite !Qlt_bool_div by lia.
  set (R := Z.of_nat r) in *. set (N := Z.of_nat n) in *.
  assert (1 <= R <= N) as HR by lia. clearbody R N. clear Hr.
  pose proof (Z.div_mod (5 * R + N - 1) N ltac:(lia)) as Hdiv.
  pose proof (Z.mod_pos_bound (5 * R + N - 1) N ltac:(lia)) as Hmod.
  set (c := (5 * R + N - 1) / N) in *. set (m := (5 * R + N - 1) mod N) in *.
  assert (1 <= c <= 5) as Hc by nia.
  assert (c = 1 \/ c = 2 \/ c = 3 \/ c = 4 \/ c = 5) as Hcases by lia.
  clearbody c m.
  destruct Hcases as [->|[->|[->|[->| ->]]]];
    repeat match goal with
           | |- context [?x <? ?y] =>
               destruct (Z.ltb_spec x y)
           end; lia.
Qed.

Lemma bucket_quintile (xs : list Q) (i : nat) (x : Q) :
  xs !! i = Some x ->
  Z.of_nat (bucket xs i x) = quintile (length xs) (rank_of (map Some xs) i x).
Proof.
  intros Hi. unfold bucket, pct_rank. apply searchsorted_quintile.
  assert (map Some xs !! i = Some (Some x)) as Hv
    by (change (map Some xs) with (Some <$> xs); by rewrite list_lookup_fmap, Hi).
  pose proof (rank_of_bounds _ _ _ Hv) as Hb. by rewrite count_has_value_values in Hb.
Qed.

(** Two positions have two ranks. *)
Lemma rank_of_inj (xs : list Q) (i j : nat) (x y : Q) :
  xs !! i = Some x -> xs !! j = Some y ->
  rank_of (map Some xs) i x = rank_of (map Some xs) j y -> i = j.
Proof.
  intros Hi Hj Heq.
  assert (map Some xs !! i = Some (Some x)) as Hvi
    by (change (map Some xs) with (Some <$> xs); by rewrite list_lookup_fmap, Hi).
  assert (map Some xs !! j = Some (Some y)) as Hvj
    by (change (map Some xs) with (Some <$> xs); by rewrite list_lookup_fmap, Hj).
  destruct (Q_dec x y) as [[Hlt|Hgt]|Heqv].
  - pose proof (rank_of_lt _ i j x y Hvi Hvj (or_introl Hlt)). lia.
  - pose proof (rank_of_lt _ j i y x Hvj Hvi (or_introl Hgt)). lia.
  - destruct (Nat.lt_trichotomy i j) as [Hij|[Hij|Hij]]; [|done|].
    + pose proof (rank_of_lt _ i j x y Hvi Hvj (or_intror (conj Heqv Hij))). lia.
    + symmetry in Heqv.
      pose proof (rank_of_lt _ j i y x Hvj Hvi (or_intror (conj Heqv Hij))). lia.
Qed.

(** The ranks of n values are the numbers 1 to n, each once. *)
Lemma rank_list_perm (xs : list Q) :
  imap (fun i x => rank_of (map Some xs) i x) xs ≡ₚ seq 1 (length xs).
Proof.
  apply submseteq_length_Permutation.
  - apply NoDup_submseteq.
    + apply NoDup_alt. intros i j r. rewrite !list_lookup_imap.
      destruct (xs !! i) as [x|] eqn:Hi; [|done].
      destruct (xs !! j) as [y|] eqn:Hj; [|done].
      cbn [fmap option_fmap option_map]. intros H1 H2.
      apply (rank_of_inj xs i j x y Hi Hj). congruence.
    + intros r Hr. apply list_elem_of_lookup in Hr as [i Hr].
      rewrite list_lookup_imap in Hr. destruct (xs !! i) as [x|] eqn:Hi; [|done].
      cbn [fmap option_fmap option_map] in Hr. injection Hr as <-.
      assert (map Some xs !! i = Some (Some x)) as Hv
        by (change (map Some xs) with (Some <$> xs); by rewrite list_lookup_fmap, Hi).
      pose proof (rank_of_bounds _ _ _ Hv) as Hb. rewrite count_has_value_values in Hb.
      apply elem_of_seq. lia.
  - by rewrite length_seq, length_imap.
Qed.

Lemma ranks_perm (col : list cell) : ranks col ≡ₚ seq 1 (length col).
Proof.
  unfold ranks. rewrite rank_list_perm. by rewrite length_map.
Qed.

(** The value that comes last in the order of the ranks has the rank n,
    the one that comes first the rank 1. *)
Lemma rank_of_top (xs : list Q) (i : nat) (x : Q) :
  xs !! i = Some x ->
  (forall j y, xs !! j = Some y -> j <> i -> (y < x)%Q \/ ((y == x)%Q /\ (j < i)%nat)) ->
  rank_of (map Some xs) i x = length xs.
Proof.
  intros Hi Htop.
  assert (forall k z, xs !! k = Some z -> map Some xs !! k = Some (Some z)) as Hv.
  { intros k z Hk. change (map Some xs) with (Some <$> xs). by rewrite list_lookup_fmap, Hk. }
  assert (length xs ∈ imap (fun i x => rank_of (map Some xs) i x) xs) as Hn.
  { rewrite rank_list_perm. apply elem_of_seq.
    pose proof (lookup_lt_Some _ _ _ Hi). lia. }
  apply list_elem_of_lookup in Hn as [j Hj]. rewrite list_lookup_imap in Hj.
  destruct (xs !! j) as [y|] eqn:Hy; [|done].
  cbn [fmap option_fmap option_map] in Hj. injection Hj as Hj.
  destruct (decide (j = i)) as [->|Hne].
  { rewrite Hi in Hy. injection Hy as <-. unfold rank_of in *. lia. }
  pose proof (rank_of_lt _ j i y x (Hv _ _ Hy) (Hv _ _ Hi) (Htop j y Hy Hne)) as Hlt.
  pose proof (rank_of_bounds _ _ _ (Hv _ _ Hi)) as Hb.
  rewrite count_has_value_values in Hb. unfold rank_of in *. lia.
Qed.

Lemma rank_of_bottom (xs : list Q) (i : nat) (x : Q) :
  xs !! i = Some x ->
  (forall j y, xs !! j = Some y -> j <> i -> (x < y)%Q \/ ((x == y)%Q /\ (i < j)%nat)) ->
  rank_of (map Some xs) i x = 1%nat.
Proof.
  intros Hi Hbot.
  assert (forall k z, xs !! k = Some z -> map Some xs !! k = Some (Some z)) as Hv.
  { intros k z Hk. change (map Some xs) with (Some <$> xs). by rewrite list_lookup_fmap, Hk. }
  assert (1%nat ∈ imap (fun i x => rank_of (map Some xs) i x) xs) as Hn.
  { rewrite rank_list_perm. apply elem_of_seq.
    pose proof (lookup_lt_Some _ _ _ Hi). lia. }
  apply list_elem_of_lookup in Hn as [j Hj]. rewrite list_lookup_imap in Hj.
  destruct (xs !! j) as [y|] eqn:Hy; [|done].
  cbn [fmap option_fmap option_map] in Hj. injection Hj as Hj.
  destruct (decide (j = i)) as [->|Hne].
  { rewrite Hi in Hy. injection Hy as <-. unfold rank_of in *. lia. }
  pose proof (rank_of_lt _ i j x y (Hv _ _ Hi) (Hv _ _ Hy) (Hbot j y Hy Hne)) as Hlt.
  pose proof (rank_of_bounds _ _ _ (Hv _ _ Hi)) as Hb. unfold rank_of in *. lia.
Qed.

Lemma direct_scores_ranks (col : list cell) :
  direct_scores col = map (quintile (length col)) (ranks col).
Proof.
  unfold direct_scores, ranks. set (xs := map value_of col).
  assert (length col = length xs) as -> by (unfold xs; by rewrite length_map).
  change (map ?f ?l) with (f <$> l) at 1. rewrite fmap_imap.
  apply imap_ext. intros i x Hi. unfold compose. by apply bucket_quintile.
Qed.

Lemma recency_scores_ranks (col : list cell) :
  recency_scores col = map (fun r => 6 - quintile (length col) r) (ranks col).
Proof.
  unfold recency_scores, ranks. set (xs := map value_of col).
  assert (length col = length xs) as -> by (unfold xs; by rewrite length_map).
  change (map ?f ?l) with (f <$> l) at 1. rewrite fmap_imap.
  apply imap_ext. intros i x Hi. unfold compose. by rewrite bucket_quintile.
Qed.

Lemma quintile_top (n : nat) : (1 <= n)%nat -> quintile n n = 5.
Proof.
  intros Hn. unfold quintile. symmetry. apply (Z.div_unique _ _ _ (Z.of_nat n - 1)); lia.
Qed.

Lemma quintile_bottom (n : nat) : (5 <= n)%nat -> quintile n 1 = 1.
Proof.
  intros Hn. unfold quintile. symmetry. apply (Z.div_unique _ _ _ 4); lia.
Qed.

(** With fewer than five values no rank falls in the first fifth. *)
Lemma quintile_few (n r : nat) : (1 <= n < 5)%nat -> (1 <= r)%nat -> 2 <= quintile n r.
Proof.
  intros Hn Hr. unfold quintile. apply Z.div_le_lower_bound; lia.
Qed.

(** X18: each score is the fifth of the customer's rank: with n customers,
    the one whose value has rank r gets the score 5r/n rounded up for
    frequency and for monetary value, and 6 minus it for recency.  The
    ranks of the n customers are the numbers 1 to n, each exactly once,
    equal values included, so how many customers get each score depends
    on n alone. *)
Theorem scores_are_fifths_of_ranks (P : Pandas) (s : state) (cm : ref) (d : DataFrame)
    (rec freq mon : list cell) :
  heap s !! cm = Some d -> well_formed d ->
  df_getitem d "Recency_Days" = Ok rec ->
  df_getitem d "TotalOrders" = Ok freq ->
  df_getitem d "CustomerLifetimeValue" = Ok mon ->
  Forall (fun c => is_number c = true) rec ->
  Forall (fun c => is_number c = true) freq ->
  Forall (fun c => is_number c = true) mon ->
  exists s' d',
    create_rfm_scores cm s = (Ok cm, s') /\
    heap s' !! cm = Some d' /\
    df_getitem d' "R_Score"
      = Ok (map Int (map (fun r => 6 - quintile (length (rows d)) r) (ranks rec))) /\
    df_getitem d' "F_Score" = Ok (map Int (map (quintile (length (rows d))) (ranks freq))) /\
    df_getitem d' "M_Score" = Ok (map Int (map (quintile (length (rows d))) (ranks mon))) /\
    ranks rec ≡ₚ seq 1 (length (rows d)) /\
    ranks freq ≡ₚ seq 1 (length (rows d)) /\
    ranks mon ≡ₚ seq 1 (length (rows d)).
Proof.
  intros Hcm Hwf Hrec Hfreq Hmon Nrec Nfreq Nmon.
  destruct (@create_rfm_scores_table P s cm d rec freq mon Hcm Hwf Hrec Hfreq Hmon
              Nrec Nfreq Nmon)
    as (d' & rfm & Hrun & GR & GF & GM & _).
  pose proof (df_getitem_length _ _ _ Hrec) as Lrec.
  pose proof (df_getitem_length _ _ _ Hfreq) as Lfreq.
  pose proof (df_getitem_length _ _ _ Hmon) as Lmon.
  eexists _, d'. split; [exact Hrun|]. split; [cbn [heap]; by eapply lookup_assigned|].
  rewrite recency_scores_ranks, Lrec in GR.
  rewrite direct_scores_ranks, Lfreq in GF. rewrite direct_scores_ranks, Lmon in GM.
  split; [done|]. split; [done|]. split; [done|].
  split; [rewrite <- Lrec; apply ranks_perm|].
  split; [rewrite <- Lfreq | rewrite <- Lmon]; apply ranks_perm.
Qed.

Lemma scores_are_fifths_of_ranks_witness :
  exists s' d',
    @create_rfm_scores iso_pandas 0%nat (only sample_customers) = (Ok 0%nat, s') /\
    heap s' !! 0%nat = Some d' /\
    df_getitem d' "F_Score"
      = Ok (map Int (map (quintile 7)
                       (ranks [Int 5; Int 1; Int 2; Int 2; Int 9; Int 3; Int 3]))) /\
    ranks [Int 5; Int 1; Int 2; Int 2; Int 9; Int 3; Int 3] ≡ₚ seq 1 7.
Proof.
  destruct (scores_are_fifths_of_ranks iso_pandas (only sample_customers) 0%nat
              sample_customers
              [Int 1; Int 100; Int 10; Int 10; Int 300; Int 30; Int 7]
              [Int 5; Int 1; Int 2; Int 2; Int 9; Int 3; Int 3]
              [Float 1000; Float 50; Float 500; Float 70; Float 20; Float 90; Float 95]
              eq_refl ltac:(repeat constructor) eq_refl eq_refl eq_refl
              ltac:(repeat constructor) ltac:(repeat constructor)
              ltac:(repeat constructor))
    as (s' & d' & Hrun & Hd' & _ & GF & _ & _ & Pf & _).
  exists s', d'. split; [exact Hrun|]. split; [exact Hd'|]. split; [exact GF | exact Pf].
Defined.

Lemma scores_lookup_rank (f : nat -> Z) (col : list cell) (i : nat) (c : cell) :
  col !! i = Some c ->
  map f (ranks col) !! i
  = Some (f (rank_of (map Some (map value_of col)) i (value_of c))).
Proof.
  intros Hi. unfold ranks. change (map f ?l) with (f <$> l).
  rewrite list_lookup_fmap, list_lookup_imap.
  change (map value_of col) with (value_of <$> col) at 2.
  by rewrite list_lookup_fmap, Hi.
Qed.

(** X19: who gets the ends of the scale.  The customer whose value is the
    largest, the last one among equals, has the rank n: an F or M score of
    5 and, for recency, an R score of 1.  The customer whose recency is the
    smallest, the first one among equals, gets the R score 5 when there are
    at least five customers; with fewer than five customers nobody gets
    an R score of 5 nor an F or M score of 1. *)
Theorem ends_of_the_score_scale (P : Pandas) (s : state) (cm : ref) (d : DataFrame)
    (rec freq mon : list cell) :
  heap s !! cm = Some d -> well_formed d ->
  df_getitem d "Recency_Days" = Ok rec ->
  df_getitem d "TotalOrders" = Ok freq ->
  df_getitem d "CustomerLifetimeValue" = Ok mon ->
  Forall (fun c => is_number c = true) rec ->
  Forall (fun c => is_number c = true) freq ->
  Forall (fun c => is_number c = true) mon ->
  exists s' d' rs fs ms,
    create_rfm_scores cm s = (Ok cm, s') /\
    heap s' !! cm = Some d' /\
    df_getitem d' "R_Score" = Ok (map Int rs) /\
    df_getitem d' "F_Score" = Ok (map Int fs) /\
    df_getitem d' "M_Score" = Ok (map Int ms) /\
    (forall col scores i c,
       (col = freq /\ scores = fs) \/ (col = mon /\ scores = ms) ->
       col !! i = Some c ->
       (forall j c', col !! j = Some c' -> j <> i ->
          (value_of c' < value_of c)%Q \/ ((value_of c' == value_of c)%Q /\ (j < i)%nat)) ->
       scores !! i = Some 5) /\
    (forall i c,
       rec !! i = Some c ->
       (forall j c', rec !! j = Some c' -> j <> i ->
          (value_of c' < value_of c)%Q \/ ((value_of c' == value_of c)%Q /\ (j < i)%nat)) ->
       rs !! i = Some 1) /\
    (forall i c,
       rec !! i = Some c -> (5 <= length (rows d))%nat ->
       (forall j c', rec !! j = Some c' -> j <> i ->
          (value_of c < value_of c')%Q \/ ((value_of c == value_of c')%Q /\ (i < j)%nat)) ->
       rs !! i = Some 5) /\
    ((length (rows d) < 5)%nat ->
     Forall (fun z => z <= 4) rs /\ Forall (fun z => 2 <= z) fs /\
     Forall (fun z => 2 <= z) ms).
Proof.
  intros Hcm Hwf Hrec Hfreq Hmon Nrec Nfreq Nmon.
  destruct (@create_rfm_scores_table P s cm d rec freq mon Hcm Hwf Hrec Hfreq Hmon
              Nrec Nfreq Nmon)
    as (d' & rfm & Hrun & GR & GF & GM & _).
  pose proof (df_getitem_length _ _ _ Hrec) as Lrec.
  pose proof (df_getitem_length _ _ _ Hfreq) as Lfreq.
  pose proof (df_getitem_length _ _ _ Hmon) as Lmon.
  assert (forall (col : list cell) i c,
            col !! i = Some c ->
            (forall j c', col !! j = Some c' -> j <> i ->
               (value_of c' < value_of c)%Q \/
               ((value_of c' == value_of c)%Q /\ (j < i)%nat)) ->
            rank_of (map Some (map value_of col)) i (value_of c) = length col) as Htop.
  { intros col i c Hi Hmax. rewrite <- (length_map value_of col). apply rank_of_top.
    - change (map value_of col) with (value_of <$> col). by rewrite list_lookup_fmap, Hi.
    - intros j y Hj Hne. change (map value_of col) with (value_of <$> col) in Hj.
      rewrite list_lookup_fmap in Hj. destruct (col !! j) as [c'|] eqn:Hc'; [|done].
      injection Hj as <-. by apply Hmax. }
  assert (forall (col : list cell) i c, col !! i = Some c -> (1 <= length col)%nat) as Hpos.
  { intros col i c Hi. pose proof (lookup_lt_Some _ _ _ Hi). lia. }
  eexists _, d', (recency_scores rec), (direct_scores freq), (direct_scores mon).
  split; [exact Hrun|]. split; [cbn [heap]; by eapply lookup_assigned|].
  split; [done|]. split; [done|]. split; [done|].
  split; [|split; [|split]].
  - intros col scores i c [[-> ->]|[-> ->]] Hi Hmax;
      rewrite direct_scores_ranks, (scores_lookup_rank _ _ i c Hi),
        (Htop _ i c Hi Hmax), quintile_top; (done || by eapply Hpos).
  - intros i c Hi Hmax.
    rewrite recency_scores_ranks, (scores_lookup_rank _ _ i c Hi),
      (Htop _ i c Hi Hmax), quintile_top; [done | by eapply Hpos].
  - intros i c Hi Hn Hmin.
    rewrite recency_scores_ranks, (scores_lookup_rank _ _ i c Hi).
    rewrite rank_of_bottom.
    + rewrite quintile_bottom; [done | lia].
    + change (map value_of rec) with (value_of <$> rec). by rewrite list_lookup_fmap, Hi.
    + intros j y Hj Hne. change (map value_of rec) with (value_of <$> rec) in Hj.
      rewrite list_lookup_fmap in Hj. destruct (rec !! j) as [c'|] eqn:Hc'; [|done].
      injection Hj as <-. by apply Hmin.
  - intros Hn.
    assert (forall col, length col = length (rows d) ->
              Forall (fun r => 2 <= quintile (length col) r) (ranks col)) as Hfew.
    { intros col Hl. rewrite ranks_perm. apply Forall_forall.
      intros r [Hr Hr']%elem_of_seq. apply quintile_few; lia. }
    rewrite recency_scores_ranks, !direct_scores_ranks.
    split; [|split]; apply Forall_map.
    + eapply Forall_impl; [exact (Hfew rec Lrec)|]. cbn. intros r Hr. lia.
    + exact (Hfew freq Lfreq).
    + exact (Hfew mon Lmon).
Qed.

Lemma ends_of_the_score_scale_witness :
  exists s' d' fs,
    @create_rfm_scores iso_pandas 0%nat (only sample_customers) = (Ok 0%nat, s') /\
    heap s' !! 0%nat = Some d' /\
    df_getitem d' "F_Score" = Ok (map Int fs) /\
    fs !! 4%nat = Some 5.
Proof.
  destruct (ends_of_the_score_scale iso_pandas (only sample_customers) 0%nat
              sample_customers
              [Int 1; Int 100; Int 10; Int 10; Int 300; Int 30; Int 7]
              [Int 5; Int 1; Int 2; Int 2; Int 9; Int 3; Int 3]
              [Float 1000; Float 50; Float 500; Float 70; Float 20; Float 90; Float 95]
              eq_refl ltac:(repeat constructor) eq_refl eq_refl eq_refl
              ltac:(repeat constructor) ltac:(repeat constructor)
              ltac:(repeat constructor))
    as (s' & d' & rs & fs & ms & Hrun & Hd' & _ & GF & _ & Htop & _).
  exists s', d', fs. split; [exact Hrun|]. split; [exact Hd'|]. split; [exact GF|].
  apply (Htop [Int 5; Int 1; Int 2; Int 2; Int 9; Int 3; Int 3] fs 4%nat (Int 9)
           (or_introl (conj eq_refl eq_refl)) eq_refl).
  intros [|[|[|[|[|[|[|j]]]]]]] c' Hj Hne; try done; injection Hj as <-;
    left; reflexivity.
Defined.

(** ** Segments on any scored table *)

Lemma apply_rows_length (f : Row -> outcome cell) (rs : list Row) (l : list cell) :
  apply_rows f rs = Ok l -> length l = length rs.
Proof.
  revert l. induction rs as [|r rs IH]; intros l; cbn [apply_rows].
  - by intros [= <-].
  - destruct (f r); [|done]. destruct (apply_rows f rs) as [l'|]; [|done].
    intros [= <-]. cbn [length]. by rewrite (IH l').
Qed.

Lemma apply_rows_lookup (f : Row -> outcome cell) (rs : list Row) (l : list cell) i r :
  apply_rows f rs = Ok l -> rs !! i = Some r -> exists c, f r = Ok c /\ l !! i = Some c.
Proof.
  revert l i. induction rs as [|r0 rs IH]; intros l i; cbn [apply_rows]; [done|].
  destruct (f r0) as [c0|] eqn:E0; [|done].
  destruct (apply_rows f rs) as [l'|]; [|done]. intros [= <-].
  destruct i as [|i]; cbn.
  - intros [= <-]. by exists c0.
  - intros Hi. by apply (IH l').
Qed.

Lemma apply_rows_total (f : Row -> outcome cell) (rs : list Row) :
  Forall (fun r => exists c, f r = Ok c) rs -> exists l, apply_rows f rs = Ok l.
Proof.
  induction 1 as [|r rs [c Hc] _ [l IH]]; [by exists []|].
  exists (c :: l). cbn [apply_rows]. by rewrite Hc, IH.
Qed.

Lemma spec_segment_lost (score : Z) : spec_segment score = "Lost Customers" -> score < 5.
Proof.
  unfold spec_segment, segment_thresholds. cbn [first_reached].
  destruct (13 <=? score) eqn:E1; [done|]. destruct (10 <=? score) eqn:E2; [done|].
  destruct (7 <=? score) eqn:E3; [done|]. destruct (5 <=? score) eqn:E4; [done|].
  intros _. lia.
Qed.

Section SegmentTable.
Context `{Pandas}.

Lemma create_customer_segments_table s cm d segments :
  heap s !! cm = Some d -> well_formed d ->
  apply_rows (classify_rfm d) (rows d) = Ok segments ->
  exists d' lg,
    create_customer_segments cm s
    = (Ok cm, mkState (<[cm := d']> (heap s)) (log s ++ lg)) /\
    df_getitem d' "CustomerSegment" = Ok segments /\
    (forall c, c <> "CustomerSegment" -> df_getitem d' c = df_getitem d c) /\
    length (rows d') = length (rows d) /\ well_formed d'.
Proof.
  intros Hcm Hwf Happly.
  destruct (df_setitem_spec d "CustomerSegment" segments Hwf (apply_rows_length _ _ _ Happly))
    as (d' & Hset & Hwf' & Hlen & Hget & Hother).
  assert (<[cm := d']> (heap s) !! cm = Some d') as Hnew by (by eapply lookup_assigned).
  destruct (log_segments_run cm d' (value_counts segments)
              (mkState (<[cm := d']> (heap s))
                 (log s ++ [mkLog INFO "Customer segmentation complete:" []])) Hnew)
    as [lg Hloop].
  exists d', ([mkLog INFO "Customer segmentation complete:" []] ++ lg).
  split; [|done].
  unfold create_customer_segments, apply_axis1. rewrite bind_bind.
  mstep. mstep. rewrite Happly. mstep. rewrite Hset.
  erewrite getitem_bind by exact Hnew. rewrite Hget. mstep.
  unfold bind at 1. rewrite Hloop. cbn [heap log]. by rewrite <- app_assoc.
Qed.

Lemma create_customer_segments_raise s cm d e :
  heap s !! cm = Some d ->
  apply_rows (classify_rfm d) (rows d) = Raise e ->
  create_customer_segments cm s = (Raise e, s).
Proof.
  intros Hcm Happly.
  unfold create_customer_segments, apply_axis1. rewrite bind_bind.
  mstep. mstep. by rewrite Happly.
Qed.

Lemma classify_rfm_numbers d row iR iF iM :
  col_pos "R_Score" (columns d) = Some iR ->
  col_pos "F_Score" (columns d) = Some iF ->
  col_pos "M_Score" (columns d) = Some iM ->
  is_number (cell_at iR row) || isna (cell_at iR row) = true ->
  is_number (cell_at iF row) || isna (cell_at iF row) = true ->
  is_number (cell_at iM row) || isna (cell_at iM row) = true ->
  exists l,
    classify_rfm d row = Ok (Str l) /\ l ∈ segment_labels /\
    (isna (cell_at iR row) || isna (cell_at iF row) || isna (cell_at iM row) = true ->
     l = "Lost Customers").
Proof.
  intros HR HF HM. unfold classify_rfm, row_getitem. rewrite HR, HF, HM.
  destruct (cell_at iR row), (cell_at iF row), (cell_at iM row); try done; intros _ _ _;
    cbn [obind cell_add cell_ge cmp_cell isna orb];
    repeat (match goal with |- context [if ?b then _ else _] => destruct b end);
    eexists; (split; [reflexivity|]); (split; [|done]);
    apply (bool_decide_unpack _); vm_compute; exact I.
Qed.

End SegmentTable.

Lemma classify_int_scores (P : Pandas) (d : DataFrame) (rs fs ms : list Z) :
  df_getitem d "R_Score" = Ok (map Int rs) ->
  df_getitem d "F_Score" = Ok (map Int fs) ->
  df_getitem d "M_Score" = Ok (map Int ms) ->
  exists segments,
    apply_rows (classify_rfm d) (rows d) = Ok segments /\
    forall i r f m,
      rs !! i = Some r -> fs !! i = Some f -> ms !! i = Some m ->
      segments !! i = Some (Str (spec_segment (r + f + m))).
Proof.
  intros HR HF HM.
  pose proof (df_getitem_length _ _ _ HR) as LR. rewrite length_map in LR.
  unfold df_getitem in HR, HF, HM.
  destruct (col_pos "R_Score" (columns d)) as [iR|] eqn:ER; [|done].
  destruct (col_pos "F_Score" (columns d)) as [iF|] eqn:EF; [|done].
  destruct (col_pos "M_Score" (columns d)) as [iM|] eqn:EM; [|done].
  injection HR as HR. injection HF as HF. injection HM as HM.
  assert (forall i row, rows d !! i = Some row ->
            exists r f m, rs !! i = Some r /\ fs !! i = Some f /\ ms !! i = Some m /\
              classify_rfm d row = Ok (Str (spec_segment (r + f + m)))) as Hrow.
  { intros i row Hi.
    assert (map (cell_at iR) (rows d) !! i = Some (cell_at iR row)) as H1
      by (change (map ?f ?l) with (f <$> l); by rewrite list_lookup_fmap, Hi).
    assert (map (cell_at iF) (rows d) !! i = Some (cell_at iF row)) as H2
      by (change (map ?f ?l) with (f <$> l); by rewrite list_lookup_fmap, Hi).
    assert (map (cell_at iM) (rows d) !! i = Some (cell_at iM row)) as H3
      by (change (map ?f ?l) with (f <$> l); by rewrite list_lookup_fmap, Hi).
    rewrite HR in H1. rewrite HF in H2. rewrite HM in H3.
    change (map Int ?l) with (Int <$> l) in H1, H2, H3.
    rewrite list_lookup_fmap in H1, H2, H3.
    destruct (rs !! i) as [r|]; [|done]. destruct (fs !! i) as [f|]; [|done].
    destruct (ms !! i) as [m|]; [|done]. cbn in H1, H2, H3.
    exists r, f, m. repeat split. eapply classify_rfm_int; try eassumption; congruence. }
  destruct (apply_rows_total (classify_rfm d) (rows d)) as [segments Happly].
  { apply Forall_lookup. intros i row Hi.
    destruct (Hrow i row Hi) as (r & f & m & _ & _ & _ & Hc). by eexists. }
  exists segments. split; [done|]. intros i r f m Hr Hf Hm.
  destruct (rows d !! i) as [row|] eqn:Hi.
  - destruct (Hrow i row Hi) as (r' & f' & m' & Hr' & Hf' & Hm' & Hc).
    destruct (apply_rows_lookup _ _ _ i row Happly Hi) as (c & Hc' & Hl).
    rewrite Hl. congruence.
  - apply lookup_ge_None in Hi. apply lookup_lt_Some in Hr. lia.
Qed.

(** X20: scoring and then segmenting, as the feature pipeline does.  On a
    customer table with at least one row and numbers in its three metric
    columns, create_rfm_scores and then create_customer_segments both
    return the caller's table; it keeps the three scores, each from 1 to
    5, and every customer gets the label of the sum of its scores, a sum
    from 3 to 15.  With fewer than five customers nobody is labelled Lost
    Customers.  The columns other than the four score columns and the
    segment are as before. *)
Theorem scoring_then_segmenting (P : Pandas) (s : state) (cm : ref) (d : DataFrame)
    (rec freq mon : list cell) :
  heap s !! cm = Some d -> well_formed d -> rows d <> [] ->
  df_getitem d "Recency_Days" = Ok rec ->
  df_getitem d "TotalOrders" = Ok freq ->
  df_getitem d "CustomerLifetimeValue" = Ok mon ->
  Forall (fun c => is_number c = true) rec ->
  Forall (fun c => is_number c = true) freq ->
  Forall (fun c => is_number c = true) mon ->
  exists s1 s2 d2 rs fs ms segments,
    create_rfm_scores cm s = (Ok cm, s1) /\
    create_customer_segments cm s1 = (Ok cm, s2) /\
    heap s2 !! cm = Some d2 /\
    df_getitem d2 "R_Score" = Ok (map Int rs) /\
    df_getitem d2 "F_Score" = Ok (map Int fs) /\
    df_getitem d2 "M_Score" = Ok (map Int ms) /\
    df_getitem d2 "CustomerSegment" = Ok segments /\
    length segments = length (rows d) /\
    (forall i, (i < length (rows d))%nat ->
       exists r f m,
         rs !! i = Some r /\ fs !! i = Some f /\ ms !! i = Some m /\
         1 <= r <= 5 /\ 1 <= f <= 5 /\ 1 <= m <= 5 /\
         segments !! i = Some (Str (spec_segment (r + f + m)))) /\
    ((length (rows d) < 5)%nat -> Str "Lost Customers" ∉ segments) /\
    (forall c, c ∉ "CustomerSegment" :: score_columns -> df_getitem d2 c = df_getitem d c).
Proof.
  intros Hcm Hwf Hne Hrec Hfreq Hmon Nrec Nfreq Nmon.
  destruct (@create_rfm_scores_table P s cm d rec freq mon Hcm Hwf Hrec Hfreq Hmon
              Nrec Nfreq Nmon)
    as (d1 & rfm & Hrun1 & GR & GF & GM & _ & _ & Hother1 & Hlen1 & Hwf1).
  pose proof (df_getitem_length _ _ _ Hrec) as Lrec.
  pose proof (df_getitem_length _ _ _ Hfreq) as Lfreq.
  pose proof (df_getitem_length _ _ _ Hmon) as Lmon.
  pose proof (df_getitem_length _ _ _ GR) as LR. rewrite length_map in LR.
  pose proof (df_getitem_length _ _ _ GF) as LF. rewrite length_map in LF.
  pose proof (df_getitem_length _ _ _ GM) as LM. rewrite length_map in LM.
  destruct (classify_int_scores P d1 _ _ _ GR GF GM) as (segments & Happly & Hseg).
  set (s1 := mkState (<[cm := d1]> (heap s))
               (log s ++ [mkLog INFO "Creating RFM scores..." [];
                          mkLog INFO "RFM scores created (1-5 scale)" []])) in *.
  assert (heap s1 !! cm = Some d1) as Hcm1 by (cbn [heap s1]; by eapply lookup_assigned).
  destruct (@create_customer_segments_table P s1 cm d1 segments Hcm1 Hwf1 Happly)
    as (d2 & lg & Hrun2 & GS & Hother2 & Hlen2 & Hwf2).
  pose proof (apply_rows_length _ _ _ Happly) as LS.
  assert (forall i, (i < length (rows d))%nat ->
            exists r f m,
              recency_scores rec !! i = Some r /\ direct_scores freq !! i = Some f /\
              direct_scores mon !! i = Some m /\
              1 <= r <= 5 /\ 1 <= f <= 5 /\ 1 <= m <= 5 /\
              segments !! i = Some (Str (spec_segment (r + f + m)))) as Hall.
  { intros i Hi.
    destruct (lookup_lt_is_Some_2 (recency_scores rec) i) as [r Hr]; [lia|].
    destruct (lookup_lt_is_Some_2 (direct_scores freq) i) as [f Hf]; [lia|].
    destruct (lookup_lt_is_Some_2 (direct_scores mon) i) as [m Hm]; [lia|].
    exists r, f, m. split; [done|]. split; [done|]. split; [done|].
    split; [exact (Forall_lookup_1 _ _ _ _ (recency_scores_range rec) Hr)|].
    split; [exact (Forall_lookup_1 _ _ _ _ (direct_scores_range freq) Hf)|].
    split; [exact (Forall_lookup_1 _ _ _ _ (direct_scores_range mon) Hm)|].
    by apply Hseg. }
  exists s1, (mkState (<[cm := d2]> (heap s1)) (log s1 ++ lg)), d2,
    (recency_scores rec), (direct_scores freq), (direct_scores mon), segments.
  split; [exact Hrun1|]. split; [exact Hrun2|].
  split; [cbn [heap]; by eapply lookup_assigned|].
  split; [by rewrite Hother2|]. split; [by rewrite Hother2|]. split; [by rewrite Hother2|].
  split; [exact GS|]. split; [lia|]. split; [exact Hall|]. split.
  - intros Hn [i Hi]%list_elem_of_lookup.
    pose proof (lookup_lt_Some _ _ _ Hi) as Hlt.
    destruct (Hall i ltac:(lia)) as (r & f & m & Hr & Hf & Hm & Rr & _ & _ & Hl).
    rewrite Hl in Hi. injection Hi as Hi. apply spec_segment_lost in Hi.
    assert (forall col, length col = length (rows d) ->
              forall z, direct_scores col !! i = Some z -> 2 <= z) as Hfew.
    { intros col Hl' z. rewrite direct_scores_ranks.
      change (map ?g ?l) with (g <$> l). rewrite list_lookup_fmap.
      destruct (ranks col !! i) as [k|] eqn:Hk; [|done]. intros [= <-].
      assert (k ∈ seq 1 (length col)) as [Hk1 Hk2]%elem_of_seq
        by (rewrite <- ranks_perm; by eapply list_elem_of_lookup_2).
      apply quintile_few; lia. }
    pose proof (Hfew freq Lfreq f Hf). pose proof (Hfew mon Lmon m Hm). lia.
  - intros c Hc. rewrite Hother2, Hother1; [done| |].
    + intros Hin. apply Hc. by right.
    + intros ->. apply Hc. by left.
Qed.

Lemma scoring_then_segmenting_witness :
  exists s1 s2 d2 segments,
    @create_rfm_scores iso_pandas 0%nat (only sample_customers) = (Ok 0%nat, s1) /\
    @create_customer_segments iso_pandas 0%nat s1 = (Ok 0%nat, s2) /\
    heap s2 !! 0%nat = Some d2 /\
    df_getitem d2 "CustomerSegment" = Ok segments /\
    length segments = 7%nat.
Proof.
  destruct (scoring_then_segmenting iso_pandas (only sample_customers) 0%nat
              sample_customers
              [Int 1; Int 100; Int 10; Int 10; Int 300; Int 30; Int 7]
              [Int 5; Int 1; Int 2; Int 2; Int 9; Int 3; Int 3]
              [Float 1000; Float 50; Float 500; Float 70; Float 20; Float 90; Float 95]
              eq_refl ltac:(repeat constructor) ltac:(discriminate) eq_refl eq_refl eq_refl
              ltac:(repeat constructor) ltac:(repeat constructor)
              ltac:(repeat constructor))
    as (s1 & s2 & d2 & rs & fs & ms & segments & H1 & H2 & Hd & _ & _ & _ & GS & Hl & _).
  exists s1, s2, d2, segments. repeat split; assumption.
Defined.

Lemma col_pos_missing (c : string) (cols : list string) : c ∉ cols -> col_pos c cols = None.
Proof.
  intros Hc. destruct (col_pos c cols) eqn:E; [|done].
  destruct Hc. apply col_pos_elem. by eexists.
Qed.

Lemma column_cell_first (d : DataFrame) (c : string) (col : list cell) (row : Row)
    (rest : list Row) (i : nat) :
  rows d = row :: rest -> df_getitem d c = Ok col -> col_pos c (columns d) = Some i ->
  exists rest', col = cell_at i row :: rest'.
Proof.
  intros Hrows Hget Hi. unfold df_getitem in Hget. rewrite Hi, Hrows in Hget.
  injection Hget as <-. by eexists.
Qed.

(** X21: create_customer_segments needs the three score columns.  On a
    table with at least one row, the first of R_Score, F_Score and M_Score
    that is missing is reported as a KeyError (for M_Score: when the first
    customer's R and F scores are numbers or missing values, so that their
    sum can be taken), and the table and the log are left as they were: no
    CustomerSegment column is written. *)
Theorem segments_need_the_three_scores (P : Pandas) (s : state) (cm : ref)
    (d : DataFrame) :
  heap s !! cm = Some d -> rows d <> [] ->
  ("R_Score" ∉ columns d ->
   create_customer_segments cm s = (Raise (KeyError "R_Score"), s)) /\
  ("R_Score" ∈ columns d -> "F_Score" ∉ columns d ->
   create_customer_segments cm s = (Raise (KeyError "F_Score"), s)) /\
  (forall rs fs,
     df_getitem d "R_Score" = Ok rs -> df_getitem d "F_Score" = Ok fs ->
     Forall (fun c => is_number c || isna c = true) (firstn 1 rs) ->
     Forall (fun c => is_number c || isna c = true) (firstn 1 fs) ->
     "M_Score" ∉ columns d ->
     create_customer_segments cm s = (Raise (KeyError "M_Score"), s)).
Proof.
  intros Hcm Hne. destruct (rows d) as [|row rest] eqn:Hrows; [done|].
  split; [|split].
  - intros HR. apply (create_customer_segments_raise s cm d _ Hcm).
    rewrite Hrows. cbn [apply_rows]. unfold classify_rfm, row_getitem.
    by rewrite (col_pos_missing _ _ HR).
  - intros [iR HR]%col_pos_elem HF. apply (create_customer_segments_raise s cm d _ Hcm).
    rewrite Hrows. cbn [apply_rows]. unfold classify_rfm, row_getitem.
    by rewrite HR, (col_pos_missing _ _ HF).
  - intros rs fs GR GF NR NF HM. apply (create_customer_segments_raise s cm d _ Hcm).
    destruct (col_pos "R_Score" (columns d)) as [iR|] eqn:HR;
      [|unfold df_getitem in GR; by rewrite HR in GR].
    destruct (col_pos "F_Score" (columns d)) as [iF|] eqn:HF;
      [|unfold df_getitem in GF; by rewrite HF in GF].
    destruct (column_cell_first d _ rs row rest iR Hrows GR HR) as [rs' ->].
    destruct (column_cell_first d _ fs row rest iF Hrows GF HF) as [fs' ->].
    apply Forall_cons_1 in NR as [NR _]. apply Forall_cons_1 in NF as [NF _].
    rewrite Hrows. cbn [apply_rows]. unfold classify_rfm, row_getitem.
    rewrite HR, HF, (col_pos_missing _ _ HM).
    by destruct (cell_at iR row), (cell_at iF row).
Qed.

Lemma segments_need_the_three_scores_witness :
  @create_customer_segments iso_pandas 0%nat (only sample_customers)
  = (Raise (KeyError "R_Score"), only sample_customers).
Proof.
  apply (proj1 (segments_need_the_three_scores iso_pandas (only sample_customers) 0%nat
                  sample_customers eq_refl ltac:(discriminate))).
  apply (bool_decide_unpack _). vm_compute. exact I.
Defined.

(** X22: a customer without a score is a lost customer.  On a table with at
    least one row whose three score columns hold numbers, whole or not, or
    missing values (NaN), create_customer_segments labels every customer
    with one of the five segments, and a customer with a missing value
    among its three scores is labelled Lost Customers: no comparison of
    the sum with a threshold holds. *)
Theorem missing_score_is_lost_customer (P : Pandas) (s : state) (cm : ref)
    (d : DataFrame) (rs fs ms : list cell) :
  heap s !! cm = Some d -> well_formed d -> rows d <> [] ->
  df_getitem d "R_Score" = Ok rs ->
  df_getitem d "F_Score" = Ok fs ->
  df_getitem d "M_Score" = Ok ms ->
  Forall (fun c => is_number c || isna c = true) rs ->
  Forall (fun c => is_number c || isna c = true) fs ->
  Forall (fun c => is_number c || isna c = true) ms ->
  exists s' d' segments,
    create_customer_segments cm s = (Ok cm, s') /\
    heap s' !! cm = Some d' /\
    df_getitem d' "CustomerSegment" = Ok segments /\
    length segments = length (rows d) /\
    Forall (fun c => exists l, c = Str l /\ l ∈ segment_labels) segments /\
    forall i r f m,
      rs !! i = Some r -> fs !! i = Some f -> ms !! i = Some m ->
      isna r || isna f || isna m = true ->
      segments !! i = Some (Str "Lost Customers").
Proof.
  intros Hcm Hwf Hne HR HF HM NR NF NM.
  unfold df_getitem in HR, HF, HM.
  destruct (col_pos "R_Score" (columns d)) as [iR|] eqn:ER; [|done].
  destruct (col_pos "F_Score" (columns d)) as [iF|] eqn:EF; [|done].
  destruct (col_pos "M_Score" (columns d)) as [iM|] eqn:EM; [|done].
  injection HR as HR. injection HF as HF. injection HM as HM.
  assert (forall i row, rows d !! i = Some row ->
            rs !! i = Some (cell_at iR row) /\ fs !! i = Some (cell_at iF row) /\
            ms !! i = Some (cell_at iM row)) as Hcells.
  { intros i row Hi. rewrite <- HR, <- HF, <- HM.
    change (map ?f ?l) with (f <$> l). by rewrite !list_lookup_fmap, Hi. }
  assert (forall i row, rows d !! i = Some row ->
            exists l, classify_rfm d row = Ok (Str l) /\ l ∈ segment_labels /\
              (isna (cell_at iR row) || isna (cell_at iF row) || isna (cell_at iM row) = true ->
               l = "Lost Customers")) as Hrow.
  { intros i row Hi. destruct (Hcells i row Hi) as (Hr & Hf & Hm).
    apply classify_rfm_numbers; try done.
    - exact (Forall_lookup_1 _ _ _ _ NR Hr).
    - exact (Forall_lookup_1 _ _ _ _ NF Hf).
    - exact (Forall_lookup_1 _ _ _ _ NM Hm). }
  destruct (apply_rows_total (classify_rfm d) (rows d)) as [segments Happly].
  { apply Forall_lookup. intros i row Hi.
    destruct (Hrow i row Hi) as (l & Hl & _). by eexists. }
  destruct (@create_customer_segments_table P s cm d segments Hcm Hwf Happly)
    as (d' & lg & Hrun & GS & _).
  pose proof (apply_rows_length _ _ _ Happly) as LS.
  eexists _, d', segments. split; [exact Hrun|].
  split; [cbn [heap]; by eapply lookup_assigned|]. split; [exact GS|]. split; [exact LS|].
  split.
  - apply Forall_lookup. intros i c Hi.
    destruct (lookup_lt_is_Some_2 (rows d) i) as [row Hrw];
      [rewrite <- LS; by eapply lookup_lt_Some|].
    destruct (apply_rows_lookup _ _ _ i row Happly Hrw) as (c' & Hc' & Hl).
    destruct (Hrow i row Hrw) as (l & Hcl & Hin & _).
    exists l. split; [congruence | done].
  - intros i r f m Hr Hf Hm Hna.
    destruct (lookup_lt_is_Some_2 (rows d) i) as [row Hrw].
    { apply lookup_lt_Some in Hr. rewrite <- HR, length_map in Hr. done. }
    destruct (Hcells i row Hrw) as (Hr' & Hf' & Hm').
    destruct (apply_rows_lookup _ _ _ i row Happly Hrw) as (c' & Hc' & Hl).
    destruct (Hrow i row Hrw) as (l & Hcl & _ & Hlost).
    assert (cell_at iR row = r /\ cell_at iF row = f /\ cell_at iM row = m)
      as (Er & Ef & Em) by (repeat split; congruence).
    rewrite Er, Ef, Em in Hlost. rewrite (Hlost Hna) in Hcl. congruence.
Qed.

Lemma missing_score_is_lost_customer_witness :
  exists s' d' segments,
    @create_customer_segments iso_pandas 0%nat (only partly_scored_customers)
    = (Ok 0%nat, s') /\
    heap s' !! 0%nat = Some d' /\
    df_getitem d' "CustomerSegment" = Ok segments /\
    segments !! 1%nat = Some (Str "Lost Customers").
Proof.
  destruct (missing_score_is_lost_customer iso_pandas (only partly_scored_customers) 0%nat
              partly_scored_customers [Float 5; Null] [Float 5; Float 1] [Float 5; Float 2]
              eq_refl ltac:(repeat constructor) ltac:(discriminate)
              eq_refl eq_refl eq_refl
              ltac:(repeat constructor) ltac:(repeat constructor)
              ltac:(repeat constructor))
    as (s' & d' & segments & Hrun & Hd' & Hcol & _ & _ & Hseg).
  exists s', d', segments. split; [exact Hrun|]. split; [exact Hd'|].
  split; [exact Hcol|].
  exact (Hseg 1%nat Null (Float 1) (Float 2) eq_refl eq_refl eq_refl eq_refl).
Defined.

(** ** Column names *)

Lemma set_columns_bind {B} s r d names (k : unit -> M B) :
  heap s !! r = Some d -> length names = length (columns d) ->
  bind (set_columns r names) k s
  = k tt (mkState (<[r := mkDF names (rows d)]> (heap s)) (log s)).
Proof.
  intros Hr Hl. unfold set_columns. rewrite !bind_bind.
  erewrite deref_bind by exact Hr. rewrite ?bind_bind. unfold df_set_columns.
  rewrite Hl, Nat.eqb_refl. by rewrite lift_bind, assign_bind.
Qed.

Lemma get_columns_bind {B} s r d (k : list string -> M B) :
  heap s !! r = Some d -> bind (get_columns r) k s = k (columns d) s.
Proof.
  intros Hr. unfold get_columns. rewrite bind_bind.
  erewrite deref_bind by exact Hr. by rewrite ret_bind.
Qed.

(** What [standardize_column_names] does to a state in which [df] is
    bound. *)
Lemma standardize_column_names_run s df d style :
  heap s !! df = Some d ->
  standardize_column_names df style s
  = let renamed names :=
      (Ok (inr (length (heap s))),
       mkState (heap s ++ [mkDF names (rows d)])
         (log s ++ [mkLog INFO "Column names standardized" [AStr style]])) in
    if String.eqb style "snake_case" then
      renamed (map (fun c => str_lower (str_replace_space "_" c)) (columns d))
    else if String.eqb style "camelCase" then
      match lower_first_all (map (str_replace_space "") (columns d)) with
      | inl e =>
          (Ok (inl e),
           mkState (heap s ++ [mkDF (map (str_replace_space "") (columns d)) (rows d)])
             (log s))
      | inr names => renamed names
      end
    else if String.eqb style "PascalCase" then
      renamed (map (str_replace_space "") (columns d))
    else renamed (columns d).
Proof.
  intros Hdf. unfold standardize_column_names.
  erewrite copy_bind by exact Hdf.
  assert ((heap s ++ [d]) !! length (heap s) = Some d) as Hnew by apply lookup_fresh.
  destruct (String.eqb style "snake_case").
  { rewrite !bind_bind. erewrite get_columns_bind by exact Hnew.
    rewrite bind_bind. erewrite set_columns_bind by (exact Hnew || apply length_map).
    cbn [heap log]. rewrite insert_fresh. reflexivity. }
  destruct (String.eqb style "camelCase").
  { rewrite !bind_bind. erewrite get_columns_bind by exact Hnew.
    rewrite bind_bind. erewrite set_columns_bind by (exact Hnew || apply length_map).
    cbn [heap log]. rewrite insert_fresh.
    rewrite bind_bind. erewrite get_columns_bind by apply lookup_fresh.
    cbn [columns rows].
    assert (forall cols names, lower_first_all cols = inr names -> length names = length cols)
      as Hlen.
    { induction cols as [|c cols IH]; intros names; cbn [lower_first_all].
      - by intros [= <-].
      - destruct (lower_first c); [done|]. destruct (lower_first_all cols); [done|].
        intros [= <-]. cbn [length]. by rewrite (IH l). }
    destruct (lower_first_all (map (str_replace_space "") (columns d))) as [e|names] eqn:E.
    - reflexivity.
    - rewrite bind_bind.
      erewrite set_columns_bind
        by (apply lookup_fresh || (cbn [columns]; by apply Hlen)).
      cbn [heap log rows]. rewrite insert_fresh. reflexivity. }
  destruct (String.eqb style "PascalCase").
  { rewrite !bind_bind. erewrite get_columns_bind by exact Hnew.
    rewrite bind_bind. erewrite set_columns_bind by (exact Hnew || apply length_map).
    cbn [heap log]. rewrite insert_fresh. reflexivity. }
  by destruct d.
Qed.

Lemma ascii_lower_not_upper a : is_upper (ascii_lower a) = false.
Proof. by destruct a as [[] [] [] [] [] [] [] []]. Qed.

Lemma ascii_lower_space a : a <> " "%char -> ascii_lower a <> " "%char.
Proof. by destruct a as [[] [] [] [] [] [] [] []]. Qed.

Lemma ascii_lower_id a : is_upper a = false -> ascii_lower a = a.
Proof. unfold ascii_lower. by intros ->. Qed.

Lemma replace_space_no_space (r s : string) :
  no_space r -> no_space (str_replace_space r s).
Proof.
  intros Hr. unfold no_space in *. induction s as [|a s IH]; cbn [str_replace_space].
  - constructor.
  - destruct (Ascii.eqb_spec a " ") as [->|Hne].
    + assert (forall x y, list_ascii_of_string (x ++ y)
                          = list_ascii_of_string x ++ list_ascii_of_string y) as Happ
        by (induction x as [|b x IHx]; intros y; [done|];
            change (String b x ++ y)%string with (String b (x ++ y)%string);
            cbn [list_ascii_of_string]; by rewrite IHx).
      rewrite Happ. by apply Forall_app.
    + cbn [list_ascii_of_string]. by constructor.
Qed.

Lemma replace_space_id (r s : string) : no_space s -> str_replace_space r s = s.
Proof.
  unfold no_space. induction s as [|a s IH]; cbn [str_replace_space list_ascii_of_string].
  - done.
  - intros [Ha Hs]%Forall_cons_1. destruct (Ascii.eqb_spec a " ") as [->|_]; [done|].
    by rewrite IH.
Qed.

Lemma str_lower_snake (s : string) : no_space s -> snake_name (str_lower s).
Proof.
  unfold no_space, snake_name.
  induction s as [|a s IH]; cbn [str_lower list_ascii_of_string]; [constructor|].
  intros [Ha Hs]%Forall_cons_1. constructor; [|by apply IH].
  split; [by apply ascii_lower_space | apply ascii_lower_not_upper].
Qed.

Lemma snake_name_fixed (s : string) :
  snake_name s -> str_lower (str_replace_space "_" s) = s.
Proof.
  unfold snake_name.
  induction s as [|a s IH]; cbn [str_replace_space list_ascii_of_string]; [done|].
  intros [[Ha Hu] Hs]%Forall_cons_1. destruct (Ascii.eqb_spec a " ") as [->|_]; [done|].
  cbn [str_lower]. by rewrite IH, ascii_lower_id.
Qed.

Lemma snake_names_fixed (cols : list string) :
  Forall snake_name cols ->
  map (fun c => str_lower (str_replace_space "_" c)) cols = cols.
Proof.
  induction 1 as [|c cols Hc _ IH]; [done|]. cbn [map]. by rewrite IH, snake_name_fixed.
Qed.

Lemma snake_names_made (cols : list string) :
  Forall snake_name (map (fun c => str_lower (str_replace_space "_" c)) cols).
Proof.
  apply Forall_map, Forall_forall. intros c _.
  apply str_lower_snake, replace_space_no_space.
  unfold no_space. cbn. by repeat constructor.
Qed.

(** X23: snake_case names.  For every table, standardize_column_names with
    the style snake_case returns a new table with the rows of the caller's
    and as many columns, none of whose names holds a space or a capital
    letter; the caller's table is not touched.  A table whose names are
    already so is returned as an equal copy, hence a second call changes
    nothing more. *)
Theorem snake_case_names (s : state) (df : ref) (d : DataFrame) :
  heap s !! df = Some d -> Forall ascii_name (columns d) ->
  exists s1 d1,
    standardize_column_names df "snake_case" s = (Ok (inr (length (heap s))), s1) /\
    heap s1 = heap s ++ [d1] /\
    rows d1 = rows d /\
    length (columns d1) = length (columns d) /\
    Forall snake_name (columns d1) /\
    (Forall snake_name (columns d) -> d1 = d) /\
    exists s2,
      standardize_column_names (length (heap s)) "snake_case" s1
      = (Ok (inr (length (heap s1))), s2) /\
      heap s2 = heap s1 ++ [d1].
Proof.
  intros Hdf _.
  set (names := map (fun c => str_lower (str_replace_space "_" c)) (columns d)).
  set (s1 := mkState (heap s ++ [mkDF names (rows d)])
               (log s ++ [mkLog INFO "Column names standardized" [AStr "snake_case"]])).
  exists s1, (mkDF names (rows d)).
  split; [by rewrite (standardize_column_names_run s df d _ Hdf)|].
  split; [done|]. split; [done|]. split; [apply length_map|].
  split; [apply snake_names_made|]. split.
  - intros Hs. unfold names. rewrite (snake_names_fixed _ Hs). by destruct d.
  - assert (heap s1 !! length (heap s) = Some (mkDF names (rows d))) as Hnew
      by apply lookup_fresh.
    rewrite (standardize_column_names_run s1 _ _ "snake_case" Hnew).
    eexists. split; [reflexivity|].
    cbn [heap columns rows]. by rewrite (snake_names_fixed names (snake_names_made _)).
Qed.

Lemma snake_case_names_witness :
  exists s1,
    standardize_column_names 0%nat "snake_case" (only spaced_names)
    = (Ok (inr 1%nat), s1) /\
    heap s1 = [spaced_names;
               mkDF ["invoice_no"; "unit_price"; "country"] (rows spaced_names)].
Proof.
  destruct (snake_case_names (only spaced_names) 0%nat spaced_names eq_refl
              ltac:(repeat constructor))
    as (s1 & d1 & Hrun & Hheap & _).
  exists s1. split; [exact Hrun|].
  assert (s1 = snd (standardize_column_names 0%nat "snake_case" (only spaced_names)))
    as -> by (by rewrite Hrun).
  reflexivity.
Defined.

Lemma remove_spaces_blank (c : string) : str_replace_space "" c = "" <-> blank c = true.
Proof.
  unfold blank. induction c as [|a c IH]; cbn [str_replace_space list_ascii_of_string forallb].
  - done.
  - destruct (Ascii.eqb a " "); [|done].
    change ("" ++ str_replace_space "" c)%string with (str_replace_space "" c).
    by rewrite IH.
Qed.

Lemma lower_first_all_spec (cols : list string) :
  match lower_first_all cols with
  | inl e => e = IndexError /\ "" ∈ cols
  | inr names =>
      Forall2 (fun old new => exists a rest, old = String a rest /\
                                new = String (ascii_lower a) rest) cols names
  end.
Proof.
  induction cols as [|c cols IH]; cbn [lower_first_all]; [constructor|].
  destruct c as [|a rest]; cbn [lower_first].
  - split; [done | apply list_elem_of_here].
  - destruct (lower_first_all cols) as [e|names].
    + destruct IH as [-> Hin]. split; [done | by apply list_elem_of_further].
    + constructor; [by eexists _, _ | done].
Qed.

Lemma blank_among (cols : list string) :
  "" ∈ map (str_replace_space "") cols <-> existsb blank cols = true.
Proof.
  rewrite existsb_exists. change (map ?f ?l) with (f <$> l). rewrite list_elem_of_fmap.
  split.
  - intros (c & Hc & Hin). exists c. split; [by apply list_elem_of_In|].
    by apply remove_spaces_blank.
  - intros (c & Hin & Hc). exists c. split; [symmetry; by apply remove_spaces_blank|].
    by apply list_elem_of_In.
Qed.

(** X24: camelCase names.  With the style camelCase the spaces are taken
    out of every name and its first character is put in lower case; the
    other letters stay as they are.  When a name is blank (empty, or spaces
    only) the call stops with an IndexError before anything is logged; the
    tables of the caller are as they were. *)
Theorem camel_case_names (s : state) (df : ref) (d : DataFrame) :
  heap s !! df = Some d -> Forall ascii_name (columns d) ->
  (existsb blank (columns d) = true ->
   exists junk,
     standardize_column_names df "camelCase" s
     = (Ok (inl IndexError), mkState (heap s ++ junk) (log s))) /\
  (existsb blank (columns d) = false ->
   exists s1 d1,
     standardize_column_names df "camelCase" s = (Ok (inr (length (heap s))), s1) /\
     heap s1 = heap s ++ [d1] /\
     rows d1 = rows d /\
     Forall2 (fun old new =>
                no_space new /\
                exists a rest, str_replace_space "" old = String a rest /\
                               new = String (ascii_lower a) rest)
       (columns d) (columns d1)).
Proof.
  intros Hdf _. rewrite (standardize_column_names_run s df d _ Hdf).
  cbn [String.eqb Ascii.eqb Bool.eqb andb]. cbv zeta.
  pose proof (lower_first_all_spec (map (str_replace_space "") (columns d))) as Hspec.
  destruct (lower_first_all (map (str_replace_space "") (columns d))) as [e|names].
  - destruct Hspec as [-> Hin%blank_among]. split; [by eexists|]. congruence.
  - split.
    + intros Hb%blank_among. exfalso.
      apply list_elem_of_lookup in Hb as [i Hi].
      destruct (Forall2_lookup_l _ _ _ i _ Hspec Hi) as (new & _ & a & rest & Hne & _).
      done.
    + intros _. eexists _, (mkDF names (rows d)). split; [reflexivity|].
      split; [done|]. split; [done|]. cbn [columns].
      apply Forall2_fmap_l in Hspec. eapply Forall2_impl; [exact Hspec|].
      intros old new (a & rest & Hold & ->). split; [|by eexists _, _].
      pose proof (replace_space_no_space "" old ltac:(constructor)) as Hns.
      cbn [compose] in Hold. rewrite Hold in Hns. unfold no_space in *.
      cbn [list_ascii_of_string] in *. apply Forall_cons_1 in Hns as [Ha Hrest].
      constructor; [by apply ascii_lower_space | done].
Qed.

Lemma camel_case_names_witness :
  exists junk,
    standardize_column_names 0%nat "camelCase" (only blank_name)
    = (Ok (inl IndexError), mkState ([blank_name] ++ junk) []).
Proof.
  apply (proj1 (camel_case_names (only blank_name) 0%nat blank_name eq_refl
                  ltac:(repeat constructor))).
  reflexivity.
Defined.

(** X25: the other styles never change a letter.  With PascalCase the
    spaces are taken out of the names and nothing else is done: no letter
    is put in upper case.  A style that is none of the three is accepted:
    the names stay as they are and the success message is logged all the
    same.  In both cases the result is a new table with the caller's
    rows, and a table whose names have no space is returned as an equal
    copy. *)
Theorem other_styles_keep_the_letters (s : state) (df : ref) (d : DataFrame)
    (style : string) :
  heap s !! df = Some d -> style <> "snake_case" -> style <> "camelCase" ->
  exists d1,
    standardize_column_names df style s
    = (Ok (inr (length (heap s))),
       mkState (heap s ++ [d1])
         (log s ++ [mkLog INFO "Column names standardized" [AStr style]])) /\
    rows d1 = rows d /\
    (style = "PascalCase" ->
     columns d1 = map (str_replace_space "") (columns d) /\ Forall no_space (columns d1)) /\
    (style <> "PascalCase" \/ Forall no_space (columns d) -> d1 = d).
Proof.
  intros Hdf Hsnake Hcamel. rewrite (standardize_column_names_run s df d _ Hdf).
  apply String.eqb_neq in Hsnake, Hcamel. rewrite Hsnake, Hcamel. cbv zeta.
  destruct (String.eqb_spec style "PascalCase") as [->|Hne].
  - eexists. split; [reflexivity|]. split; [done|]. split.
    + intros _. split; [done|]. cbn [columns]. apply Forall_map, Forall_forall.
      intros c _. apply replace_space_no_space. constructor.
    + intros [Hne|Hns]; [done|].
      assert (map (str_replace_space "") (columns d) = columns d) as ->.
      { induction Hns as [|c cols Hc _ IH]; [done|]. cbn [map].
        by rewrite IH, replace_space_id. }
      by destruct d.
  - exists d. split; [by destruct d|]. split; [done|]. split; [done|]. done.
Qed.

Lemma other_styles_keep_the_letters_witness :
  exists d1,
    standardize_column_names 0%nat "PascalCase" (only spaced_names)
    = (Ok (inr 1%nat),
       mkState ([spaced_names] ++ [d1])
         ([] ++ [mkLog INFO "Column names standardized" [AStr "PascalCase"]])) /\
    columns d1 = ["InvoiceNo"; "UnitPrice"; "country"].
Proof.
  destruct (other_styles_keep_the_letters (only spaced_names) 0%nat spaced_names
              "PascalCase" eq_refl ltac:(discriminate) ltac:(discriminate))
    as (d1 & Hrun & _ & Hcols & _).
  exists d1. split; [exact Hrun|]. exact (proj1 (Hcols eq_refl)).
Defined.

(** ** Quartiles and fences *)









Section OutlierRuns.
Context `{Stats}.


End OutlierRuns.













(** X28: what handle_outliers does not check.  A method that is neither
    iqr nor zscore is not refused: the table is copied, no outlier is
    looked for, and the call stops with an UnboundLocalError when it is
    about to log their number, whatever the column and the action, even
    for a column the table does not have.  With the method iqr a column
    the table does not have raises KeyError with its name.  In both cases
    nothing is logged and the caller's table is as it was. *)
Theorem outliers_unknown_method_or_column (St : Stats) (s : state) (df : ref)
    (d : DataFrame) (column method action : string) (threshold : Q) :
  heap s !! df = Some d ->
  (method <> "iqr" -> method <> "zscore" ->
   handle_outliers df column method threshold action s
   = (Ok (inl UnboundLocalError), mkState (heap s ++ [d]) (log s))) /\
  (column ∉ columns d ->
   handle_outliers df column "iqr" threshold action s
   = (Raise (KeyError column), mkState (heap s ++ [d]) (log s))).
Proof.
  intros Hdf. split.
  - intros Hiqr Hz. apply String.eqb_neq in Hiqr, Hz.
    unfold handle_outliers. mstep. mstep. rewrite Hiqr, Hz.
    by repeat (rewrite ?bind_bind; mstep).
  - intros Hc. unfold handle_outliers. mstep. mstep.
    cbn [String.eqb Ascii.eqb Bool.eqb]. rewrite !bind_bind. mstep.
    by rewrite (df_getitem_missing _ _ Hc).
Qed.

Lemma outliers_unknown_method_or_column_witness :
  @handle_outliers no_stats 0%nat "UnitPrice" "IQR" (3 # 2) "remove" (only sample_transactions)
  = (Ok (inl UnboundLocalError), mkState ([sample_transactions] ++ [sample_transactions]) []).
Proof.
  apply (proj1 (outliers_unknown_method_or_column no_stats (only sample_transactions) 0%nat
                  sample_transactions "UnitPrice" "IQR" "remove" (3 # 2) eq_refl));
    discriminate.
Defined.

(** ** Invoices *)

Lemma select_Forall {A} (P : A -> Prop) (m : list bool) (l : list A) :
  Forall P l -> Forall P (select m l).
Proof.
  intros Hl. revert m. induction Hl as [|x l Hx _ IH]; intros [|b m]; cbn [select];
    try constructor. destruct b; [by constructor | apply IH].
Qed.

Lemma int_sum_value (cs : list cell) :
  Forall (fun c => is_int c = true) cs ->
  (inject_Z (whole_sum cs) == sumq (map value_of cs))%Q.
Proof.
  induction 1 as [|c cs Hc _ IH]; [done|]. unfold whole_sum. cbn [map foldr sumq].
  fold (whole_sum cs). fold (sumq (map value_of cs)).
  destruct c; try discriminate. cbn [value_of]. by rewrite inject_Z_plus, IH.
Qed.

Lemma group_sum_number (whole : list cell) (m : list bool) :
  Forall (fun c => is_number c = true) whole ->
  exists v, group_sum whole (select m whole) = Ok v /\ is_number v = true /\
            (value_of v == sumq (map value_of (select m whole)))%Q.
Proof.
  intros Hnum. unfold group_sum. destruct (forallb is_int whole) eqn:E.
  - eexists. split; [reflexivity|]. split; [done|]. cbn [value_of].
    apply int_sum_value, select_Forall, Forall_forall. intros c Hc.
    rewrite forallb_forall in E. by apply E, list_elem_of_In.
  - rewrite (series_sum_numbers _ (select_Forall _ m _ Hnum)). cbn [obind].
    eexists. split; [reflexivity|]. split; [done|]. cbn [value_of]. apply Qred_correct.
Qed.

Lemma invoice_groups_rows keys by_col rs iP iQ iS iC iK iD n :
  Forall (fun r => is_number (cell_at iP r) = true) rs ->
  Forall (fun r => is_number (cell_at iQ r) = true) rs ->
  exists out,
    invoice_groups keys by_col rs
      [(iP, InvSum); (iQ, InvSum); (iS, InvNunique);
       (iC, InvFirst); (iK, InvFirst); (iD, InvFirst)] n = Ok out /\
    Forall2 (fun k r =>
               exists v q,
                 cells r = [k; v; q;
                            Int (series_nunique (lines_of k by_col (map (cell_at iS) rs)));
                            first_present (lines_of k by_col (map (cell_at iC) rs));
                            first_present (lines_of k by_col (map (cell_at iK) rs));
                            first_present (lines_of k by_col (map (cell_at iD) rs))] /\
                 is_number v = true /\
                 (value_of v == group_revenue k by_col (map (cell_at iP) rs))%Q /\
                 is_number q = true /\
                 (value_of q == group_revenue k by_col (map (cell_at iQ) rs))%Q)
      keys out.
Proof.
  intros HP HQ. revert n. induction keys as [|k keys IH]; intros n.
  - exists []. split; [done | constructor].
  - destruct (IH (n + 1)) as (out & Hout & Hall).
    cbn [invoice_groups invoice_group invoice_aggregate].
    set (mask := map (cell_eqb k) by_col).
    rewrite <- !(select_map _ mask rs).
    destruct (group_sum_number (map (cell_at iP) rs) mask) as (v & Ev & Nv & Vv);
      [by apply Forall_map|].
    destruct (group_sum_number (map (cell_at iQ) rs) mask) as (q & Eq & Nq & Vq);
      [by apply Forall_map|].
    rewrite Ev, Eq. cbn [obind]. rewrite Hout. cbn [obind].
    eexists. split; [reflexivity|]. constructor; [|exact Hall].
    exists v, q. by repeat split.
Qed.

Lemma first_present_spec (own : list cell) : first_value_of own (first_present own).
Proof.
  induction own as [|c own IH]; [left; by split|]. cbn [first_present].
  destruct (isna c) eqn:Hc.
  - destruct IH as [[Hall ->]|(i & Hi & Hna & Hbefore)].
    + left. split; [by constructor | done].
    + right. exists (S i). split; [done|]. split; [done|].
      intros [|i'] x Hlt; cbn; [by intros [= <-]|]. apply Hbefore. lia.
  - right. exists 0%nat. split; [done|]. split; [done|]. intros i' x Hlt. lia.
Qed.

Lemma create_invoice_metrics_run s df d invoices iP iQ iS iC iK iD :
  heap s !! df = Some d ->
  df_getitem d "InvoiceNo" = Ok invoices ->
  col_pos "TotalPrice" (columns d) = Some iP ->
  col_pos "Quantity" (columns d) = Some iQ ->
  col_pos "StockCode" (columns d) = Some iS ->
  col_pos "CustomerID" (columns d) = Some iC ->
  col_pos "Country" (columns d) = Some iK ->
  col_pos "InvoiceDate" (columns d) = Some iD ->
  Forall (fun r => is_number (cell_at iP r) = true) (rows d) ->
  Forall (fun r => is_number (cell_at iQ r) = true) (rows d) ->
  exists out,
    create_invoice_metrics df s
    = (Ok (length (heap s)),
       mkState (heap s ++ [mkDF invoice_columns out])
         (log s ++ [mkLog INFO "Creating invoice metrics..." [];
                    mkLog INFO "Created metrics for invoices"
                      [AInt (Z.of_nat (length out))]])) /\
    Forall2 (fun k r =>
               exists v q,
                 cells r = [k; v; q;
                            Int (series_nunique (lines_of k invoices (map (cell_at iS) (rows d))));
                            first_present (lines_of k invoices (map (cell_at iC) (rows d)));
                            first_present (lines_of k invoices (map (cell_at iK) (rows d)));
                            first_present (lines_of k invoices (map (cell_at iD) (rows d)))] /\
                 is_number v = true /\
                 (value_of v == group_revenue k invoices (map (cell_at iP) (rows d)))%Q /\
                 is_number q = true /\
                 (value_of q == group_revenue k invoices (map (cell_at iQ) (rows d)))%Q)
      (group_keys invoices) out.
Proof.
  intros Hdf Hinv HP HQ HS HC HK HD NP NQ.
  destruct (invoice_groups_rows (group_keys invoices) invoices (rows d) iP iQ iS iC iK iD 0
              NP NQ) as (out & Hout & Hall).
  exists out. split; [|exact Hall].
  unfold create_invoice_metrics. mstep. unfold groupby_invoices. rewrite !bind_bind.
  mstep. unfold df_groupby_invoices. rewrite Hinv. cbn [obind invoice_positions].
  rewrite HP, HQ, HS, HC, HK, HD. cbn [obind]. rewrite Hout. cbn [obind].
  rewrite ?bind_bind. mstep. mstep.
  erewrite set_columns_bind by (apply lookup_fresh || reflexivity).
  cbn [heap log rows]. rewrite insert_fresh.
  erewrite len_bind by apply lookup_fresh. cbn [rows].
  mstep. rewrite <- app_assoc. reflexivity.
Qed.


Lemma column_position (d : DataFrame) (c : string) (col : list cell) :
  df_getitem d c = Ok col ->
  exists i, col_pos c (columns d) = Some i /\ col = map (cell_at i) (rows d).
Proof.
  unfold df_getitem. destruct (col_pos c (columns d)) as [i|]; [|done].
  intros [= <-]. by exists i.
Qed.



(** X30: what an invoice keeps of its lines.  The customer, the country
    and the date of an invoice are those of its first line that has one,
    and are missing only when no line of the invoice has one; its number
    of products is the number of different stock codes on its lines.
    Without the InvoiceNo column the call raises KeyError with that name
    after its first log message, and no table is added or changed. *)
Theorem invoice_keeps_first_customer (s : state) (df : ref) (d : DataFrame) :
  heap s !! df = Some d ->
  ("InvoiceNo" ∉ columns d ->
   create_invoice_metrics df s
   = (Raise (KeyError "InvoiceNo"),
      mkState (heap s) (log s ++ [mkLog INFO "Creating invoice metrics..." []]))) /\
  (forall invoices prices quantities stock customers countries dates,
     df_getitem d "InvoiceNo" = Ok invoices ->
     df_getitem d "TotalPrice" = Ok prices ->
     df_getitem d "Quantity" = Ok quantities ->
     df_getitem d "StockCode" = Ok stock ->
     df_getitem d "CustomerID" = Ok customers ->
     df_getitem d "Country" = Ok countries ->
     df_getitem d "InvoiceDate" = Ok dates ->
     Forall (fun c => is_number c = true) prices ->
     Forall (fun c => is_number c = true) quantities ->
     exists s' im products cs ks ds,
       create_invoice_metrics df s = (Ok (length (heap s)), s') /\
       heap s' = heap s ++ [im] /\
       df_getitem im "UniqueProducts" = Ok products /\
       df_getitem im "CustomerID" = Ok cs /\
       df_getitem im "Country" = Ok ks /\
       df_getitem im "InvoiceDate" = Ok ds /\
       forall j k,
         group_keys invoices !! j = Some k ->
         products !! j = Some (Int (series_nunique (lines_of k invoices stock))) /\
         (exists c, cs !! j = Some c /\ first_value_of (lines_of k invoices customers) c) /\
         (exists c, ks !! j = Some c /\ first_value_of (lines_of k invoices countries) c) /\
         (exists c, ds !! j = Some c /\ first_value_of (lines_of k invoices dates) c)).
Proof.
  intros Hdf. split.
  - intros Hc. unfold create_invoice_metrics. mstep. unfold groupby_invoices.
    rewrite !bind_bind. mstep. unfold df_groupby_invoices.
    by rewrite (df_getitem_missing _ _ Hc).
  - intros invoices prices quantities stock customers countries dates
      Hinv Hpr Hqu Hst Hcu Hco Hda NP NQ.
    destruct (column_position _ _ _ Hpr) as (iP & HP & ->).
    destruct (column_position _ _ _ Hqu) as (iQ & HQ & ->).
    destruct (column_position _ _ _ Hst) as (iS & HS & ->).
    destruct (column_position _ _ _ Hcu) as (iC & HC & ->).
    destruct (column_position _ _ _ Hco) as (iK & HK & ->).
    destruct (column_position _ _ _ Hda) as (iD & HD & ->).
    apply Forall_map in NP, NQ.
    destruct (create_invoice_metrics_run s df d invoices iP iQ iS iC iK iD Hdf Hinv
                HP HQ HS HC HK HD NP NQ) as (out & Hrun & Hall).
    eexists _, (mkDF invoice_columns out), (map (cell_at 3) out), (map (cell_at 4) out),
      (map (cell_at 5) out), (map (cell_at 6) out).
    split; [exact Hrun|]. split; [done|].
    split; [reflexivity|]. split; [reflexivity|]. split; [reflexivity|].
    split; [reflexivity|].
    intros j k Hk.
    destruct (Forall2_lookup_l _ _ _ j k Hall Hk) as (r & Hr & v & q & Hcells & _).
    change (map ?f out) with (f <$> out). rewrite !list_lookup_fmap, Hr.
    cbn [fmap option_fmap option_map]. unfold cell_at at 1 3 5 7. rewrite Hcells. cbn [nth].
    split; [done|].
    split; [eexists; split; [done | apply first_present_spec]|].
    split; eexists; (split; [done | apply first_present_spec]).
Qed.

Lemma invoice_keeps_first_customer_witness :
  exists s' im cs,
    create_invoice_metrics 0%nat (only invoice_lines) = (Ok 1%nat, s') /\
    heap s' = [invoice_lines] ++ [im] /\
    df_getitem im "CustomerID" = Ok cs /\
    exists c, cs !! 0%nat = Some c /\
              first_value_of (lines_of (Str "536365")
                                [Str "536365"; Str "536365"; Str "536366"; Null]
                                [Null; Int 17850; Int 13047; Int 13047]) c.
Proof.
  destruct (proj2 (invoice_keeps_first_customer (only invoice_lines) 0%nat invoice_lines
                     eq_refl)
              [Str "536365"; Str "536365"; Str "536366"; Null]
              [Float (153 # 10); Float (2712 # 100); Float 5; Float (5 # 2)]
              [Int 6; Int 8; Int 2; Int 1]
              [Str "85123A"; Str "71053"; Str "22752"; Str "22752"]
              [Null; Int 17850; Int 13047; Int 13047]
              [Str "United Kingdom"; Str "United Kingdom"; Str "France"; Str "France"]
              [Timestamp 0; Timestamp 0; Timestamp 60; Timestamp 90]
              eq_refl eq_refl eq_refl eq_refl eq_refl eq_refl eq_refl
              ltac:(repeat constructor) ltac:(repeat constructor))
    as (s' & im & products & cs & ks & ds & Hrun & Hheap & _ & Hcs & _ & _ & Hfirst).
  exists s', im, cs. split; [exact Hrun|]. split; [exact Hheap|]. split; [exact Hcs|].
  exact (proj1 (proj2 (Hfirst 0%nat (Str "536365") eq_refl))).
Defined.
